(** * Withdrawal-clue matching: normalisation, warning enrichment, scoring

    A shallow embedding of [scoring_system.py] (class [WithdrawScoringSystem])
    and of [data_process.py] (class [DataProcessor]), with the properties of
    the system description stated and settled against it.

    Conventions of the embedding.
    - A Python [str] is a list of Unicode code points ([ustring]); literals
      are written [u "..."] and decoded from UTF-8.
    - A Python [float] is the rational it denotes, or one of the IEEE
      specials ([pyfloat]); rounding is not tracked.  Every comparison the
      source makes against a threshold is a comparison of the denoted
      numbers.
    - A naive [datetime] is a count of microseconds ([Z]), the resolution
      of [datetime] and [timedelta].
    - Code that can raise returns a [result]; [try]/[except] is a match on
      the exception.
    - Services of the Python runtime whose tables are not code of this
      repository (Unicode case mapping and digit class, [float()] on text,
      [str()] of a float, [strftime], date parsing) are the fields of a
      [Runtime] record that the definitions take as an argument. *)

From Stdlib Require Import ZArith NArith QArith Qabs List Bool Lia Lqa.
From Stdlib Require Import String Ascii.
From Stdlib Require Import Permutation Sorted DecimalString.
Import ListNotations.
Open Scope Z_scope.

(* ================================================================== *)
(** ** Python strings *)

Module PyStr.

Definition uchar := N.
Definition ustring := list uchar.

(** UTF-8 decoding, used only to write literals. *)
Fixpoint utf8_decode (bs : list N) : ustring :=
  match bs with
  | [] => []
  | b1 :: t1 =>
    if (b1 <? 128)%N then b1 :: utf8_decode t1
    else match t1 with
    | [] => [b1]
    | b2 :: t2 =>
      if (b1 <? 224)%N
      then ((b1 - 192) * 64 + (b2 - 128))%N :: utf8_decode t2
      else match t2 with
      | [] => [b1; b2]
      | b3 :: t3 =>
        if (b1 <? 240)%N
        then ((b1 - 224) * 4096 + (b2 - 128) * 64 + (b3 - 128))%N
               :: utf8_decode t3
        else match t3 with
        | [] => [b1; b2; b3]
        | b4 :: t4 =>
          ((b1 - 240) * 262144 + (b2 - 128) * 4096
            + (b3 - 128) * 64 + (b4 - 128))%N :: utf8_decode t4
        end
      end
    end
  end.

Definition u (s : string) : ustring :=
  utf8_decode (map N_of_ascii (list_ascii_of_string s)).

Fixpoint eqb (s t : ustring) : bool :=
  match s, t with
  | [], [] => true
  | c :: s', d :: t' => (c =? d)%N && eqb s' t'
  | _, _ => false
  end.

(** [x in l] for a list of strings. *)
Definition mem (s : ustring) (l : list ustring) : bool :=
  existsb (eqb s) l.

(** The characters [str.strip()] removes: those for which [str.isspace]
    holds (CPython's [_PyUnicode_IsWhitespace]). *)
Definition isspace (c : uchar) : bool :=
  ((9 <=? c) && (c <=? 13) || (28 <=? c) && (c <=? 32)
   || (c =? 133) || (c =? 160) || (c =? 5760)
   || (8192 <=? c) && (c <=? 8202)
   || (c =? 8232) || (c =? 8233) || (c =? 8239) || (c =? 8287)
   || (c =? 12288))%N.

Fixpoint lstrip (s : ustring) : ustring :=
  match s with
  | c :: s' => if isspace c then lstrip s' else s
  | [] => []
  end.

Definition rstrip (s : ustring) : ustring := rev (lstrip (rev s)).

Definition strip (s : ustring) : ustring := rstrip (lstrip s).

Fixpoint startswith (s p : ustring) : bool :=
  match p, s with
  | [], _ => true
  | c :: p', d :: s' => (c =? d)%N && startswith s' p'
  | _ :: _, [] => false
  end.

(** [needle in hay]: substring containment. *)
Fixpoint contains (needle hay : ustring) : bool :=
  startswith hay needle
  || match hay with
     | [] => false
     | _ :: hay' => contains needle hay'
     end.

(** [s.split(sep)] for a one-character separator. *)
Fixpoint split (sep : uchar) (s : ustring) : list ustring :=
  match s with
  | [] => [[]]
  | c :: s' =>
    match split sep s' with
    | w :: ws => if (c =? sep)%N then [] :: w :: ws else (c :: w) :: ws
    | [] => [[c]]
    end
  end.

(** [s[-n:]]. *)
Definition last_n (n : nat) (s : ustring) : ustring :=
  skipn (List.length s - n)%nat s.

(** [", ".join(l)]. *)
Fixpoint join (sep : ustring) (l : list ustring) : ustring :=
  match l with
  | [] => []
  | [w] => w
  | w :: ws => w ++ sep ++ join sep ws
  end.

End PyStr.

Import PyStr.


(* ================================================================== *)
(** ** Exceptions, floats, cells and the runtime *)

Inductive exn :=
  | ValueError | TypeError | KeyError | OverflowError | ZeroDivisionError.

Inductive result (A : Type) :=
  | Ok (a : A)
  | Raise (e : exn).

Arguments Ok {A} a.
Arguments Raise {A} e.

Definition bind {A B : Type} (r : result A) (k : A -> result B) : result B :=
  match r with
  | Ok a => k a
  | Raise e => Raise e
  end.

Notation "x <- r ;; k" := (bind r (fun x => k))
  (at level 61, r at next level, right associativity).

(** [try: r  except (ValueError, TypeError): d]. *)
Definition except_value_type {A : Type} (r : result A) (d : A) : result A :=
  match r with
  | Raise ValueError | Raise TypeError => Ok d
  | _ => r
  end.

(** A Python [float]: a finite value, an infinity or nan. *)
Inductive pyfloat :=
  | Finite (q : Q)
  | PInf
  | NInf
  | NaN.

Definition Qlt_bool (x y : Q) : bool := negb (Qle_bool y x).

Module Float.

Definition ltb (x y : pyfloat) : bool :=
  match x, y with
  | Finite a, Finite b => Qlt_bool a b
  | Finite _, PInf | NInf, Finite _ | NInf, PInf => true
  | _, _ => false
  end.

Definition leb (x y : pyfloat) : bool :=
  match x, y with
  | Finite a, Finite b => Qle_bool a b
  | Finite _, PInf | NInf, Finite _ | NInf, PInf => true
  | PInf, PInf | NInf, NInf => true
  | _, _ => false
  end.

Definition sub (x y : pyfloat) : pyfloat :=
  match x, y with
  | NaN, _ | _, NaN => NaN
  | Finite a, Finite b => Finite (a - b)
  | PInf, PInf | NInf, NInf => NaN
  | PInf, _ | _, NInf => PInf
  | NInf, _ | _, PInf => NInf
  end.

Definition abs (x : pyfloat) : pyfloat :=
  match x with
  | Finite a => Finite (Qabs a)
  | PInf | NInf => PInf
  | NaN => NaN
  end.

(** The builtin [max(x, y)]: [y] when [y > x], else [x]. *)
Definition max (x y : pyfloat) : pyfloat := if ltb x y then y else x.

Definition is_zero (x : pyfloat) : bool :=
  match x with
  | Finite a => Qeq_bool a 0
  | _ => false
  end.

(** [x / y]; a zero divisor raises. *)
Definition div (x y : pyfloat) : result pyfloat :=
  if is_zero y then Raise ZeroDivisionError
  else Ok match x, y with
          | NaN, _ | _, NaN => NaN
          | Finite a, Finite b => Finite (a / b)
          | Finite _, _ => Finite 0
          | _, Finite b => if ltb x (Finite 0) then
                             (if Qlt_bool b 0 then PInf else NInf)
                           else (if Qlt_bool b 0 then NInf else PInf)
          | _, _ => NaN
          end.

(** [int(x)]: truncation toward zero. *)
Definition to_int (x : pyfloat) : result Z :=
  match x with
  | Finite a => Ok (Z.quot (Qnum a) (Z.pos (Qden a)))
  | PInf | NInf => Raise OverflowError
  | NaN => Raise ValueError
  end.

(** [bool(x)]. *)
Definition truthy (x : pyfloat) : bool := negb (is_zero x).

End Float.

(** A table cell as the data-frame library hands it over. [CNull] stands
    for a missing value ([NaN], [None], [NaT]): what [pd.isna] accepts. *)
Inductive cell :=
  | CNull
  | CBool (b : bool)
  | CInt (z : Z)
  | CFloat (x : pyfloat)
  | CStr (s : ustring)
  | CTime (t : Z).

Record Runtime := {
  (** [s.lower()] *)
  str_lower : ustring -> ustring;
  (** [c.isdigit()] *)
  chr_isdigit : uchar -> bool;
  (** [float(s)]; [None] is [ValueError] *)
  float_of_str : ustring -> option pyfloat;
  (** [str(x)] of a float, an int, a timestamp *)
  str_of_float : pyfloat -> ustring;
  str_of_int : Z -> ustring;
  str_of_time : Z -> ustring;
  (** [t.strftime("%Y-%m-%d %H:%M")] *)
  strftime_minute : Z -> ustring;
  (** [datetime.strptime(s, fmt)], the format given by its position in
      the list of [parse_datetime]; [None] is [ValueError] *)
  strptime : ustring -> nat -> option Z;
  (** [pd.to_datetime(x)]; [None] is any exception (inputs it maps to
      [NaT] are left out of the model) *)
  to_datetime : cell -> option Z
}.

(* ================================================================== *)
(** ** The withdrawal record and the clue *)

Inductive gender_t := male | female | unknown.

Definition gender_eqb (g h : gender_t) : bool :=
  match g, h with
  | male, male | female, female | unknown, unknown => true
  | _, _ => false
  end.

(** The dictionary [person_data] that [process_uploaded_data] builds.
    [withdraw_time] is [None] when the key is absent. *)
Record person := {
  id_number : ustring;
  name : ustring;
  account : ustring;
  status : ustring;
  card_type : ustring;
  risk_level : ustring;
  withdraw_time : option Z;
  amount : pyfloat;
  location : ustring;
  gender : gender_t;
  age : option Z;
  transaction_count : Z;
  has_history_warning : bool;
  has_special_comm : bool;
  has_adult_app : bool;
  has_investment_app : bool;
  warning_count : Z;
  fraud_type : ustring
}.

Definition with_amount (p : person) (x : pyfloat) : person :=
  {| id_number := id_number p; name := name p; account := account p;
     status := status p; card_type := card_type p;
     risk_level := risk_level p; withdraw_time := withdraw_time p;
     amount := x; location := location p; gender := gender p;
     age := age p; transaction_count := transaction_count p;
     has_history_warning := has_history_warning p;
     has_special_comm := has_special_comm p;
     has_adult_app := has_adult_app p;
     has_investment_app := has_investment_app p;
     warning_count := warning_count p; fraud_type := fraud_type p |}.

(* ================================================================== *)
(** ** scoring_system.py: WithdrawScoringSystem *)

Module Scoring.

Inductive category := low | medium | high.

(** [self.amount_thresholds] *)
Definition amount_thresholds_low : Q := 30000.
Definition amount_thresholds_medium : Q := 100000.

(** A dictionary with string keys, as an association list. *)
Definition dict (V : Type) := list (string * V).

Fixpoint dict_get {V : Type} (d : dict V) (k : string) : result V :=
  match d with
  | [] => Raise KeyError
  | (k', v) :: d' => if String.eqb k k' then Ok v else dict_get d' k
  end.

(** [self.additional_score_config] *)
Definition additional_score_config : dict (dict Z) :=
  [ ("low_amount",
      [ ("male", 15); ("adult_app", 20); ("history_warning", 10) ]);
    ("medium_amount",
      [ ("male", 5); ("female", 5); ("adult_app", 10);
        ("history_warning", 15); ("special_app", 10) ]);
    ("high_amount",
      [ ("female", 15); ("special_comm", 20); ("investment_app", 15);
        ("history_warning", 10) ]) ]%string.

Definition category_name (c : category) : string :=
  match c with
  | low => "low"
  | medium => "medium"
  | high => "high"
  end.

Definition get_amount_category (amount : Q) : category :=
  if Qlt_bool amount amount_thresholds_low then low
  else if Qlt_bool amount amount_thresholds_medium then medium
  else high.

Record base_scores := {
  time_score : Z;
  amount_score : Z;
  location_score : Z;
  total_base_score : Z
}.

(** [td.total_seconds()] of a difference in microseconds. The source
    divides floats here and in [time_diff_hours]; the quotients are taken
    exactly. Around the thresholds this changes no comparison: a
    difference of one microsecond is 2.8e-10 hours, while doubles up to
    72 are spaced 1.5e-14 apart or closer. *)
Definition total_seconds (td : Z) : Q := inject_Z td / 1000000.

Definition time_diff_hours (target_time person_time : Z) : Q :=
  Qabs (total_seconds (target_time - person_time)) / 3600.

Definition time_steps (time_diff_hours : Q) : Z :=
  if Qle_bool time_diff_hours 1 then 40
  else if Qle_bool time_diff_hours 3 then 35
  else if Qle_bool time_diff_hours 6 then 30
  else if Qle_bool time_diff_hours 12 then 25
  else if Qle_bool time_diff_hours 24 then 20
  else if Qle_bool time_diff_hours 48 then 15
  else if Qle_bool time_diff_hours 72 then 10
  else 5.

Definition amount_steps (amount_diff_ratio : pyfloat) : Z :=
  if Float.leb amount_diff_ratio (Finite (5 # 100)) then 40
  else if Float.leb amount_diff_ratio (Finite (1 # 10)) then 35
  else if Float.leb amount_diff_ratio (Finite (2 # 10)) then 30
  else if Float.leb amount_diff_ratio (Finite (3 # 10)) then 25
  else if Float.leb amount_diff_ratio (Finite (5 # 10)) then 20
  else if Float.leb amount_diff_ratio (Finite (7 # 10)) then 15
  else if Float.leb amount_diff_ratio (Finite 1) then 10
  else 5.

Definition calculate_base_score (person_data : person) (target_time : Z)
    (target_amount : Q) (target_location : ustring) : result base_scores :=
  (* 1. time *)
  let time_score :=
    match withdraw_time person_data with
    | Some person_time => time_steps (time_diff_hours target_time person_time)
    | None => 0
    end in
  (* 2. amount *)
  let person_amount := amount person_data in
  amount_score <-
    (if Float.ltb (Finite 0) person_amount then
       amount_diff_ratio <-
         Float.div (Float.abs (Float.sub (Finite target_amount) person_amount))
                   (Float.max (Finite target_amount) person_amount) ;;
       Ok (amount_steps amount_diff_ratio)
     else Ok 0) ;;
  (* 3. location *)
  let person_location := location person_data in
  let location_score :=
    match strip target_location with
    | [] => 40
    | stripped =>
      let target_keywords := split 12289%N stripped in
      let location_matched :=
        existsb (fun keyword =>
                   match strip keyword with
                   | [] => false
                   | kw => contains kw person_location
                   end) target_keywords in
      if location_matched then 40 else 0
    end in
  Ok {| time_score := time_score;
        amount_score := amount_score;
        location_score := location_score;
        total_base_score := time_score + amount_score + location_score |}.

Record additional_scores := {
  gender_score : Z;
  app_score : Z;
  history_warning_score : Z;
  frequency_score : Z;
  total_additional_score : Z
}.

Definition calculate_additional_score (person_data : person)
    (target_amount : Q) : result additional_scores :=
  let amount_category := get_amount_category target_amount in
  config <- dict_get additional_score_config
              (category_name amount_category ++ "_amount") ;;
  let gender := gender person_data in
  let has_adult_app := has_adult_app person_data in
  let has_special_comm := has_special_comm person_data in
  let has_history_warning := has_history_warning person_data in
  ga <-
    match amount_category with
    | low =>
      g <- (if gender_eqb gender male
            then w <- dict_get config "male" ;; Ok (0 + w) else Ok 0) ;;
      a <- (if has_adult_app
            then w <- dict_get config "adult_app" ;; Ok (0 + w) else Ok 0) ;;
      Ok (g, a)
    | medium =>
      g <- (if gender_eqb gender male
            then w <- dict_get config "male" ;; Ok (0 + w)
            else if gender_eqb gender female
            then w <- dict_get config "female" ;; Ok (0 + w) else Ok 0) ;;
      a <- (if has_adult_app
            then w <- dict_get config "adult_app" ;; Ok (0 + w) else Ok 0) ;;
      a <- (if has_special_comm
            then w <- dict_get config "special_app" ;; Ok (a + w) else Ok a) ;;
      Ok (g, a)
    | high =>
      g <- (if gender_eqb gender female
            then w <- dict_get config "female" ;; Ok (0 + w) else Ok 0) ;;
      a <- (if has_special_comm
            then w <- dict_get config "special_comm" ;; Ok (0 + w)
            else Ok 0) ;;
      a <- (if has_investment_app person_data
            then w <- dict_get config "investment_app" ;; Ok (a + w)
            else Ok a) ;;
      Ok (g, a)
    end ;;
  let '(gender_score, app_score) := ga in
  history_warning_score <-
    (if has_history_warning then dict_get config "history_warning"
     else Ok 0) ;;
  let transaction_count := transaction_count person_data in
  let frequency_score :=
    if 2 <=? transaction_count then (transaction_count - 1) * 5 else 0 in
  Ok {| gender_score := gender_score;
        app_score := app_score;
        history_warning_score := history_warning_score;
        frequency_score := frequency_score;
        total_additional_score :=
          gender_score + app_score + history_warning_score
          + frequency_score |}.

(** The dictionary [score_person_new] returns. [sp_person] carries the
    fields copied from [person_data]; the record built in the [except]
    branch has only a name, a score of 0 and the error. *)
Record scored_person := {
  sp_name : ustring;
  sp_person : option person;
  score : Z;
  match_level : ustring;
  sp_amount_category : option category;
  score_details : option (base_scores * additional_scores);
  error : option exn
}.

Definition match_level_of (total_score : Z) : ustring :=
  if 100 <=? total_score then u "非常高"
  else if 80 <=? total_score then u "高"
  else if 60 <=? total_score then u "中"
  else if 40 <=? total_score then u "低"
  else u "很低".

(** All sub-scores are integers, so [round(total_score, 1)] is
    [total_score]. *)
Definition score_person_new (person_data : person) (target_time : Z)
    (target_amount : Q) (target_location : ustring) : scored_person :=
  let attempt :=
    base <- calculate_base_score person_data target_time target_amount
              target_location ;;
    additional <- calculate_additional_score person_data target_amount ;;
    let total_score :=
      total_base_score base + total_additional_score additional in
    Ok {| sp_name := name person_data;
          sp_person := Some person_data;
          score := total_score;
          match_level := match_level_of total_score;
          sp_amount_category := Some (get_amount_category target_amount);
          score_details := Some (base, additional);
          error := None |} in
  match attempt with
  | Ok r => r
  | Raise e =>
    {| sp_name := name person_data;
       sp_person := None;
       score := 0;
       match_level := u "错误";
       sp_amount_category := None;
       score_details := None;
       error := Some e |}
  end.

(** [list.sort(key=lambda x: x["score"], reverse=True)]: the builtin sort
    is stable, and with [reverse=True] elements of equal key keep their
    original order. Modelled by insertion from the right. *)
Fixpoint insert_desc (x : scored_person) (l : list scored_person)
    : list scored_person :=
  match l with
  | [] => [x]
  | y :: l' => if score x <? score y then y :: insert_desc x l'
               else x :: y :: l'
  end.

Definition sort_desc (l : list scored_person) : list scored_person :=
  fold_right insert_desc [] l.

Record target_info_t := {
  ti_time : ustring;
  ti_amount : Q;
  ti_location : option ustring     (* [None]: the key is absent *)
}.

Record ranking := {
  total_persons : nat;
  target_info : target_info_t;
  scored_persons : list scored_person;
  top_match : option scored_person;
  amount_category : category;
  scoring_method : option ustring  (* [None]: the key is absent *)
}.

Definition score_persons (rt : Runtime) (persons : list person)
    (target_time : Z) (target_amount : Q) (target_location : ustring)
    : ranking :=
  match persons with
  | [] =>
    {| total_persons := 0;
       target_info :=
         {| ti_time := strftime_minute rt target_time;
            ti_amount := target_amount;
            ti_location := None |};
       scored_persons := [];
       top_match := None;
       amount_category := get_amount_category target_amount;
       scoring_method := None |}
  | _ :: _ =>
    let amount_category := get_amount_category target_amount in
    let scored_persons :=
      map (fun person =>
             score_person_new person target_time target_amount
               target_location) persons in
    let scored_persons := sort_desc scored_persons in
    {| total_persons := List.length scored_persons;
       target_info :=
         {| ti_time := strftime_minute rt target_time;
            ti_amount := target_amount;
            ti_location := Some target_location |};
       scored_persons := scored_persons;
       top_match := hd_error scored_persons;
       amount_category := amount_category;
       scoring_method := Some (u "分层评分系统") |}
  end.

End Scoring.

(* ================================================================== *)
(** ** Data frames *)

Module Frame.

(** A row gives the cell under each column label; a frame is its labels
    and its rows, in order (the index is the position: [read_csv] and
    [read_excel] give a [RangeIndex]). *)
Definition row_t := ustring -> cell.

Record dataframe := {
  columns : list ustring;
  rows : list row_t
}.

Definition has_column (df : dataframe) (c : ustring) : bool :=
  mem c (columns df).

(** [df[c]]; a missing label raises [KeyError]. *)
Definition get_column (df : dataframe) (c : ustring) : result (list cell) :=
  if has_column df c then Ok (map (fun row => row c) (rows df))
  else Raise KeyError.

Definition upd (row : row_t) (c : ustring) (v : cell) : row_t :=
  fun c' => if eqb c' c then v else row c'.

(** Index alignment of an assigned series: position by position, and a
    missing value where the series has no entry. *)
Fixpoint assign (c : ustring) (rs : list row_t) (values : list cell)
    : list row_t :=
  match rs with
  | [] => []
  | r :: rs' =>
    match values with
    | v :: values' => upd r c v :: assign c rs' values'
    | [] => upd r c CNull :: assign c rs' []
    end
  end.

(** [df[c] = values]: overwrite the column, or append it. *)
Definition set_column (df : dataframe) (c : ustring) (values : list cell)
    : dataframe :=
  {| columns := if has_column df c then columns df else columns df ++ [c];
     rows := assign c (rows df) values |}.

(** [df[c] = v] for a scalar [v]. *)
Definition set_column_const (df : dataframe) (c : ustring) (v : cell)
    : dataframe :=
  set_column df c (map (fun _ => v) (rows df)).

(** [df.drop(columns=[c])] for a label of the frame. *)
Definition drop_column (df : dataframe) (c : ustring) : dataframe :=
  {| columns := filter (fun c' => negb (eqb c c')) (columns df);
     rows := rows df |}.

(** Overlapping labels get the suffixes ["_x"] and ["_y"]. *)
Definition suffixed (overlap : list ustring) (suffix c : ustring) : ustring :=
  if mem c overlap then c ++ suffix else c.

(** Equality of join keys; the keys of this program are strings. *)
Definition key_eqb (a b : cell) : bool :=
  match a, b with
  | CStr s, CStr t => eqb s t
  | _, _ => false
  end.

(** [left.merge(right, left_on=left_on, right_on=right_on, how='left')]
    for two different key labels: both key columns are kept, every label
    that the two frames share is suffixed, a left row with no match is
    kept once with missing values on the right, and the rows come in the
    order of [left]. A key label that is not a column raises [KeyError]. *)
Definition merge_left (left right : dataframe) (left_on right_on : ustring)
    : result dataframe :=
  if negb (has_column left left_on) || negb (has_column right right_on)
  then Raise KeyError
  else
    let overlap := filter (fun c => mem c (columns right)) (columns left) in
    let x := suffixed overlap (u "_x") in
    let y := suffixed overlap (u "_y") in
    let out_row (l : row_t) (r : option row_t) : row_t :=
      fun c =>
        match find (fun o => eqb (x o) c) (columns left) with
        | Some o => l o
        | None =>
          match find (fun o => eqb (y o) c) (columns right), r with
          | Some o, Some r => r o
          | _, _ => CNull
          end
        end in
    Ok {| columns := map x (columns left) ++ map y (columns right);
          rows :=
            flat_map
              (fun l =>
                 match
                   filter (fun r => key_eqb (l left_on) (r right_on))
                          (rows right)
                 with
                 | [] => [out_row l None]
                 | matches => map (fun r => out_row l (Some r)) matches
                 end) (rows left) |}.

(** A row from its labelled cells. *)
Definition mk_row (cells : list (ustring * cell)) : row_t :=
  fun c =>
    match find (fun kv => eqb c (fst kv)) cells with
    | Some kv => snd kv
    | None => CNull
    end.

(** The cells of a frame, row by row, under its labels. *)
Definition cells_of (df : dataframe) : list (list cell) :=
  map (fun row => map row (columns df)) (rows df).

End Frame.

Import Frame.

(* ================================================================== *)
(** ** data_process.py: DataProcessor, normalisation *)

Module DataProcess.

Section WithRuntime.

Variable rt : Runtime.

(** [pd.isna(v)] on a scalar. *)
Definition isna (v : cell) : bool :=
  match v with
  | CNull | CFloat NaN => true
  | _ => false
  end.

(** [str(v)] *)
Definition py_str (v : cell) : ustring :=
  match v with
  | CNull => u "nan"
  | CBool true => u "True"
  | CBool false => u "False"
  | CInt z => str_of_int rt z
  | CFloat x => str_of_float rt x
  | CStr s => s
  | CTime t => str_of_time rt t
  end.

(** [float(v)]; an integer cell is a 64-bit integer of the frame, well
    inside the range of a float. *)
Definition py_float (v : cell) : result pyfloat :=
  match v with
  | CNull => Ok NaN
  | CBool b => Ok (Finite (if b then 1 else 0))
  | CInt z => Ok (Finite (inject_Z z))
  | CFloat x => Ok x
  | CStr s =>
    match float_of_str rt s with
    | Some x => Ok x
    | None => Raise ValueError
    end
  | CTime _ => Raise TypeError
  end.

(** [self.field_mapping], in declaration order. *)
Definition field_mapping : list (string * list ustring) :=
  [ ("id_number", [u "身份证号"; u "身份号码"; u "ID"]);
    ("name", [u "姓名"; u "用户姓名"; u "客户姓名"; u "真实姓名"]);
    ("phone", [u "电话号码"; u "手机号码"; u "联系电话"; u "电话";
               u "手机号"; u "联系方式"]);
    ("withdraw_date", [u "发生日期"; u "交易日期"; u "日期"]);
    ("withdraw_time", [u "发生时间"; u "交易时间"; u "时间"]);
    ("amount", [u "取现金额合计"; u "取现金额"; u "金额"; u "取现合计"]);
    ("location", [u "业务发生地网点名称"; u "网点名称"; u "发生地点";
                  u "地点"]);
    ("transaction_count", [u "取现次数"; u "交易次数"; u "次数"]);
    ("gender", [u "性别"; u "性别（0女 1男）"]);
    ("age", [u "年龄"]);
    ("has_history_warning", [u "取现预警（0否 1是）"; u "预警";
                             u "取现预警"]);
    ("has_history_fraud", [u "被骗历史"; u "被骗史"; u "诈骗历史"]);
    ("has_special_comm", [u "小众聊天"; u "小众通联"; u "特殊聊天"]);
    ("has_adult_app", [u "涉黄软件"; u "涉黄APP"; u "成人软件"]);
    ("warning_count", [u "预警次数"]);
    ("fraud_type", [u "疑似诈骗类型"; u "诈骗类型"; u "类型"]) ]%string.

(** [self.location_keywords], in declaration order. *)
Definition location_keywords : list (ustring * list ustring) :=
  [ (u "定海", [u "定海"]);
    (u "普陀", [u "普陀"]);
    (u "岱山", [u "岱山"]);
    (u "嵊泗", [u "嵊泗"]);
    (u "其他", [u "其他"; u "其它"; u "未知"]) ].

Fixpoint find_column_by_keywords (cols : list ustring)
    (keywords : list ustring) : option ustring :=
  match keywords with
  | [] => None
  | keyword :: keywords' =>
    match find (contains keyword) cols with
    | Some col => Some col
    | None => find_column_by_keywords cols keywords'
    end
  end.

(** [if col_name:] on what [find_column_by_keywords] returned. *)
Definition truthy_label (col_name : option ustring) : option ustring :=
  match col_name with
  | Some (c :: col) => Some (c :: col)
  | _ => None
  end.

(** [column_map]: a field is a key when a column was found and its label
    is truthy ([if col_name:]). *)
Definition column_map := string -> option ustring.

Definition build_column_map (cols : list ustring) : column_map :=
  fun field =>
    match find (fun fk => String.eqb field (fst fk)) field_mapping with
    | Some (_, keywords) =>
      truthy_label (find_column_by_keywords cols keywords)
    | None => None
    end.

Fixpoint extract_location_from (table : list (ustring * list ustring))
    (location_str : ustring) : ustring :=
  match table with
  | [] => u "其他"
  | (location, keywords) :: table' =>
    if existsb (fun keyword => contains keyword location_str) keywords
    then location
    else extract_location_from table' location_str
  end.

Definition extract_location (location_text : ustring) : ustring :=
  match location_text with
  | [] => u "其他"
  | _ => extract_location_from location_keywords location_text
  end.

Definition convert_gender (gender_value : cell) : gender_t :=
  if isna gender_value then unknown
  else
    match gender_value with
    (* isinstance(gender_value, (int, float)) *)
    | CBool b => if b then male else female
    | CInt z => if z =? 0 then female else male
    | CFloat x => if Float.is_zero x then female else male
    | _ =>
      let gender_str := strip (py_str gender_value) in
      if mem gender_str [u "女"; u "F"; u "Female"; u "0"] then female
      else if mem gender_str [u "男"; u "M"; u "Male"; u "1"] then male
      else unknown
    end.

Definition affirmative_tokens : list ustring :=
  [u "1"; u "是"; u "true"; u "yes"; u "y"; u "有"].

Definition convert_boolean_field (value : cell) : bool :=
  if isna value then false
  else
    match value with
    (* isinstance(value, (int, float)): bool(value) *)
    | CBool b => b
    | CInt z => negb (z =? 0)
    | CFloat x => Float.truthy x
    | _ =>
      let value_str := str_lower rt (strip (py_str value)) in
      mem value_str affirmative_tokens
    end.

Definition null_sentinels : list ustring :=
  [[]; u "nan"; u "NaN"; u "null"; u "NULL"].

(** [name_value] and [phone_value] are [None] when the column is not in
    the column map. *)
Definition generate_user_name (name_value phone_value : option cell)
    (id_number : ustring) : result ustring :=
  let '(has_name, name_str) :=
    match name_value with
    | Some v =>
      if negb (isna v) then
        let name_str := strip (py_str v) in
        (negb (eqb name_str []) && negb (mem name_str null_sentinels),
         name_str)
      else (false, [])
    | None => (false, [])
    end in
  hp <-
    match phone_value with
    | Some v =>
      if negb (isna v) then
        phone_str <-
          match v with
          | CFloat x => z <- Float.to_int x ;; Ok (strip (str_of_int rt z))
          | _ => Ok (strip (py_str v))
          end ;;
        Ok (negb (eqb phone_str []) && negb (mem phone_str null_sentinels),
            phone_str)
      else Ok (false, [])
    | None => Ok (false, [])
    end ;;
  let '(has_phone, phone_str) := hp in
  if has_name && has_phone then Ok (name_str ++ u " " ++ phone_str)
  else if has_phone then Ok phone_str
  else if has_name then Ok name_str
  else Ok (u "用户" ++ last_n 4 id_number).

Definition datetime_formats : list nat := [0; 1; 2; 3; 4; 5]%nat.

(** The whole body runs under [try]/[except Exception], which returns
    [None]. *)
Definition parse_datetime (date_value : cell) (time_value : option cell)
    : option Z :=
  if isna date_value then None
  else
    match time_value with
    | Some tv =>
      if isna tv then
        match date_value with
        | CTime t => Some t
        | _ => to_datetime rt date_value
        end
      else
        let datetime_str := py_str date_value ++ u " " ++ py_str tv in
        match
          fold_left (fun found fmt =>
                       match found with
                       | Some t => Some t
                       | None => strptime rt datetime_str fmt
                       end) datetime_formats None
        with
        | Some t => Some t
        | None => to_datetime rt (CStr datetime_str)
        end
    | None =>
      match date_value with
      | CTime t => Some t
      | _ => to_datetime rt date_value
      end
    end.

(** [int(float(v))] *)
Definition int_of_float_of (v : cell) : result Z :=
  x <- py_float v ;; Float.to_int x.

Definition not_blank (v : cell) : bool :=
  negb (isna v) && negb (eqb (strip (py_str v)) []).

(** What [.item()] or [str()] make of a cell before a converter sees it. *)
Definition scalar_of (v : cell) : cell :=
  match v with
  | CTime t => CStr (str_of_time rt t)
  | _ => v
  end.

Section Row.

Variable column_map : column_map.
Variable row : row_t.

(** [row[column_map[field]]] when [field in column_map]. *)
Definition field_cell (field : string) : option cell :=
  option_map row (column_map field).

Definition row_amount : result pyfloat :=
  match field_cell "amount" with
  | Some amount_value =>
    if not_blank amount_value
    then except_value_type (py_float amount_value) (Finite 0)
    else Ok (Finite 0)
  | None => Ok (Finite 0)
  end.

Definition row_age : result (option Z) :=
  match field_cell "age" with
  | Some age_value =>
    if not_blank age_value
    then except_value_type
           (z <- int_of_float_of age_value ;; Ok (Some z)) None
    else Ok None
  | None => Ok None
  end.

Definition row_transaction_count : result Z :=
  match field_cell "transaction_count" with
  | Some count_value =>
    if not_blank count_value
    then except_value_type (int_of_float_of count_value) 1
    else Ok 1
  | None => Ok 1
  end.

Definition row_warning_count : result Z :=
  match field_cell "warning_count" with
  | Some warning_count_value =>
    except_value_type
      (if isna warning_count_value then Ok 0
       else int_of_float_of warning_count_value) 0
  | None => Ok 0
  end.

(** One pass of the loop over [boolean_fields] for a plain field. *)
Definition row_flag (field : string) : bool :=
  match field_cell field with
  | Some field_value =>
    if isna field_value then false
    else convert_boolean_field (scalar_of field_value)
  | None => false
  end.

(** The rest of the row once the identity cell is accepted. *)
Definition build_person (id_cell : cell) : result person :=
  let id_str := py_str id_cell in
  user_name <-
    generate_user_name (field_cell "name") (field_cell "phone") id_str ;;
  let withdraw_time :=
    match column_map "withdraw_date"%string with
    | Some date_col =>
      parse_datetime (row date_col) (field_cell "withdraw_time")
    | None => None
    end in
  amount <- row_amount ;;
  let location :=
    match field_cell "location" with
    | Some location_value =>
      extract_location
        (if isna location_value then [] else py_str location_value)
    | None => u "其他"
    end in
  let gender :=
    match field_cell "gender" with
    | Some gender_value =>
      if isna gender_value then unknown
      else convert_gender (scalar_of gender_value)
    | None => unknown
    end in
  age <- row_age ;;
  transaction_count <- row_transaction_count ;;
  let has_history_warning :=
    match field_cell "has_history_warning" with
    | Some field_value =>
      if isna field_value then false
      else convert_boolean_field (scalar_of field_value)
    | None => false
    end in
  let has_history_warning :=
    match field_cell "has_history_fraud" with
    | Some field_value =>
      if isna field_value then has_history_warning
      else has_history_warning
           || convert_boolean_field (scalar_of field_value)
    | None => has_history_warning
    end in
  warning_count <- row_warning_count ;;
  let fraud_type :=
    match field_cell "fraud_type" with
    | Some fraud_type_value =>
      if isna fraud_type_value then []
      else strip (py_str fraud_type_value)
    | None => []
    end in
  Ok {| id_number := id_str;
        name := user_name;
        account := u "****" ++ last_n 4 id_str;
        status := u "成功";
        card_type := u "储蓄卡";
        risk_level := u "低";
        withdraw_time := withdraw_time;
        amount := amount;
        location := location;
        gender := gender;
        age := age;
        transaction_count := transaction_count;
        has_history_warning := has_history_warning;
        has_special_comm := row_flag "has_special_comm";
        has_adult_app := row_flag "has_adult_app";
        has_investment_app := false;
        warning_count := warning_count;
        fraud_type := fraud_type |}.

(** The body of the loop over the rows: a record, or the row is skipped
    (no identity column, an empty identity cell, or an exception caught by
    the handler around the row). *)
Definition process_row : option person :=
  match column_map "id_number"%string with
  | None => None
  | Some id_col =>
    let id_cell := row id_col in
    if isna id_cell || eqb (strip (py_str id_cell)) [] then None
    else
      match build_person id_cell with
      | Ok person_data => Some person_data
      | Raise _ => None
      end
  end.

End Row.

(** [process_uploaded_data], from the frame that was read. *)
Definition process_uploaded_data (df : dataframe) : list person :=
  let column_map := build_column_map (columns df) in
  flat_map (fun row =>
              match process_row column_map row with
              | Some person_data => [person_data]
              | None => []
              end) (rows df).

(* ---------------------------------------------------------------- *)
(** *** merge_warning_count_to_withdraw_records *)

Definition COUNT : ustring := u "预警次数".
Definition TYPES : ustring := u "疑似诈骗类型".
Definition ID : ustring := u "身份证号".
Definition ID_CLEAN : ustring := u "身份证号_clean".

(** The dictionaries [id_warning_info] and [phone_warning_info]: key to
    [{'count', 'types'}], in insertion order. *)
Definition info := list (ustring * (Z * list ustring)).

Fixpoint info_get (d : info) (k : ustring) : option (Z * list ustring) :=
  match d with
  | [] => None
  | (k', e) :: d' => if eqb k k' then Some e else info_get d' k
  end.

(** One warning row for key [k]: create the entry at count 0 if the key
    is new, add 1, and append the row's fraud type if it has one. *)
Fixpoint info_bump (d : info) (k : ustring) (fraud_type : option ustring)
    : info :=
  let more := match fraud_type with Some t => [t] | None => [] end in
  match d with
  | [] => [(k, (0 + 1, more))]
  | (k', (count, types)) :: d' =>
    if eqb k k' then (k', (count + 1, types ++ more)) :: d'
    else (k', (count, types)) :: info_bump d' k fraud_type
  end.

(** [str(v).strip() if pd.notna(v) else ''] *)
Definition stripped_or_empty (v : cell) : ustring :=
  if isna v then [] else strip (py_str v).

(** [s and s != '' and s != 'nan'] *)
Definition usable (s : ustring) : bool :=
  negb (eqb s []) && negb (eqb s (u "nan")).

Definition row_fraud_type (fraud_type_col : option ustring) (row : row_t)
    : option ustring :=
  match fraud_type_col with
  | Some c =>
    if isna (row c) then None
    else
      let fraud_type := strip (py_str (row c)) in
      if usable fraud_type then Some fraud_type else None
  | None => None
  end.

(** [victim_phone[0].isdigit()] *)
Definition first_is_digit (s : ustring) : bool :=
  match s with
  | c :: _ => chr_isdigit rt c
  | [] => false
  end.

(** One turn of the loop over [warning_df.iterrows()] that fills a
    dictionary; the phone loop accepts only keys that start with a digit. *)
Definition collect_step (accept : ustring -> bool)
    (key_col : ustring) (fraud_type_col : option ustring)
    (d : info) (row : row_t) : info :=
  let k := stripped_or_empty (row key_col) in
  if usable k && accept k
  then info_bump d k (row_fraud_type fraud_type_col row)
  else d.

Definition collect_warning_info (accept : ustring -> bool)
    (key_col : ustring) (fraud_type_col : option ustring)
    (warning_rows : list row_t) : info :=
  fold_left (collect_step accept key_col fraud_type_col) warning_rows [].

Definition join_types (types : list ustring) : ustring :=
  join (u ", ") types.

(** [pd.DataFrame(id_warning_data)]: a list of no records gives a frame
    with no columns. *)
Definition info_frame (d : info) : dataframe :=
  match d with
  | [] => {| columns := []; rows := [] |}
  | _ :: _ =>
    {| columns := [ID; COUNT; TYPES];
       rows := map (fun e =>
                      mk_row [ (ID, CStr (fst e));
                               (COUNT, CInt (fst (snd e)));
                               (TYPES, CStr (join_types (snd (snd e)))) ])
                   d |}
  end.

(** [.fillna(0).astype(int)] and [.fillna('')] *)
Definition fillna (d : cell) (v : cell) : cell :=
  if isna v then d else v.

(** Step 1: match on the identity number. *)
Definition id_stage (warning_df withdraw_df merged_df : dataframe)
    (victim_id_col withdraw_id_col : ustring)
    (fraud_type_col : option ustring) : result dataframe :=
  let id_warning_info :=
    collect_warning_info (fun _ => true) victim_id_col fraud_type_col
      (rows warning_df) in
  let id_counts_df := info_frame id_warning_info in
  let withdraw_df :=
    set_column withdraw_df ID_CLEAN
      (map (fun row => CStr (strip (py_str (row withdraw_id_col))))
           (rows withdraw_df)) in
  id_matched <- merge_left withdraw_df id_counts_df ID_CLEAN ID ;;
  counts <- get_column id_matched COUNT ;;
  let merged_df := set_column merged_df COUNT (map (fillna (CInt 0)) counts) in
  let types :=
    match get_column id_matched TYPES with
    | Ok values => values
    | Raise _ => map (fun _ => CStr []) (rows merged_df)
    end in
  Ok (set_column merged_df TYPES (map (fillna (CStr [])) types)).

(** [merged_df['预警次数'] == 0] on one row. *)
Definition unmatched (row : row_t) : bool :=
  match row COUNT with
  | CInt z => z =? 0
  | CFloat x => Float.is_zero x
  | CBool b => negb b
  | _ => false
  end.

(** The dictionary of step 2. *)
Definition phone_warning_info (warning_df : dataframe)
    (victim_phone_col : ustring) (fraud_type_col : option ustring) : info :=
  collect_warning_info first_is_digit victim_phone_col fraud_type_col
    (rows warning_df).

(** Step 2: match the rows still at 0 on the phone number. *)
Definition phone_stage (warning_df merged_df : dataframe)
    (victim_phone_col withdraw_phone_col : ustring)
    (fraud_type_col : option ustring) : dataframe :=
  if existsb unmatched (rows merged_df) then
    let phone_warning_info :=
      phone_warning_info warning_df victim_phone_col fraud_type_col in
    {| columns := columns merged_df;
       rows :=
         map (fun row =>
                if unmatched row then
                  let phone := strip (py_str (row withdraw_phone_col)) in
                  match info_get phone_warning_info phone with
                  | Some (count, types) =>
                    let row := upd row COUNT (CInt count) in
                    match fraud_type_col with
                    | Some _ => upd row TYPES (CStr (join_types types))
                    | None => row
                    end
                  | None => row
                  end
                else row)
             (rows merged_df) |}
  else merged_df.

Definition victim_id_col (warning_df : dataframe) : option ustring :=
  truthy_label (find_column_by_keywords (columns warning_df)
                  [u "受害人身份证号"; u "身份证号"]).

Definition victim_phone_col (warning_df : dataframe) : option ustring :=
  truthy_label (find_column_by_keywords (columns warning_df)
                  [u "受害人号码"; u "号码"]).

Definition withdraw_id_col (withdraw_df : dataframe) : option ustring :=
  truthy_label (find_column_by_keywords (columns withdraw_df)
                  [u "身份证号"]).

Definition withdraw_phone_col (withdraw_df : dataframe) : option ustring :=
  truthy_label (find_column_by_keywords (columns withdraw_df)
                  [u "电话号码"; u "手机号"; u "电话"; u "联系方式"]).

Definition fraud_type_col (warning_df : dataframe) : option ustring :=
  truthy_label (find_column_by_keywords (columns warning_df)
                  [u "疑似诈骗类型"; u "诈骗类型"; u "类型"]).

(** [merged_df = withdraw_df.copy()] with the two result columns
    initialised. *)
Definition initial_frame (withdraw_df : dataframe) : dataframe :=
  set_column_const (set_column_const withdraw_df COUNT (CInt 0))
    TYPES (CStr []).

Definition temporary_columns : list ustring :=
  [ u "身份证号_clean"; u "身份证号_x"; u "身份证号_y";
    u "电话号码_clean"; u "电话号码_x"; u "电话号码_y" ].

Definition drop_temporary_columns (merged_df : dataframe) : dataframe :=
  fold_left (fun df c => if has_column df c then drop_column df c else df)
            temporary_columns merged_df.

(** Step 1 when both identity columns are resolved, else nothing. *)
Definition run_id_stage (warning_df withdraw_df merged_df : dataframe)
    : result dataframe :=
  match victim_id_col warning_df, withdraw_id_col withdraw_df with
  | Some victim_id_col, Some withdraw_id_col =>
    id_stage warning_df withdraw_df merged_df victim_id_col withdraw_id_col
      (fraud_type_col warning_df)
  | _, _ => Ok merged_df
  end.

(** Step 2 when both phone columns are resolved, else nothing. *)
Definition run_phone_stage (warning_df withdraw_df merged_df : dataframe)
    : dataframe :=
  match victim_phone_col warning_df, withdraw_phone_col withdraw_df with
  | Some victim_phone_col, Some withdraw_phone_col =>
    phone_stage warning_df merged_df victim_phone_col withdraw_phone_col
      (fraud_type_col warning_df)
  | _, _ => merged_df
  end.

(** The merge, from the two frames that were read. *)
Definition merge_warning_count_to_withdraw_records
    (warning_df withdraw_df : dataframe) : result dataframe :=
  match victim_id_col warning_df, victim_phone_col warning_df with
  | None, None => Raise ValueError
  | _, _ =>
    match withdraw_id_col withdraw_df, withdraw_phone_col withdraw_df with
    | None, None => Raise ValueError
    | _, _ =>
      let merged_df := initial_frame withdraw_df in
      merged_df <- run_id_stage warning_df withdraw_df merged_df ;;
      let merged_df := run_phone_stage warning_df withdraw_df merged_df in
      Ok (drop_temporary_columns merged_df)
    end
  end.

End WithRuntime.

End DataProcess.

(* ================================================================== *)
(** ** A reference runtime

    An instance of [Runtime] to evaluate the definitions on concrete
    inputs. It agrees with CPython on ASCII text, on plain decimal
    literals and on integer-valued floats; it does not interpret dates. *)

Module RefRuntime.

Definition lower_char (c : uchar) : uchar :=
  if ((65 <=? c) && (c <=? 90))%N then (c + 32)%N else c.

Definition isdigit (c : uchar) : bool := ((48 <=? c) && (c <=? 57))%N.

Definition decimal_of_int (z : Z) : ustring :=
  u (NilZero.string_of_int (Z.to_int z)).

Definition text_of_float (x : pyfloat) : ustring :=
  match x with
  | Finite q =>
    if (Z.pos (Qden q) =? 1) then decimal_of_int (Qnum q) ++ u ".0"
    else decimal_of_int (Qnum q) ++ u "/" ++ decimal_of_int (Z.pos (Qden q))
  | PInf => u "inf"
  | NInf => u "-inf"
  | NaN => u "nan"
  end.

(** Leading decimal digits: their value, their number, the rest. *)
Fixpoint digits (s : ustring) (acc : Z) (n : nat) : Z * nat * ustring :=
  match s with
  | c :: s' =>
    if isdigit c then digits s' (acc * 10 + (Z.of_N c - 48)) (S n)
    else (acc, n, s)
  | [] => (acc, n, [])
  end.

Definition unsigned_of_str (s : ustring) : option pyfloat :=
  let ls := map lower_char s in
  if eqb ls (u "inf") || eqb ls (u "infinity") then Some PInf
  else if eqb ls (u "nan") then Some NaN
  else
    let '(i, ni, rest) := digits s 0 0 in
    match rest with
    | [] => if (0 <? ni)%nat then Some (Finite (inject_Z i)) else None
    | c :: rest' =>
      if (c =? 46)%N then
        let '(f, nf, rest'') := digits rest' 0 0 in
        match rest'' with
        | [] =>
          if (0 <? ni + nf)%nat
          then Some (Finite (inject_Z i
                             + inject_Z f / inject_Z (10 ^ Z.of_nat nf)))
          else None
        | _ :: _ => None
        end
      else None
    end.

Definition negate (x : pyfloat) : pyfloat :=
  match x with
  | Finite q => Finite (- q)
  | PInf => NInf
  | NInf => PInf
  | NaN => NaN
  end.

Definition float_of_text (s : ustring) : option pyfloat :=
  match strip s with
  | c :: s' =>
    if (c =? 45)%N then option_map negate (unsigned_of_str s')
    else if (c =? 43)%N then unsigned_of_str s'
    else unsigned_of_str (c :: s')
  | [] => None
  end.

Definition runtime : Runtime :=
  {| str_lower := map lower_char;
     chr_isdigit := isdigit;
     float_of_str := float_of_text;
     str_of_float := text_of_float;
     str_of_int := decimal_of_int;
     str_of_time := decimal_of_int;
     strftime_minute := fun t => decimal_of_int (t / 60000000);
     strptime := fun _ _ => None;
     to_datetime := fun _ => None |}.

End RefRuntime.

(* ================================================================== *)
(** ** The description's tables, in its own words *)

Module Spec.
Import Scoring.

(** The additional-score weights of one amount bucket. *)
Record weights := {
  w_male : Z; w_female : Z; w_adult_app : Z; w_special_comm : Z;
  w_investment_app : Z; w_history_warning : Z }.

Definition bucket_weights (c : category) : weights :=
  match c with
  | low => {| w_male := 15; w_female := 0; w_adult_app := 20;
              w_special_comm := 0; w_investment_app := 0;
              w_history_warning := 10 |}
  | medium => {| w_male := 5; w_female := 5; w_adult_app := 10;
                 w_special_comm := 10; w_investment_app := 0;
                 w_history_warning := 15 |}
  | high => {| w_male := 0; w_female := 15; w_adult_app := 0;
               w_special_comm := 20; w_investment_app := 15;
               w_history_warning := 10 |}
  end.

Definition award (flag : bool) (w : Z) : Z := if flag then w else 0.

(** The time thresholds, in hours, and the points of each step. *)
Definition time_table : list (Q * Z) :=
  [ (1%Q, 40); (3%Q, 35); (6%Q, 30); (12%Q, 25); (24%Q, 20); (48%Q, 15);
    (72%Q, 10) ].

Fixpoint stepped (table : list (Q * Z)) (otherwise : Z) (x : Q) : Z :=
  match table with
  | [] => otherwise
  | (bound, points) :: table' =>
    if Qle_bool x bound then points else stepped table' otherwise x
  end.

Definition hours_apart (t w : Z) : Q :=
  inject_Z (Z.abs (t - w)) / 3600000000.
End Spec.


(* ================================================================== *)
(** ** Notions used to state the properties *)

Import Scoring Frame DataProcess.

(** Descending order of scores. *)
Definition by_score_desc (x y : scored_person) : Prop := score y <= score x.


(** C4, as stated: the five affirmative tokens of the description. *)
Definition described_tokens : list ustring :=
  [u "1"; u "yes"; u "true"; u "有"; u "是"].

(** C4, as the code has it: the description's five tokens and ["y"]. *)
Definition accepted_tokens : list ustring :=
  u "y" :: described_tokens.

(** A number other than zero ([True] and [False] are the integers 1 and
    0; a missing value is not a number). *)
Definition nonzero_number (v : cell) : Prop :=
  match v with
  | CBool b => b = true
  | CInt z => z <> 0
  | CFloat (Finite q) => ~ (q == 0)%Q
  | CFloat (PInf | NInf) => True
  | _ => False
  end.

(** The text of a cell that is neither missing nor a number. *)
Definition text_of (rt : Runtime) (v : cell) : option ustring :=
  match v with
  | CStr s => Some s
  | CTime t => Some (str_of_time rt t)
  | _ => None
  end.

(** The number of warning rows counted under key [k]. *)
Definition encounters (rt : Runtime) (accept : ustring -> bool)
    (key_col : ustring) (warning_rows : list row_t) (k : ustring) : Z :=
  Z.of_nat
    (List.length
       (filter (fun row =>
                  let k' := stripped_or_empty rt (row key_col) in
                  usable k' && accept k' && eqb k k')
               warning_rows)).

Definition count_of (d : info) (k : ustring) : Z :=
  match info_get d k with
  | Some (count, _) => count
  | None => 0
  end.

(** Each table resolves at least one of its two key columns. *)
Definition key_columns_resolve (warning_df withdraw_df : dataframe) : Prop :=
  ~ (victim_id_col warning_df = None /\ victim_phone_col warning_df = None)
  /\ ~ (withdraw_id_col withdraw_df = None
        /\ withdraw_phone_col withdraw_df = None).

(* ================================================================== *)
(** ** Sample data *)

Module Samples.

Definition hour : Z := 3600000000.

(** A record as the normaliser builds it, withdrawn at time 0. *)
Definition person0 : person :=
  {| id_number := u "110101199001011234";
     name := u "用户1234";
     account := u "****1234";
     status := u "成功";
     card_type := u "储蓄卡";
     risk_level := u "低";
     withdraw_time := Some 0;
     amount := Finite 50000;
     location := u "定海";
     gender := male;
     age := None;
     transaction_count := 1;
     has_history_warning := false;
     has_special_comm := false;
     has_adult_app := false;
     has_investment_app := false;
     warning_count := 0;
     fraud_type := [] |}.

(** The same record with a refund as its amount. *)
Definition refund : person := with_amount person0 (Finite (-500)).

Definition count_columns : list ustring := [u "身份证号"; u "取现次数"].

(** A row with an identity number and the given cell as its count. *)
Definition count_row (v : cell) : Frame.row_t :=
  Frame.mk_row [ (u "身份证号", CStr (u "110101199001011234"));
                 (u "取现次数", v) ].

(** A warning table: one report with an identity number and a phone, one
    with the same phone only, one whose phone cell is a stray label. *)
Definition warnings : Frame.dataframe :=
  {| Frame.columns := [u "受害人身份证号"; u "受害人号码"; u "疑似诈骗类型"];
     Frame.rows :=
       [ Frame.mk_row [ (u "受害人身份证号", CStr (u "A1"));
                        (u "受害人号码", CStr (u "13800000000"));
                        (u "疑似诈骗类型", CStr (u "刷单")) ];
         Frame.mk_row [ (u "受害人身份证号", CNull);
                        (u "受害人号码", CStr (u " 13800000000"));
                        (u "疑似诈骗类型", CStr (u "贷款")) ];
         Frame.mk_row [ (u "受害人身份证号", CNull);
                        (u "受害人号码", CStr (u "电话"));
                        (u "疑似诈骗类型", CNull) ] ] |}.

(** A withdrawal table: the first record has the reported identity number
    and the reported phone, the second the phone only, the third
    neither. *)
Definition withdrawals : Frame.dataframe :=
  {| Frame.columns := [u "身份证号"; u "电话号码"];
     Frame.rows :=
       [ Frame.mk_row [ (u "身份证号", CStr (u "A1"));
                        (u "电话号码", CStr (u "13800000000")) ];
         Frame.mk_row [ (u "身份证号", CStr (u "B2"));
                        (u "电话号码", CStr (u "13800000000")) ];
         Frame.mk_row [ (u "身份证号", CStr (u "C3"));
                        (u "电话号码", CInt 555) ] ] |}.

(** The frame between the two stages of the join of the tables above. *)
Definition after_id_stage : Frame.dataframe :=
  match
    DataProcess.run_id_stage RefRuntime.runtime warnings withdrawals
      (DataProcess.initial_frame withdrawals)
  with
  | Ok merged_df => merged_df
  | Raise _ => DataProcess.initial_frame withdrawals
  end.

(** A warning table with no identity and no phone column. *)
Definition notes_only : Frame.dataframe :=
  {| Frame.columns := [u "备注"];
     Frame.rows := [ Frame.mk_row [ (u "备注", CStr (u "刷单")) ] ] |}.

(** A warning table with a phone column only, a withdrawal table with an
    identity column only. *)
Definition phones_only : Frame.dataframe :=
  {| Frame.columns := [u "受害人号码"];
     Frame.rows :=
       [ Frame.mk_row [ (u "受害人号码", CStr (u "13800000000")) ] ] |}.

Definition ids_only : Frame.dataframe :=
  {| Frame.columns := [u "身份证号"];
     Frame.rows := [ Frame.mk_row [ (u "身份证号", CStr (u "A1")) ] ] |}.

(** The enriched table that a first run of the join writes. *)
Definition enriched : Frame.dataframe :=
  match
    DataProcess.merge_warning_count_to_withdraw_records RefRuntime.runtime
      warnings withdrawals
  with
  | Ok merged_df => merged_df
  | Raise _ => withdrawals
  end.

End Samples.

(* ================================================================== *)
(** ** Further code and notions *)

(* ---------------------------------------------------------------- *)
(** *** Notions of the scoring statements *)
(** The relative-difference thresholds and the points of each step. *)
Definition amount_table : list (Q * Z) :=
  [ (5 # 100, 40); (1 # 10, 35); (2 # 10, 30); (3 # 10, 25); (5 # 10, 20);
    (7 # 10, 15); (1%Q, 10) ].

(** [|t - a| / max(t, a)] *)
Definition relative_difference (t a : Q) : Q :=
  Qabs (t - a) / (if Qlt_bool t a then a else t).

(** The separator of district names in a clue location, "、". *)
Definition district_separator : uchar := 12289%N.

(** A district name as a clue carries it: not empty, no white space at
    either end, no separator inside. *)
Definition district_name (s : ustring) : Prop :=
  s <> [] /\ lstrip s = s /\ rstrip s = s /\ ~ In district_separator s.

(* ---------------------------------------------------------------- *)
(** *** scoring_system.py: perform_analysis, get_top_matches *)

(** [self.location_scores] *)
Definition location_scores : list (ustring * Z) :=
  [ (u "定海", 40); (u "普陀", 40); (u "岱山", 40); (u "嵊泗", 40);
    (u "其他", 40) ].

Record clue_info_t := {
  ci_time : ustring;
  ci_amount : Q;
  ci_location : ustring
}.

Record data_source_t := {
  ds_type : ustring;
  ds_file_path : option ustring;
  ds_data_count : nat
}.

Record scoring_rules_t := {
  scenario_type : ustring;
  time_scoring : ustring;
  amount_scoring : ustring;
  location_scoring : list (ustring * Z)
}.

Record file_info_t := {
  fi_name : ustring;
  fi_processed_at : ustring
}.

(** The dictionary [perform_analysis] returns when scoring went through;
    [file_info] is [None] when the key is absent. *)
Record analysis_t := {
  clue_info : clue_info_t;
  analysis_result : ranking;
  data_source : data_source_t;
  scoring_rules : scoring_rules_t;
  file_info : option file_info_t;
  statistics_total_analyzed : nat
}.

(** What [perform_analysis] returns: the analysis, or the dictionary of
    its [except] branch, with the error and the clue. *)
Inductive analysis_outcome :=
  | Analysed (a : analysis_t)
  | AnalysisFailed (e : exn) (clue : clue_info_t).

(** [custom_data] is [None] when the argument is not given; [basename] is
    [os.path.basename] and [now] the text of the current time, which the
    function reads for [file_info]. *)
Definition perform_analysis (rt : Runtime) (basename : ustring -> ustring)
    (now : ustring) (clue_time : Z) (clue_amount : Q)
    (clue_location : ustring) (file_path : option ustring)
    (custom_data : option (list person)) : analysis_outcome :=
  let clue :=
    {| ci_time := strftime_minute rt clue_time;
       ci_amount := clue_amount;
       ci_location := clue_location |} in
  match custom_data with
  | None | Some [] => AnalysisFailed ValueError clue
  | Some data =>
    let result := score_persons rt data clue_time clue_amount clue_location in
    let file_path :=
      match file_path with
      | Some (ch :: path) => Some (ch :: path)
      | _ => None
      end in
    Analysed
      {| clue_info := clue;
         analysis_result := result;
         data_source :=
           {| ds_type := u "uploaded_file";
              ds_file_path := file_path;
              ds_data_count := List.length data |};
         scoring_rules :=
           {| scenario_type := u "default";
              time_scoring := u "基于时间差距的递减评分";
              amount_scoring := u "基于金额差异比例的递减评分";
              location_scoring := location_scores |};
         file_info :=
           option_map (fun path => {| fi_name := basename path;
                                      fi_processed_at := now |})
                      file_path;
         statistics_total_analyzed := List.length data |}
  end.

(** The slice [l[:n]]; a negative [n] counts from the end. *)
Definition slice_to {A : Type} (n : Z) (l : list A) : list A :=
  if 0 <=? n then firstn (Z.to_nat n) l
  else firstn (List.length l - Z.to_nat (- n)) l.

Definition get_top_matches (analysis_result : analysis_outcome) (top_n : Z)
    : list scored_person :=
  match analysis_result with
  | Analysed {| analysis_result := result |} =>
    slice_to top_n (scored_persons result)
  | AnalysisFailed _ _ => []
  end.

(** The districts a record's location is classified into. *)
Definition districts : list ustring :=
  [u "定海"; u "普陀"; u "岱山"; u "嵊泗"; u "其他"].

(** The texts [convert_gender] reads as female and as male. *)
Definition female_tokens : list ustring := [u "女"; u "F"; u "Female"; u "0"].
Definition male_tokens : list ustring := [u "男"; u "M"; u "Male"; u "1"].

(** A number, with its being zero ([True] and [False] are 1 and 0; a
    missing value is not a number). *)
Definition number_is_zero (v : cell) : option bool :=
  match v with
  | CBool b => Some (negb b)
  | CInt z => Some (z =? 0)
  | CFloat NaN => None
  | CFloat x => Some (Float.is_zero x)
  | _ => None
  end.

(** The fraud-type labels of the warning rows counted under key [k], in
    the order of the rows. *)
Definition labels (rt : Runtime) (accept : ustring -> bool)
    (key_col : ustring) (fraud_type_col : option ustring)
    (warning_rows : list row_t) (k : ustring) : list ustring :=
  flat_map
    (fun row => match row_fraud_type rt fraud_type_col row with
                | Some t => [t]
                | None => []
                end)
    (filter (fun row =>
               let k' := stripped_or_empty rt (row key_col) in
               usable k' && accept k' && eqb k k')
            warning_rows).

Definition types_of (d : info) (k : ustring) : list ustring :=
  match info_get d k with
  | Some (_, types) => types
  | None => []
  end.

(** The row of the frame of counts for one entry of the dictionary. *)
Definition entry_row (e : ustring * (Z * list ustring)) : row_t :=
  mk_row [ (ID, CStr (fst e));
           (COUNT, CInt (fst (snd e)));
           (TYPES, CStr (join_types (snd (snd e)))) ].

(** Rows that agree outside the two result columns. *)
Definition same_record (row row' : row_t) : Prop :=
  forall c, c <> COUNT -> c <> TYPES -> row' c = row c.

(* ---------------------------------------------------------------- *)
(** *** app.py: the upload filter *)

Module App.

Definition ALLOWED_EXTENSIONS : list ustring := [u "csv"; u "xlsx"; u "xls"].

Definition dot : uchar := 46%N.

(** [s.rsplit(sep, 1)] for a one-character separator: the text before the
    last separator and the text after it, or the text alone. *)
Fixpoint rsplit_once (sep : uchar) (s : ustring) : list ustring :=
  match s with
  | [] => [[]]
  | c :: s' =>
    match rsplit_once sep s' with
    | [head; tail] => [c :: head; tail]
    | _ => if (c =? sep)%N then [[]; s'] else [s]
    end
  end.

(** [_allowed_file]; [None] stands for the [IndexError] that the
    subscript [[1]] raises on a list of one element. *)
Definition _allowed_file (rt : Runtime) (filename : ustring) : option bool :=
  if eqb filename [] || negb (contains [dot] filename) then Some false
  else
    match nth_error (rsplit_once dot filename) 1 with
    | Some part => let ext := str_lower rt part in
                   Some (mem ext ALLOWED_EXTENSIONS)
    | None => None
    end.

End App.

(** Sample tables for the normaliser and the join. *)
Module Uploads.

(** An uploaded table: the second row has a blank identity number. *)
Definition uploaded : dataframe :=
  {| columns := [u "身份证号"; u "取现金额"; u "网点名称"; u "小众聊天"];
     rows :=
       [ mk_row [ (u "身份证号", CStr (u "110101199001011234"));
                  (u "取现金额", CInt 50000);
                  (u "网点名称", CStr (u "普陀支行"));
                  (u "小众聊天", CStr (u "是")) ];
         mk_row [ (u "身份证号", CStr (u "  "));
                  (u "取现金额", CInt 10);
                  (u "网点名称", CStr (u "定海支行"));
                  (u "小众聊天", CNull) ] ] |}.

(** A warning table whose identity cells are all unusable. *)
Definition blank_ids : dataframe :=
  {| columns := [u "受害人身份证号"];
     rows := [ mk_row [ (u "受害人身份证号", CNull) ];
               mk_row [ (u "受害人身份证号", CStr (u " nan ")) ] ] |}.

(** Two records: a refund and an ordinary withdrawal. *)
Definition batch : list person := [Samples.refund; Samples.person0].

End Uploads.

(* ================================================================== *)
(** ** Facts about rationals and strings *)

Lemma Qlt_bool_iff (x y : Q) : Qlt_bool x y = true <-> (x < y)%Q.
Proof.
  unfold Qlt_bool. rewrite negb_true_iff. split.
  - intros H. apply Qnot_le_lt. intros Hle.
    apply Qle_bool_iff in Hle. congruence.
  - intros H. destruct (Qle_bool y x) eqn:E; [|reflexivity].
    apply Qle_bool_iff in E. exfalso. apply (Qlt_not_le _ _ H E).
Qed.

Lemma Qlt_bool_false (x y : Q) : Qlt_bool x y = false <-> (y <= x)%Q.
Proof.
  unfold Qlt_bool. rewrite negb_false_iff. apply Qle_bool_iff.
Qed.

Lemma Qle_bool_false (x y : Q) : Qle_bool x y = false <-> (y < x)%Q.
Proof.
  rewrite <- Qlt_bool_iff. unfold Qlt_bool.
  destruct (Qle_bool x y); simpl; intuition congruence.
Qed.

Ltac q_cases :=
  repeat match goal with
         | |- context [Qle_bool ?x ?y] =>
           let E := fresh "E" in
           destruct (Qle_bool x y) eqn:E;
           [apply Qle_bool_iff in E | apply Qle_bool_false in E]
         end.

Lemma ustring_eqb_refl (s : ustring) : eqb s s = true.
Proof.
  induction s as [|c s IH]; simpl; [reflexivity|].
  now rewrite N.eqb_refl, IH.
Qed.

Lemma ustring_eqb_eq (s t : ustring) : eqb s t = true <-> s = t.
Proof.
  split.
  - revert t; induction s as [|c s IH]; intros [|d t] H; simpl in H;
      try discriminate; [reflexivity|].
    apply andb_true_iff in H as [Hc Hs].
    apply N.eqb_eq in Hc. apply IH in Hs. congruence.
  - intros ->. apply ustring_eqb_refl.
Qed.

Lemma ustring_mem_In (s : ustring) (l : list ustring) : mem s l = true <-> In s l.
Proof.
  unfold mem. rewrite existsb_exists. split.
  - intros [x [Hin Hx]]. apply ustring_eqb_eq in Hx. now subst.
  - intros Hin. exists s. split; [assumption | apply ustring_eqb_refl].
Qed.


(* ================================================================== *)
(** ** The scoring engine *)

Lemma category_cases (a : Q) :
  (get_amount_category a = low <-> (a < 30000)%Q)
  /\ (get_amount_category a = medium <-> (30000 <= a /\ a < 100000)%Q)
  /\ (get_amount_category a = high <-> (100000 <= a)%Q).
Proof.
  unfold get_amount_category, amount_thresholds_low, amount_thresholds_medium.
  destruct (Qlt_bool a 30000) eqn:E1; [|destruct (Qlt_bool a 100000) eqn:E2].
  - apply Qlt_bool_iff in E1.
    repeat split; intros; try discriminate; try tauto; exfalso; lra.
  - apply Qlt_bool_false in E1. apply Qlt_bool_iff in E2.
    repeat split; intros; try discriminate; try tauto; exfalso; lra.
  - apply Qlt_bool_false in E1. apply Qlt_bool_false in E2.
    repeat split; intros; try discriminate; try tauto; exfalso; lra.
Qed.

Lemma additional_score_value (p : person) (a : Q) :
  let w := Spec.bucket_weights (get_amount_category a) in
  let g := match gender p with
           | male => Spec.w_male w
           | female => Spec.w_female w
           | unknown => 0
           end in
  let ap := Spec.award (has_adult_app p) (Spec.w_adult_app w)
            + Spec.award (has_special_comm p) (Spec.w_special_comm w)
            + Spec.award (has_investment_app p) (Spec.w_investment_app w) in
  let h := Spec.award (has_history_warning p) (Spec.w_history_warning w) in
  let f := if 2 <=? transaction_count p
           then (transaction_count p - 1) * 5 else 0 in
  calculate_additional_score p a =
  Ok {| gender_score := g; app_score := ap; history_warning_score := h;
        frequency_score := f; total_additional_score := g + ap + h + f |}.
Proof.
  unfold calculate_additional_score.
  destruct (get_amount_category a), p as [? ? ? ? ? ? ? ? ? g ? tc hw sc aa ia ? ?];
    cbn [gender has_adult_app has_special_comm has_history_warning
         has_investment_app transaction_count];
    destruct g, hw, sc, aa, ia; reflexivity.
Qed.

Lemma time_steps_antitone (h1 h2 : Q) :
  (h1 <= h2)%Q -> time_steps h2 <= time_steps h1.
Proof.
  intros H. unfold time_steps. q_cases; try lia; exfalso; lra.
Qed.

Lemma time_steps_compat (h1 h2 : Q) :
  (h1 == h2)%Q -> time_steps h1 = time_steps h2.
Proof.
  intros H. apply Z.le_antisymm; apply time_steps_antitone; lra.
Qed.

Lemma time_diff_hours_abs (t w : Z) :
  (time_diff_hours t w == Spec.hours_apart t w)%Q.
Proof.
  unfold time_diff_hours, total_seconds, Spec.hours_apart.
  destruct (Z_le_gt_dec 0 (t - w)) as [Hd|Hd].
  - assert (H0 : (0 <= inject_Z (t - w))%Q)
      by (rewrite <- (Zle_Qle 0); assumption).
    assert (H1 : (Qabs (inject_Z (t - w) / 1000000)
                  == inject_Z (t - w) / 1000000)%Q).
    { apply Qabs_pos. apply Qle_shift_div_l; lra. }
    rewrite H1, Z.abs_eq by assumption. field.
  - assert (H0 : (inject_Z (t - w) <= 0)%Q)
      by (rewrite <- (Zle_Qle _ 0); lia).
    assert (H1 : (Qabs (inject_Z (t - w) / 1000000)
                  == - (inject_Z (t - w) / 1000000))%Q).
    { apply Qabs_neg. apply Qle_shift_div_r; lra. }
    rewrite H1, Z.abs_neq, inject_Z_opp by lia. field.
Qed.

Lemma hours_apart_mono (t w t' w' : Z) :
  Z.abs (t - w) <= Z.abs (t' - w') ->
  (Spec.hours_apart t w <= Spec.hours_apart t' w')%Q.
Proof.
  intros H. unfold Spec.hours_apart.
  rewrite Zle_Qle in H.
  apply Qmult_le_compat_r; [assumption|]. 
  apply Qinv_le_0_compat. lra.
Qed.

Lemma leb_zero_not_positive (x : pyfloat) :
  Float.leb x (Finite 0) = true -> Float.ltb (Finite 0) x = false.
Proof.
  destruct x as [q| | |]; simpl; try discriminate; try reflexivity.
  intros H. unfold Qlt_bool. now rewrite H.
Qed.

(** The divisor [max(target_amount, person_amount)] is not zero once
    [person_amount > 0] holds. *)
Lemma ratio_defined (a : Q) (x : pyfloat) :
  Float.ltb (Finite 0) x = true ->
  exists r,
    Float.div (Float.abs (Float.sub (Finite a) x)) (Float.max (Finite a) x)
    = Ok r.
Proof.
  destruct x as [q| | |]; simpl; try discriminate; intros H.
  - apply Qlt_bool_iff in H. unfold Float.div, Float.max, Float.ltb.
    destruct (Qlt_bool a q) eqn:E; simpl.
    + destruct (Qeq_bool q 0) eqn:Z; [|eauto].
      apply Qeq_bool_iff in Z. exfalso. lra.
    + apply Qlt_bool_false in E.
      destruct (Qeq_bool a 0) eqn:Z; [|eauto].
      apply Qeq_bool_iff in Z. exfalso. lra.
  - unfold Float.div. simpl. eauto.
Qed.

Lemma base_score_value (p : person) (t : Z) (a : Q) (loc : ustring) :
  exists am ls,
    calculate_base_score p t a loc =
    Ok {| time_score :=
            match withdraw_time p with
            | Some w => time_steps (time_diff_hours t w)
            | None => 0
            end;
          amount_score := am;
          location_score := ls;
          total_base_score :=
            match withdraw_time p with
            | Some w => time_steps (time_diff_hours t w)
            | None => 0
            end + am + ls |}
    /\ (Float.ltb (Finite 0) (amount p) = false -> am = 0).
Proof.
  unfold calculate_base_score.
  destruct (Float.ltb (Finite 0) (amount p)) eqn:E.
  - destruct (ratio_defined a (amount p) E) as [r Hr]. rewrite Hr. simpl.
    eexists _, _. split; [reflexivity | discriminate].
  - simpl. eexists _, _. split; [reflexivity | reflexivity].
Qed.

(** Scoring never takes the [except] branch. *)
Lemma score_person_new_total (p : person) (t : Z) (a : Q) (loc : ustring) :
  exists b ad,
    calculate_base_score p t a loc = Ok b
    /\ calculate_additional_score p a = Ok ad
    /\ score_details (score_person_new p t a loc) = Some (b, ad)
    /\ score (score_person_new p t a loc)
       = total_base_score b + total_additional_score ad
    /\ error (score_person_new p t a loc) = None.
Proof.
  destruct (base_score_value p t a loc) as (am & ls & Hb & _).
  pose proof (additional_score_value p a) as Ha. cbv zeta in Ha.
  unfold score_person_new. rewrite Hb, Ha. simpl.
  eexists _, _. repeat split.
Qed.

(* ---------------------------------------------------------------- *)
(** *** The stable descending sort *)

Lemma insert_desc_perm (x : scored_person) (l : list scored_person) :
  Permutation (x :: l) (insert_desc x l).
Proof.
  induction l as [|y l IH]; simpl; [reflexivity|].
  destruct (score x <? score y); [|reflexivity].
  rewrite perm_swap. now apply perm_skip.
Qed.

Lemma insert_desc_sorted (x : scored_person) (l : list scored_person) :
  StronglySorted by_score_desc l ->
  StronglySorted by_score_desc (insert_desc x l).
Proof.
  induction 1 as [|y l Hs IH Hy]; simpl.
  - repeat constructor.
  - destruct (score x <? score y) eqn:E.
    + apply Z.ltb_lt in E. constructor; [assumption|].
      apply (Permutation_Forall (insert_desc_perm x l)).
      constructor; [unfold by_score_desc; lia | assumption].
    + apply Z.ltb_ge in E. constructor; [now constructor|].
      constructor; [unfold by_score_desc; lia|].
      eapply Forall_impl; [|exact Hy].
      unfold by_score_desc. intros z Hz. lia.
Qed.

Lemma insert_desc_filter (k : Z) (x : scored_person)
    (l : list scored_person) :
  filter (fun y => score y =? k) (insert_desc x l)
  = if score x =? k then x :: filter (fun y => score y =? k) l
    else filter (fun y => score y =? k) l.
Proof.
  induction l as [|y l IH]; simpl.
  - reflexivity.
  - destruct (score x <? score y) eqn:E; simpl.
    + rewrite IH. apply Z.ltb_lt in E.
      destruct (score x =? k) eqn:Ex; [|reflexivity].
      apply Z.eqb_eq in Ex.
      destruct (score y =? k) eqn:Ey; [|reflexivity].
      apply Z.eqb_eq in Ey. lia.
    + reflexivity.
Qed.

Lemma sort_desc_perm (l : list scored_person) : Permutation l (sort_desc l).
Proof.
  induction l as [|x l IH]; simpl; [constructor|].
  rewrite <- insert_desc_perm. now apply perm_skip.
Qed.

Lemma sort_desc_sorted (l : list scored_person) :
  StronglySorted by_score_desc (sort_desc l).
Proof.
  induction l as [|x l IH]; simpl; [constructor|].
  now apply insert_desc_sorted.
Qed.

Lemma sort_desc_stable (k : Z) (l : list scored_person) :
  filter (fun y => score y =? k) (sort_desc l)
  = filter (fun y => score y =? k) l.
Proof.
  induction l as [|x l IH]; simpl; [reflexivity|].
  rewrite insert_desc_filter, IH. reflexivity.
Qed.

(* ---------------------------------------------------------------- *)
(** *** Claims about the scoring engine *)

(** C1. For every clue amount [a] the bucket is low iff [a < 30000],
    medium iff [30000 <= a < 100000] and high iff [a >= 100000]; the
    additional score never depends on the record's own amount; and its
    gender, app and history parts are exactly the weights of that
    bucket's table: low +15 male, +20 adult-app, +10 history; medium +5
    male, +5 female, +10 adult-app, +10 special-comm, +15 history; high
    +15 female, +20 special-comm, +15 investment-app, +10 history. *)
Theorem additional_score_uses_bucket_table (p : person) (a : Q) :
  let c := get_amount_category a in
  let w := Spec.bucket_weights c in
  (c = low <-> (a < 30000)%Q)
  /\ (c = medium <-> (30000 <= a /\ a < 100000)%Q)
  /\ (c = high <-> (100000 <= a)%Q)
  /\ (forall x : pyfloat,
        calculate_additional_score (with_amount p x) a
        = calculate_additional_score p a)
  /\ exists s,
       calculate_additional_score p a = Ok s
       /\ gender_score s
          = match gender p with
            | male => Spec.w_male w
            | female => Spec.w_female w
            | unknown => 0
            end
       /\ app_score s
          = Spec.award (has_adult_app p) (Spec.w_adult_app w)
            + Spec.award (has_special_comm p) (Spec.w_special_comm w)
            + Spec.award (has_investment_app p) (Spec.w_investment_app w)
       /\ history_warning_score s
          = Spec.award (has_history_warning p) (Spec.w_history_warning w).
Proof.
  cbv zeta.
  destruct (category_cases a) as (Hl & Hm & Hh).
  repeat (split; [assumption|]).
  split.
  - intros x. pose proof (additional_score_value (with_amount p x) a) as H1.
    pose proof (additional_score_value p a) as H2.
    cbv zeta in H1, H2. rewrite H1, H2. reflexivity.
  - pose proof (additional_score_value p a) as H. cbv zeta in H.
    eexists. split; [exact H|]. repeat split.
Qed.

(** C2. The time sub-score is the stepped function of the absolute hour
    difference between the clue time and the record's [withdraw_time]
    (at most 1h 40, 3h 35, 6h 30, 12h 25, 24h 20, 48h 15, 72h 10,
    otherwise 5); a record with no [withdraw_time] scores 0; and the
    score does not increase when the absolute difference grows. *)
Theorem time_score_stepped_and_monotone
    (p p' : person) (t t' : Z) (a a' : Q) (loc loc' : ustring) :
  exists b b',
    calculate_base_score p t a loc = Ok b
    /\ calculate_base_score p' t' a' loc' = Ok b'
    /\ time_score b
       = match withdraw_time p with
         | None => 0
         | Some w => Spec.stepped Spec.time_table 5 (Spec.hours_apart t w)
         end
    /\ (forall w w',
          withdraw_time p = Some w -> withdraw_time p' = Some w' ->
          Z.abs (t - w) <= Z.abs (t' - w') ->
          time_score b' <= time_score b).
Proof.
  destruct (base_score_value p t a loc) as (am & ls & Hb & _).
  destruct (base_score_value p' t' a' loc') as (am' & ls' & Hb' & _).
  eexists _, _. split; [exact Hb|]. split; [exact Hb'|]. simpl. split.
  - destruct (withdraw_time p) as [w|]; [|reflexivity].
    rewrite (time_steps_compat _ _ (time_diff_hours_abs t w)). reflexivity.
  - intros w w' Hw Hw' Hle. rewrite Hw, Hw'.
    rewrite (time_steps_compat _ _ (time_diff_hours_abs t w)).
    rewrite (time_steps_compat _ _ (time_diff_hours_abs t' w')).
    apply time_steps_antitone. now apply hours_apart_mono.
Qed.

(** A clue one hour after the withdrawal against a clue 73 hours after
    it: the scores are 40 and 5. *)
Lemma time_score_witness :
  exists b b',
    calculate_base_score Samples.person0 Samples.hour 50000 [] = Ok b
    /\ calculate_base_score Samples.person0 (73 * Samples.hour) 50000 []
       = Ok b'
    /\ time_score b = 40 /\ time_score b' = 5
    /\ time_score b' <= time_score b.
Proof.
  destruct (time_score_stepped_and_monotone Samples.person0 Samples.person0
              Samples.hour (73 * Samples.hour) 50000 50000 [] [])
    as (b & b' & Hb & Hb' & Hs & Hm).
  exists b, b'. split; [exact Hb|]. split; [exact Hb'|].
  split; [exact Hs|]. split.
  - vm_compute in Hb'. injection Hb' as <-. reflexivity.
  - apply (Hm 0 0); [reflexivity | reflexivity | vm_compute; discriminate].
Defined.

(** The steps at their boundaries, in hours. *)
Example time_steps_boundaries :
  map (fun h => time_steps h)
      [0; 1; 3; 6; 12; 24; 48; 72; 73; 1 + (1 # 3600000000)]%Q
  = [40; 40; 35; 30; 25; 20; 15; 10; 5; 35].
Proof. reflexivity. Qed.

(** C10. A record whose amount is zero or negative gets amount score 0,
    whatever the clue amount; the relative difference is not computed,
    so scoring it raises nothing. *)
Theorem nonpositive_amount_scores_zero
    (p : person) (t : Z) (a : Q) (loc : ustring) :
  Float.leb (amount p) (Finite 0) = true ->
  (exists b, calculate_base_score p t a loc = Ok b /\ amount_score b = 0)
  /\ error (score_person_new p t a loc) = None.
Proof.
  intros H. apply leb_zero_not_positive in H. split.
  - destruct (base_score_value p t a loc) as (am & ls & Hb & Hz).
    eexists. split; [exact Hb|]. simpl. now apply Hz.
  - destruct (score_person_new_total p t a loc) as (b & ad & _ & _ & _ & _ & He).
    exact He.
Qed.

(** A refund of 500 against a clue amount of 0: the divisor of the
    relative difference would be 0, and the score is 0 all the same. *)
Lemma nonpositive_amount_witness :
  Float.leb (amount Samples.refund) (Finite 0) = true
  /\ (exists b,
        calculate_base_score Samples.refund 0 0 [] = Ok b
        /\ amount_score b = 0)
  /\ error (score_person_new Samples.refund 0 0 []) = None.
Proof.
  split; [reflexivity|].
  apply (nonpositive_amount_scores_zero Samples.refund 0 0 []).
  reflexivity.
Defined.

(** C8. The ranked list of the batch scorer is sorted by total score in
    descending order, it is a rearrangement of the scored input, and
    records of equal score keep the order of the input. *)
Theorem ranking_sorted_and_stable
    (rt : Runtime) (persons : list person) (t : Z) (a : Q)
    (loc : ustring) :
  let scored := map (fun p => score_person_new p t a loc) persons in
  let ranked := scored_persons (score_persons rt persons t a loc) in
  StronglySorted (fun x y => score y <= score x) ranked
  /\ Permutation scored ranked
  /\ (forall k : Z,
        filter (fun x => score x =? k) ranked
        = filter (fun x => score x =? k) scored)
  /\ Forall (fun x => exists b ad,
                 score_details x = Some (b, ad)
                 /\ score x = total_base_score b + total_additional_score ad)
            ranked.
Proof.
  cbv zeta.
  assert (E : scored_persons (score_persons rt persons t a loc)
              = sort_desc (map (fun p => score_person_new p t a loc) persons)).
  { destruct persons; reflexivity. }
  rewrite E. split; [apply sort_desc_sorted|].
  split; [apply sort_desc_perm|].
  split; [intros k; apply sort_desc_stable|].
  apply (Permutation_Forall (sort_desc_perm _)).
  apply Forall_forall. intros x Hx. apply in_map_iff in Hx as (p & <- & _).
  destruct (score_person_new_total p t a loc) as (b & ad & _ & _ & Hd & Hs & _).
  exists b, ad. split; assumption.
Qed.

(** C9, as the code has it. With no records the batch scorer returns a
    result with count 0, no top match, an empty ranked list, and the
    clue's time and amount; the clue's location is not among the echoed
    fields, while the result for one record or more does carry it. *)
Theorem empty_batch_omits_location
    (rt : Runtime) (t : Z) (a : Q) (loc : ustring) :
  let r := score_persons rt [] t a loc in
  total_persons r = 0%nat
  /\ top_match r = None
  /\ scored_persons r = []
  /\ ti_time (target_info r) = strftime_minute rt t
  /\ ti_amount (target_info r) = a
  /\ ti_location (target_info r) = None
  /\ forall (p : person) (ps : list person),
       ti_location (target_info (score_persons rt (p :: ps) t a loc))
       = Some loc.
Proof.
  cbv zeta. repeat split.
Qed.

(* ================================================================== *)
(** ** The normaliser *)


Lemma accepted_tokens_same (s : ustring) :
  mem s affirmative_tokens = mem s accepted_tokens.
Proof.
  unfold affirmative_tokens, accepted_tokens, described_tokens, mem.
  simpl. destruct (eqb s (u "1")), (eqb s (u "是")), (eqb s (u "true")),
    (eqb s (u "yes")), (eqb s (u "y")), (eqb s (u "有")); reflexivity.
Qed.

(** C4, amended. The boolean-field converter returns true exactly when
    the input is a non-zero number or, lower-cased after trimming, one of
    the tokens "1", "yes", "true", "y", "有", "是"; for every other
    input, missing values included, it returns false. *)
Theorem convert_boolean_field_true_iff (rt : Runtime) (v : cell) :
  convert_boolean_field rt v = true
  <-> nonzero_number v
      \/ exists s, text_of rt v = Some s
                   /\ In (str_lower rt (strip s)) accepted_tokens.
Proof.
  unfold convert_boolean_field.
  destruct v as [|b|z|[q| | |]|s|t];
    cbn [isna py_str text_of nonzero_number].
  - split; [discriminate | intros [[]|(s & H & _)]; discriminate].
  - split; [intros ->; now left | intros [H|(s & H & _)];
            [assumption | discriminate]].
  - rewrite negb_true_iff, Z.eqb_neq.
    split; [now left | intros [H|(s & H & _)]; [assumption | discriminate]].
  - unfold Float.truthy, Float.is_zero. rewrite negb_true_iff.
    split.
    + intros H. left. intros Hq. apply Qeq_bool_iff in Hq. congruence.
    + intros [H|(s & H & _)]; [|discriminate].
      destruct (Qeq_bool q 0) eqn:E; [|reflexivity].
      apply Qeq_bool_iff in E. contradiction.
  - split; [now left | reflexivity].
  - split; [now left | reflexivity].
  - split; [discriminate | intros [[]|(s & H & _)]; discriminate].
  - rewrite accepted_tokens_same, ustring_mem_In. split.
    + intros H. right. exists s. now split.
    + intros [[]|(s' & H & Hin)]. injection H as <-. assumption.
  - rewrite accepted_tokens_same, ustring_mem_In. split.
    + intros H. right. eexists. now split.
    + intros [[]|(s' & H & Hin)]. injection H as <-. assumption.
Qed.

(** C4 fails as stated: the text "y" is not a number and is none of the
    five tokens, and the converter returns true for it. *)
Lemma convert_boolean_field_accepts_y :
  convert_boolean_field RefRuntime.runtime (CStr (u "y")) = true
  /\ ~ nonzero_number (CStr (u "y"))
  /\ mem (str_lower RefRuntime.runtime (strip (u "y"))) described_tokens
     = false.
Proof.
  split; [reflexivity|]. split; [intros []|reflexivity].
Qed.

Lemma build_person_count (rt : Runtime) (cm : column_map) (row : row_t)
    (id_cell : cell) (p : person) :
  build_person rt cm row id_cell = Ok p ->
  row_transaction_count rt cm row = Ok (transaction_count p).
Proof.
  unfold build_person.
  destruct (generate_user_name rt _ _ _); [|discriminate].
  destruct (row_amount rt cm row); [|discriminate].
  destruct (row_age rt cm row); [|discriminate].
  destruct (row_transaction_count rt cm row); [|discriminate].
  destruct (row_warning_count rt cm row); [|discriminate].
  cbn [bind]. intros H. injection H as <-. reflexivity.
Qed.

Lemma process_row_count (rt : Runtime) (cm : column_map) (row : row_t)
    (p : person) :
  process_row rt cm row = Some p ->
  row_transaction_count rt cm row = Ok (transaction_count p).
Proof.
  unfold process_row.
  destruct (cm "id_number"%string); [|discriminate].
  destruct (_ || _); [discriminate|].
  destruct (build_person rt cm row _) eqn:E; [|discriminate].
  intros H. injection H as <-. eapply build_person_count; eassumption.
Qed.

Lemma quot_at_least_one (n : Z) (d : positive) :
  1 <= Z.quot n (Z.pos d) <-> (1 <= n # d)%Q.
Proof.
  unfold Qle. simpl. rewrite Z.mul_1_r.
  destruct (Z_lt_le_dec n 0) as [Hn|Hn].
  - assert (Z.quot n (Z.pos d) <= 0).
    { apply Z.quot_le_upper_bound; lia. }
    lia.
  - rewrite Z.quot_div_nonneg by lia. split; intros H.
    + destruct (Z_lt_le_dec n (Z.pos d)) as [Hs|Hs]; [|lia].
      rewrite Z.div_small in H by lia. lia.
    + apply Z.div_le_lower_bound; lia.
Qed.

(** C3, amended. For every row the normaliser accepts, the record's
    [transaction_count] is 1 when the column is missing or the cell is
    missing, blank or not a number; otherwise it is the cell's number
    truncated toward zero, with no lower bound enforced: it is at least 1
    exactly when the number is. *)
Theorem transaction_count_default_or_truncation
    (rt : Runtime) (cm : column_map) (row : row_t) (p : person) :
  process_row rt cm row = Some p ->
  match field_cell cm row "transaction_count" with
  | None => transaction_count p = 1
  | Some v =>
    if not_blank rt v then
      match py_float rt v with
      | Ok (Finite q) =>
        transaction_count p = Z.quot (Qnum q) (Z.pos (Qden q))
        /\ (1 <= transaction_count p <-> (1 <= q)%Q)
      | Ok NaN | Raise _ => transaction_count p = 1
      | Ok PInf | Ok NInf => False
      end
    else transaction_count p = 1
  end.
Proof.
  intros H. apply process_row_count in H. revert H.
  unfold row_transaction_count.
  destruct (field_cell cm row "transaction_count") as [v|];
    [|intros H; injection H as <-; reflexivity].
  destruct (not_blank rt v); [|intros H; injection H as <-; reflexivity].
  unfold int_of_float_of.
  destruct (py_float rt v) as [[q| | |]|e] eqn:E; cbn.
  - intros H. injection H as <-. split; [reflexivity|].
    destruct q as [n d]. apply quot_at_least_one.
  - discriminate.
  - discriminate.
  - intros H. injection H as <-. reflexivity.
  - assert (He : e = ValueError \/ e = TypeError).
    { destruct v; simpl in E; try discriminate.
      - destruct (float_of_str rt s); [discriminate|].
        injection E as <-. now left.
      - injection E as <-. now right. }
    destruct He as [-> | ->]; intros H; injection H as <-; reflexivity.
Qed.

(** A row whose count cell is the text "3.7": accepted, with count 3. *)
Lemma transaction_count_witness :
  exists p,
    process_row RefRuntime.runtime (build_column_map Samples.count_columns)
      (Samples.count_row (CStr (u "3.7"))) = Some p
    /\ transaction_count p = 3
    /\ 1 <= transaction_count p.
Proof.
  destruct (process_row RefRuntime.runtime
              (build_column_map Samples.count_columns)
              (Samples.count_row (CStr (u "3.7")))) as [p|] eqn:E;
    [|vm_compute in E; discriminate].
  exists p. split; [reflexivity|].
  pose proof (transaction_count_default_or_truncation
                RefRuntime.runtime _ _ _ E) as H.
  vm_compute in H. destruct H as [H _].
  change (transaction_count p = 3) in H. rewrite H.
  split; [reflexivity | lia].
Defined.

(** C3 fails as stated: a row whose count cell is the number 0 is
    accepted, and its record has [transaction_count] 0. *)
Lemma zero_transaction_count_accepted :
  option_map transaction_count
    (process_row RefRuntime.runtime (build_column_map Samples.count_columns)
       (Samples.count_row (CInt 0)))
  = Some 0.
Proof. vm_compute. reflexivity. Qed.

(* ================================================================== *)
(** ** The warning-enrichment join *)

Lemma ustring_eqb_sym (s t : ustring) : eqb s t = eqb t s.
Proof.
  destruct (eqb s t) eqn:E.
  - apply ustring_eqb_eq in E. subst. symmetry. apply ustring_eqb_refl.
  - destruct (eqb t s) eqn:E'; [|reflexivity].
    apply ustring_eqb_eq in E'. subst. rewrite ustring_eqb_refl in E.
    discriminate.
Qed.

Lemma info_get_bump (d : info) (k k' : ustring) (ft : option ustring) :
  info_get (info_bump d k ft) k'
  = if eqb k' k
    then Some (count_of d k + 1,
               match info_get d k with
               | Some (_, types) => types
               | None => []
               end ++ match ft with Some t => [t] | None => [] end)
    else info_get d k'.
Proof.
  unfold count_of.
  induction d as [|[k0 [count types]] d IH]; simpl.
  - destruct (eqb k' k); reflexivity.
  - destruct (eqb k k0) eqn:E0; simpl.
    + apply ustring_eqb_eq in E0. subst k0.
      destruct (eqb k' k); reflexivity.
    + destruct (eqb k' k0) eqn:E1.
      * apply ustring_eqb_eq in E1. subst k0.
        rewrite ustring_eqb_sym, E0. reflexivity.
      * exact IH.
Qed.

Section Collect.

Variable rt : Runtime.
Variable accept : ustring -> bool.
Variable key_col : ustring.
Variable ft_col : option ustring.

Let step := collect_step rt accept key_col ft_col.

Lemma collect_fold (l : list row_t) (d : info) (k : ustring) :
  count_of (fold_left step l d) k
  = count_of d k + encounters rt accept key_col l k.
Proof.
  revert d. induction l as [|row l IH]; intros d.
  - unfold encounters. simpl. lia.
  - cbn [fold_left]. rewrite IH. unfold encounters. cbn [filter].
    unfold step, collect_step.
    destruct (usable _ && accept _) eqn:E; cbn [andb].
    + unfold count_of at 1. rewrite info_get_bump.
      destruct (eqb k _) eqn:Ek.
      * apply ustring_eqb_eq in Ek. subst k. cbn [List.length].
        unfold count_of. lia.
      * fold (count_of d k). lia.
    + lia.
Qed.

Lemma collect_keys_fold (all l : list row_t) (d : info)
    (P : ustring -> Prop) :
  (forall row, In row l ->
     let k := stripped_or_empty rt (row key_col) in
     usable k && accept k = true -> P k) ->
  (forall k e, info_get d k = Some e -> P k) ->
  forall k e, info_get (fold_left step l d) k = Some e -> P k.
Proof.
  revert d. induction l as [|row l IH]; intros d Hl Hd; [exact Hd|].
  cbn [fold_left]. apply IH.
  - intros row' Hin. apply Hl. now right.
  - intros k e. unfold step, collect_step.
    destruct (usable _ && accept _) eqn:E; [|apply Hd].
    rewrite info_get_bump.
    destruct (eqb k _) eqn:Ek; [|apply Hd].
    apply ustring_eqb_eq in Ek. subst k. intros _.
    apply (Hl row); [now left | exact E].
Qed.

(** The count kept under a key is the number of warning rows that carry
    the key, and every key comes from an accepted row. *)
Lemma collect_warning_info_counts (warning_rows : list row_t) (k : ustring) :
  count_of (collect_warning_info rt accept key_col ft_col warning_rows) k
  = encounters rt accept key_col warning_rows k.
Proof.
  unfold collect_warning_info. fold step. rewrite collect_fold.
  reflexivity.
Qed.

Lemma collect_warning_info_keys (warning_rows : list row_t) (k : ustring)
    (e : Z * list ustring) :
  info_get (collect_warning_info rt accept key_col ft_col warning_rows) k
  = Some e ->
  accept k = true /\ usable k = true
  /\ exists row, In row warning_rows
                 /\ stripped_or_empty rt (row key_col) = k.
Proof.
  unfold collect_warning_info. fold step.
  apply (collect_keys_fold warning_rows warning_rows []
           (fun k => accept k = true /\ usable k = true
                     /\ exists row, In row warning_rows
                                    /\ stripped_or_empty rt (row key_col)
                                       = k)).
  - intros row Hin k' E. apply andb_true_iff in E as [Hu Ha].
    repeat split; try assumption. now exists row.
  - intros k' e'. discriminate.
Qed.

End Collect.

(** C6. The phone stage, on its own and as the join runs it, leaves
    every record whose count is not 0 after the identity stage exactly as
    it is, so a record matched by identity is never looked up in the
    phone mapping; and every key of the phone mapping is the trimmed
    phone value of a warning row whose first character is a digit. *)
Theorem phone_stage_only_unmatched_and_digit_keys
    (rt : Runtime) (warning_df merged_df : dataframe)
    (victim_phone withdraw_phone : ustring) (ft_col : option ustring) :
  (forall (i : nat) (row : row_t),
     nth_error (rows merged_df) i = Some row ->
     unmatched row = false ->
     nth_error
       (rows (phone_stage rt warning_df merged_df victim_phone
                withdraw_phone ft_col)) i
     = Some row)
  /\ (forall (withdraw_df : dataframe) (i : nat) (row : row_t),
        nth_error (rows merged_df) i = Some row ->
        unmatched row = false ->
        nth_error
          (rows (run_phone_stage rt warning_df withdraw_df merged_df)) i
        = Some row)
  /\ (forall (k : ustring) (e : Z * list ustring),
        info_get (phone_warning_info rt warning_df victim_phone ft_col) k
        = Some e ->
        first_is_digit rt k = true
        /\ exists row, In row (rows warning_df)
                       /\ stripped_or_empty rt (row victim_phone) = k).
Proof.
  assert (Hkeep : forall vp wp ft (i : nat) (row : row_t),
            nth_error (rows merged_df) i = Some row ->
            unmatched row = false ->
            nth_error (rows (phone_stage rt warning_df merged_df vp wp ft)) i
            = Some row).
  { intros vp wp ft i row Hi Hu. unfold phone_stage.
    destruct (existsb unmatched (rows merged_df)); [|exact Hi].
    cbn [rows]. rewrite nth_error_map, Hi. cbn [option_map].
    rewrite Hu. reflexivity. }
  split; [apply Hkeep|]. split.
  - intros withdraw_df i row Hi Hu. unfold run_phone_stage.
    destruct (victim_phone_col warning_df); [|exact Hi].
    destruct (withdraw_phone_col withdraw_df); [|exact Hi].
    now apply Hkeep.
  - intros k e H. unfold phone_warning_info in H.
    apply collect_warning_info_keys in H as (Ha & _ & Hrow).
    split; assumption.
Qed.

(** On the sample tables the first record is matched by identity with
    count 1; its phone is a key of the phone mapping with count 2, and
    the phone stage leaves the record at 1. *)
Lemma phone_stage_witness :
  let rt := RefRuntime.runtime in
  let row := nth 0 (rows Samples.after_id_stage) (fun _ => CNull) in
  let after :=
    phone_stage rt Samples.warnings Samples.after_id_stage
      (u "受害人号码") (u "电话号码") (Some (u "疑似诈骗类型")) in
  row COUNT = CInt 1
  /\ nth_error (rows after) 0 = Some row
  /\ map (fun r => r COUNT) (rows after) = [CInt 1; CInt 2; CInt 0]
  /\ first_is_digit rt (u "13800000000") = true.
Proof.
  cbv zeta.
  destruct (phone_stage_only_unmatched_and_digit_keys RefRuntime.runtime
              Samples.warnings Samples.after_id_stage
              (u "受害人号码") (u "电话号码") (Some (u "疑似诈骗类型")))
    as (Hrows & _ & Hkeys).
  split; [reflexivity|]. split.
  - apply Hrows; reflexivity.
  - split; [reflexivity|].
    apply (Hkeys (u "13800000000") (2, [u "刷单"; u "贷款"])).
    reflexivity.
Defined.

Lemma id_stage_raises_key_error (rt : Runtime)
    (warning_df withdraw_df merged_df : dataframe) (v c : ustring)
    (ft_col : option ustring) (e : exn) :
  id_stage rt warning_df withdraw_df merged_df v c ft_col = Raise e ->
  e = KeyError.
Proof.
  unfold id_stage, merge_left.
  destruct (negb _ || negb _); cbn [bind].
  - intros H. injection H as <-. reflexivity.
  - unfold get_column. destruct (has_column _ COUNT); cbn [bind].
    + discriminate.
    + intros H. injection H as <-. reflexivity.
Qed.

Ltac resolve_columns warning_df withdraw_df :=
  unfold merge_warning_count_to_withdraw_records, key_columns_resolve,
    run_id_stage, run_phone_stage;
  destruct (victim_id_col warning_df) as [?vi|],
           (victim_phone_col warning_df) as [?vp|],
           (withdraw_id_col withdraw_df) as [?wi|],
           (withdraw_phone_col withdraw_df) as [?wp|];
  cbn [bind].

Lemma merge_value_error_iff (rt : Runtime)
    (warning_df withdraw_df : dataframe) :
  merge_warning_count_to_withdraw_records rt warning_df withdraw_df
  = Raise ValueError
  <-> (victim_id_col warning_df = None
       /\ victim_phone_col warning_df = None)
      \/ (withdraw_id_col withdraw_df = None
          /\ withdraw_phone_col withdraw_df = None).
Proof.
  resolve_columns warning_df withdraw_df;
    (split;
     [ intros H;
       first
         [ left; split; reflexivity
         | right; split; reflexivity
         | exfalso;
           match type of H with
           | context [id_stage ?r ?w ?d ?m ?v ?c ?f] =>
             destruct (id_stage r w d m v c f) eqn:E; cbn [bind] in H;
             [ discriminate
             | apply id_stage_raises_key_error in E; subst; discriminate ]
           | _ => discriminate
           end ]
     | intros [[H1 H2]|[H1 H2]]; try discriminate; reflexivity ]).
Qed.

Lemma merge_without_id_stage (rt : Runtime)
    (warning_df withdraw_df : dataframe) :
  key_columns_resolve warning_df withdraw_df ->
  victim_id_col warning_df = None \/ withdraw_id_col withdraw_df = None ->
  merge_warning_count_to_withdraw_records rt warning_df withdraw_df
  = Ok (drop_temporary_columns
          (run_phone_stage rt warning_df withdraw_df
             (initial_frame withdraw_df))).
Proof.
  resolve_columns warning_df withdraw_df;
    intros [H1 H2] [H|H]; try discriminate; try reflexivity;
    exfalso;
    first [apply H1; split; reflexivity | apply H2; split; reflexivity].
Qed.

Lemma merge_without_phone_stage (rt : Runtime)
    (warning_df withdraw_df : dataframe) :
  key_columns_resolve warning_df withdraw_df ->
  victim_phone_col warning_df = None
  \/ withdraw_phone_col withdraw_df = None ->
  merge_warning_count_to_withdraw_records rt warning_df withdraw_df
  = (merged_df <- run_id_stage rt warning_df withdraw_df
                    (initial_frame withdraw_df) ;;
     Ok (drop_temporary_columns merged_df)).
Proof.
  resolve_columns warning_df withdraw_df;
    intros [H1 H2] [H|H]; try discriminate; try reflexivity;
    exfalso;
    first [apply H1; split; reflexivity | apply H2; split; reflexivity].
Qed.

(** C5, amended. The join raises its fatal error exactly when the warning
    table resolves neither a victim-identity nor a victim-phone column, or
    the withdrawal table resolves neither an identity nor a phone column.
    In every other configuration a stage with an unresolved column on
    either side is skipped: without the identity stage the join completes
    with the phone stage alone, and without the phone stage its result is
    that of the identity stage alone. *)
Theorem merge_fatal_iff_a_table_has_no_key_column
    (rt : Runtime) (warning_df withdraw_df : dataframe) :
  let merge :=
    merge_warning_count_to_withdraw_records rt warning_df withdraw_df in
  (merge = Raise ValueError
   <-> (victim_id_col warning_df = None
        /\ victim_phone_col warning_df = None)
       \/ (withdraw_id_col withdraw_df = None
           /\ withdraw_phone_col withdraw_df = None))
  /\ (key_columns_resolve warning_df withdraw_df ->
      victim_id_col warning_df = None \/ withdraw_id_col withdraw_df = None ->
      merge = Ok (drop_temporary_columns
                    (run_phone_stage rt warning_df withdraw_df
                       (initial_frame withdraw_df))))
  /\ (key_columns_resolve warning_df withdraw_df ->
      victim_phone_col warning_df = None
      \/ withdraw_phone_col withdraw_df = None ->
      merge = (merged_df <- run_id_stage rt warning_df withdraw_df
                              (initial_frame withdraw_df) ;;
               Ok (drop_temporary_columns merged_df))).
Proof.
  cbv zeta. split; [apply merge_value_error_iff|].
  split; [apply merge_without_id_stage | apply merge_without_phone_stage].
Qed.

(** A warning table with a phone column only against a withdrawal table
    with an identity column only: neither stage can run, the join
    completes, and every count is 0. *)
Lemma merge_skips_stages_witness :
  exists merged_df,
    merge_warning_count_to_withdraw_records RefRuntime.runtime
      Samples.phones_only Samples.ids_only = Ok merged_df
    /\ get_column merged_df COUNT = Ok [CInt 0].
Proof.
  destruct (merge_fatal_iff_a_table_has_no_key_column RefRuntime.runtime
              Samples.phones_only Samples.ids_only) as (_ & Hskip & _).
  eexists. split.
  - apply Hskip.
    + split; intros [H1 H2]; vm_compute in H1, H2; discriminate.
    + left. reflexivity.
  - reflexivity.
Defined.

(** C5 fails as stated: the withdrawal table resolves its identity
    column, the warning table resolves neither of its columns, and the
    join raises the fatal error. *)
Lemma merge_fatal_on_warning_table :
  merge_warning_count_to_withdraw_records RefRuntime.runtime
    Samples.notes_only Samples.ids_only = Raise ValueError
  /\ withdraw_id_col Samples.ids_only = Some (u "身份证号").
Proof. split; reflexivity. Qed.

(* ---------------------------------------------------------------- *)
(** *** Running the join over its own output *)

Lemma has_column_In (df : dataframe) (c : ustring) :
  has_column df c = true <-> In c (columns df).
Proof. apply ustring_mem_In. Qed.

Lemma mem_false_not_In (c : ustring) (l : list ustring) :
  mem c l = false <-> ~ In c l.
Proof.
  rewrite <- ustring_mem_In. destruct (mem c l); intuition congruence.
Qed.

Lemma set_column_columns (df : dataframe) (c c' : ustring)
    (values : list cell) :
  In c' (columns (set_column df c values)) <-> c' = c \/ In c' (columns df).
Proof.
  unfold set_column. cbn [columns].
  destruct (has_column df c) eqn:E.
  - apply has_column_In in E. split; [now right|].
    intros [->|H]; assumption.
  - rewrite in_app_iff. simpl. intuition.
Qed.

Lemma phone_stage_columns (rt : Runtime) (warning_df merged_df : dataframe)
    (vp wp : ustring) (ft_col : option ustring) :
  columns (phone_stage rt warning_df merged_df vp wp ft_col)
  = columns merged_df.
Proof.
  unfold phone_stage. destruct (existsb _ _); reflexivity.
Qed.

Lemma drop_temporary_keeps_count (df : dataframe) :
  In COUNT (columns df) -> In COUNT (columns (drop_temporary_columns df)).
Proof.
  unfold drop_temporary_columns.
  assert (Hstep : forall (df : dataframe) (t : ustring),
            eqb t COUNT = false -> In COUNT (columns df) ->
            In COUNT (columns (if has_column df t then drop_column df t
                               else df))).
  { intros df' t Ht Hin. destruct (has_column df' t); [|assumption].
    unfold drop_column. cbn [columns]. apply filter_In.
    split; [assumption | now rewrite Ht]. }
  intros H. unfold temporary_columns. cbn [fold_left].
  repeat (apply Hstep; [reflexivity|]). exact H.
Qed.

(** A frame the join returns carries the count column. *)
Lemma merge_output_has_count (rt : Runtime)
    (warning_df withdraw_df out : dataframe) :
  merge_warning_count_to_withdraw_records rt warning_df withdraw_df = Ok out ->
  has_column out COUNT = true.
Proof.
  intros H. apply has_column_In.
  assert (Hid : forall m, run_id_stage rt warning_df withdraw_df
                            (initial_frame withdraw_df) = Ok m ->
                          In COUNT (columns m)).
  { intros m. unfold run_id_stage, initial_frame, set_column_const.
    assert (H0 : forall vs vs',
               In COUNT (columns (set_column (set_column withdraw_df COUNT vs)
                                    TYPES vs'))).
    { intros. apply set_column_columns. right.
      apply set_column_columns. now left. }
    destruct (victim_id_col warning_df); [|intros E; injection E as <-; apply H0].
    destruct (withdraw_id_col withdraw_df);
      [|intros E; injection E as <-; apply H0].
    unfold id_stage. destruct (merge_left _ _ _ _); cbn [bind]; [|discriminate].
    destruct (get_column _ COUNT); cbn [bind]; [|discriminate].
    intros E. injection E as <-.
    apply set_column_columns. right. apply set_column_columns. now left. }
  revert H. unfold merge_warning_count_to_withdraw_records.
  destruct (victim_id_col warning_df) as [vi|] eqn:Evi,
           (victim_phone_col warning_df) as [vp|] eqn:Evp,
           (withdraw_id_col withdraw_df) as [wi|] eqn:Ewi,
           (withdraw_phone_col withdraw_df) as [wp|] eqn:Ewp;
    try discriminate;
    (destruct (run_id_stage rt warning_df withdraw_df _) as [m|] eqn:Em;
     cbn [bind]; [|discriminate];
     intros E; injection E as <-;
     apply drop_temporary_keeps_count;
     unfold run_phone_stage; rewrite ?Evp, ?Ewp;
     rewrite ?phone_stage_columns; now apply Hid).
Qed.

Lemma suffixed_is_not_count (c : ustring) :
  c ++ u "_x" <> COUNT /\ c ++ u "_y" <> COUNT.
Proof.
  split; intros H; apply (f_equal (fun s => last s 0%N)) in H;
    change (u "_x") with ([95] ++ [120])%N in H;
    change (u "_y") with ([95] ++ [121])%N in H;
    rewrite app_assoc, last_last in H; vm_compute in H; discriminate.
Qed.

(** After a left merge with the frame of counts, no column is labelled
    with the plain count label when the left frame already has it. *)
Lemma merged_columns_lack_count (lcols : list ustring) :
  In COUNT lcols ->
  let rcols := [ID; COUNT; TYPES] in
  let overlap := filter (fun c => mem c rcols) lcols in
  mem COUNT (map (suffixed overlap (u "_x")) lcols
             ++ map (suffixed overlap (u "_y")) rcols) = false.
Proof.
  intros Hin rcols overlap. apply mem_false_not_In. intros H.
  assert (Hov : mem COUNT overlap = true).
  { apply ustring_mem_In. apply filter_In. split; [assumption|reflexivity]. }
  assert (Hno : forall sfx c, (c ++ sfx <> COUNT) ->
                  suffixed overlap sfx c = COUNT -> False).
  { intros sfx c Hs. unfold suffixed.
    destruct (mem c overlap) eqn:E; [assumption|].
    intros ->. congruence. }
  apply in_app_or in H as [H|H]; apply in_map_iff in H as (c & Hc & _).
  - apply (Hno _ c (proj1 (suffixed_is_not_count c)) Hc).
  - apply (Hno _ c (proj2 (suffixed_is_not_count c)) Hc).
Qed.

Lemma id_stage_over_enriched (rt : Runtime)
    (warning_df withdraw_df merged_df : dataframe) (v c : ustring)
    (ft_col : option ustring) :
  has_column withdraw_df COUNT = true ->
  id_stage rt warning_df withdraw_df merged_df v c ft_col = Raise KeyError.
Proof.
  intros Hc. apply has_column_In in Hc.
  unfold id_stage, merge_left.
  destruct (negb _ || negb (has_column (info_frame _) ID)) eqn:E;
    [reflexivity|].
  apply orb_false_iff in E as [_ E]. apply negb_false_iff in E.
  destruct (collect_warning_info rt _ v ft_col (rows warning_df))
    as [|e d] eqn:Ed; [discriminate E|].
  cbn [bind info_frame columns]. unfold get_column, has_column at 1.
  cbn [columns].
  rewrite merged_columns_lack_count; [reflexivity|].
  apply set_column_columns. now right.
Qed.

(** C7, as the code has it. Once the withdrawal table carries the count
    column that a run of the join adds, a further run in which both
    identity columns resolve raises [KeyError]: the merge with the frame
    of counts suffixes the two count columns, and the lookup of the plain
    label fails. In particular a second run over the output of a first
    run does not return the counts again. *)
Theorem second_enrichment_raises
    (rt : Runtime) (warning_df withdraw_df enriched : dataframe)
    (v c : ustring) :
  merge_warning_count_to_withdraw_records rt warning_df withdraw_df
  = Ok enriched ->
  victim_id_col warning_df = Some v ->
  withdraw_id_col enriched = Some c ->
  merge_warning_count_to_withdraw_records rt warning_df enriched
  = Raise KeyError.
Proof.
  intros Hfirst Hv Hc. apply merge_output_has_count in Hfirst.
  unfold merge_warning_count_to_withdraw_records, run_id_stage.
  rewrite Hv, Hc. rewrite id_stage_over_enriched by assumption.
  reflexivity.
Qed.

(** On the sample tables the first run counts 1, 2 and 0 warnings, and
    the run over its output raises. *)
Lemma second_enrichment_witness :
  merge_warning_count_to_withdraw_records RefRuntime.runtime
    Samples.warnings Samples.withdrawals = Ok Samples.enriched
  /\ get_column Samples.enriched COUNT = Ok [CInt 1; CInt 2; CInt 0]
  /\ merge_warning_count_to_withdraw_records RefRuntime.runtime
       Samples.warnings Samples.enriched = Raise KeyError.
Proof.
  assert (H : merge_warning_count_to_withdraw_records RefRuntime.runtime
                Samples.warnings Samples.withdrawals = Ok Samples.enriched).
  { unfold Samples.enriched.
    destruct (merge_warning_count_to_withdraw_records RefRuntime.runtime
                Samples.warnings Samples.withdrawals) eqn:E;
      [reflexivity | vm_compute in E; discriminate]. }
  split; [exact H|]. split; [reflexivity|].
  apply (second_enrichment_raises RefRuntime.runtime Samples.warnings
           Samples.withdrawals Samples.enriched
           (u "受害人身份证号") (u "身份证号") H);
    reflexivity.
Defined.

(* ================================================================== *)
(** ** Scores: ranges, steps and ranking *)

Lemma amount_steps_range (r : pyfloat) :
  5 <= amount_steps r <= 40.
Proof.
  unfold amount_steps.
  repeat match goal with
         | |- context [Float.leb ?x ?y] => destruct (Float.leb x y)
         end; lia.
Qed.

Lemma time_steps_range (h : Q) : 5 <= time_steps h <= 40.
Proof. unfold time_steps. q_cases; lia. Qed.


Lemma stepped_amount_antitone (x y : Q) :
  (x <= y)%Q ->
  Spec.stepped amount_table 5 y <= Spec.stepped amount_table 5 x.
Proof.
  intros H. unfold amount_table. cbn [Spec.stepped].
  q_cases; try lia; exfalso; lra.
Qed.

Lemma stepped_amount_compat (x y : Q) :
  (x == y)%Q ->
  Spec.stepped amount_table 5 x = Spec.stepped amount_table 5 y.
Proof.
  intros H. apply Z.le_antisymm; apply stepped_amount_antitone; lra.
Qed.

(** The amount part of the base score for a positive finite amount. *)
Lemma base_score_amount_positive (p : person) (t : Z) (c : Q)
    (loc : ustring) (a : Q) :
  amount p = Finite a -> (0 < a)%Q ->
  exists b,
    calculate_base_score p t c loc = Ok b
    /\ amount_score b
       = Spec.stepped amount_table 5 (relative_difference c a).
Proof.
  intros Ha Hpos. unfold calculate_base_score. rewrite Ha.
  assert (E : Float.ltb (Finite 0) (Finite a) = true)
    by (now apply Qlt_bool_iff).
  rewrite E. unfold Float.div, Float.max, Float.sub, Float.abs, Float.ltb.
  unfold relative_difference.
  destruct (Qlt_bool c a) eqn:Ec; cbn [Float.is_zero].
  - destruct (Qeq_bool a 0) eqn:Z0;
      [apply Qeq_bool_iff in Z0; exfalso; lra|].
    cbn [bind]. eexists. split; [reflexivity|]. reflexivity.
  - apply Qlt_bool_false in Ec.
    destruct (Qeq_bool c 0) eqn:Z0;
      [apply Qeq_bool_iff in Z0; exfalso; lra|].
    cbn [bind]. eexists. split; [reflexivity|]. reflexivity.
Qed.



Lemma relative_difference_sym (c a : Q) :
  (0 < a)%Q -> (0 < c)%Q ->
  (relative_difference c a == relative_difference a c)%Q.
Proof.
  intros Ha Hc. unfold relative_difference.
  assert (Hs : (Qabs (c - a) == Qabs (a - c))%Q).
  { rewrite <- (Qabs_opp (a - c)). apply Qabs_wd. ring. }
  destruct (Qlt_bool c a) eqn:E1, (Qlt_bool a c) eqn:E2;
    try apply Qlt_bool_iff in E1; try apply Qlt_bool_iff in E2;
    try apply Qlt_bool_false in E1; try apply Qlt_bool_false in E2.
  - exfalso. lra.
  - rewrite Hs. reflexivity.
  - rewrite Hs. reflexivity.
  - assert (Heq : (c == a)%Q) by lra. rewrite Hs, Heq. reflexivity.
Qed.





(** The amount score is the same whichever of two positive amounts is
    the clue and whichever the record. *)
Theorem amount_score_symmetric
    (p : person) (t : Z) (c : Q) (loc : ustring) (a : Q) :
  amount p = Finite a -> (0 < a)%Q -> (0 < c)%Q ->
  exists b b',
    calculate_base_score p t c loc = Ok b
    /\ calculate_base_score (with_amount p (Finite c)) t a loc = Ok b'
    /\ amount_score b = amount_score b'.
Proof.
  intros Ha Hpos Hc.
  destruct (base_score_amount_positive p t c loc a Ha Hpos) as (b & Hb & Hs).
  destruct (base_score_amount_positive (with_amount p (Finite c)) t a loc c
              eq_refl Hc) as (b' & Hb' & Hs').
  exists b, b'. split; [exact Hb|]. split; [exact Hb'|].
  rewrite Hs, Hs'. apply stepped_amount_compat.
  now apply relative_difference_sym.
Qed.

(** A record of 50000 against a clue of 40000, and the other way round. *)
Lemma amount_score_symmetric_witness :
  exists b b',
    calculate_base_score Samples.person0 0 40000 [] = Ok b
    /\ calculate_base_score (with_amount Samples.person0 (Finite 40000)) 0
         50000 [] = Ok b'
    /\ amount_score b = amount_score b'.
Proof.
  apply (amount_score_symmetric Samples.person0 0 40000 [] 50000);
    reflexivity.
Defined.

Lemma base_score_parts_bounded (p : person) (t : Z) (c : Q) (loc : ustring) :
  exists b,
    calculate_base_score p t c loc = Ok b
    /\ 0 <= time_score b <= 40
    /\ 0 <= amount_score b <= 40
    /\ (location_score b = 0 \/ location_score b = 40)
    /\ total_base_score b = time_score b + amount_score b + location_score b
    /\ 0 <= total_base_score b <= 120
    /\ (strip loc = [] -> location_score b = 40).
Proof.
  unfold calculate_base_score.
  assert (Ht : 0 <= match withdraw_time p with
                    | Some w => time_steps (time_diff_hours t w)
                    | None => 0
                    end <= 40).
  { destruct (withdraw_time p) as [w|]; [|lia].
    pose proof (time_steps_range (time_diff_hours t w)). lia. }
  destruct (Float.ltb (Finite 0) (amount p)) eqn:E.
  - destruct (ratio_defined c (amount p) E) as [r Hr]. rewrite Hr.
    cbn [bind]. pose proof (amount_steps_range r) as Ha.
    eexists. split; [reflexivity|].
    cbn [time_score amount_score location_score total_base_score].
    destruct (strip loc) as [|ch s];
      [|destruct (existsb _ _)]; repeat split; try lia; auto;
      try discriminate.
  - cbn [bind]. eexists. split; [reflexivity|].
    cbn [time_score amount_score location_score total_base_score].
    destruct (strip loc) as [|ch s];
      [|destruct (existsb _ _)]; repeat split; try lia; auto;
      try discriminate.
Qed.

(** Each part of the base score lies between 0 and 40 and the location
    part is all or nothing; the total is their sum, at most 120; a clue
    with no location text gives every record the full location part. *)
Theorem base_score_bounds (p : person) (t : Z) (c : Q) (loc : ustring) :
  exists b,
    calculate_base_score p t c loc = Ok b
    /\ 0 <= time_score b <= 40
    /\ 0 <= amount_score b <= 40
    /\ (location_score b = 0 \/ location_score b = 40)
    /\ total_base_score b = time_score b + amount_score b + location_score b
    /\ 0 <= total_base_score b <= 120
    /\ (strip loc = [] -> location_score b = 40).
Proof. exact (base_score_parts_bounded p t c loc). Qed.

Lemma lstrip_length (s : ustring) :
  (List.length (lstrip s) <= List.length s)%nat.
Proof.
  induction s as [|c s IH]; simpl; [lia|].
  destruct (isspace c); simpl; lia.
Qed.

Lemma lstrip_app (s r : ustring) :
  s <> [] -> lstrip s = s -> lstrip (s ++ r) = s ++ r.
Proof.
  destruct s as [|c s]; [congruence|]. intros _. simpl.
  destruct (isspace c); [|reflexivity].
  intros H. pose proof (lstrip_length s) as Hl. rewrite H in Hl.
  simpl in Hl. lia.
Qed.

Lemma rstrip_app (s r : ustring) :
  s <> [] -> rstrip s = s -> rstrip (r ++ s) = r ++ s.
Proof.
  unfold rstrip. intros Hne H.
  assert (H' : lstrip (rev s) = rev s).
  { rewrite <- H at 2. now rewrite rev_involutive. }
  rewrite rev_app_distr, lstrip_app, <- rev_app_distr, rev_involutive;
    try assumption; [reflexivity|].
  intros E. apply (f_equal (@rev uchar)) in E.
  rewrite rev_involutive in E. contradiction.
Qed.

Lemma strip_two_districts (A B : ustring) :
  district_name A -> district_name B ->
  strip (A ++ district_separator :: B) = A ++ district_separator :: B.
Proof.
  intros (HA & HlA & _ & _) (HB & _ & HrB & _). unfold strip.
  rewrite lstrip_app by assumption.
  change (A ++ district_separator :: B)
    with (A ++ [district_separator] ++ B).
  rewrite app_assoc. now apply rstrip_app.
Qed.

Lemma strip_district (A : ustring) : district_name A -> strip A = A.
Proof. intros (_ & Hl & Hr & _). unfold strip. now rewrite Hl. Qed.

Lemma split_not_nil (sep : uchar) (s : ustring) : split sep s <> [].
Proof.
  induction s as [|c s IH]; simpl; [discriminate|].
  destruct (split sep s); [contradiction|].
  destruct (c =? sep)%N; discriminate.
Qed.

Lemma split_without_separator (sep : uchar) (s : ustring) :
  ~ In sep s -> split sep s = [s].
Proof.
  induction s as [|c s IH]; intros H; simpl; [reflexivity|].
  rewrite IH by (intros Hin; apply H; now right).
  destruct (c =? sep)%N eqn:E; [|reflexivity].
  apply N.eqb_eq in E. exfalso. apply H. now left.
Qed.

Lemma split_at_separator (sep : uchar) (A B : ustring) :
  ~ In sep A -> split sep (A ++ sep :: B) = A :: split sep B.
Proof.
  induction A as [|c A IH]; intros H; simpl.
  - rewrite N.eqb_refl. destruct (split sep B) eqn:E; [|reflexivity].
    now apply split_not_nil in E.
  - rewrite IH by (intros Hin; apply H; now right).
    destruct (c =? sep)%N eqn:E; [|reflexivity].
    apply N.eqb_eq in E. exfalso. apply H. now left.
Qed.

Lemma location_score_two_districts
    (p : person) (t : Z) (c : Q) (A B : ustring) :
  district_name A -> district_name B ->
  exists b,
    calculate_base_score p t c (A ++ district_separator :: B) = Ok b
    /\ location_score b
       = if contains A (location p) || contains B (location p)
         then 40 else 0.
Proof.
  intros HA HB. unfold calculate_base_score.
  rewrite (strip_two_districts A B HA HB).
  assert (Hs : split 12289%N (A ++ district_separator :: B) = [A; B]).
  { destruct HA as (_ & _ & _ & HnA), HB as (_ & _ & _ & HnB).
    change 12289%N with district_separator.
    rewrite split_at_separator, split_without_separator by assumption.
    reflexivity. }
  remember (A ++ district_separator :: B) as X eqn:EX.
  destruct X as [|x X'].
  { destruct HA as (HA & _). destruct A; [congruence | discriminate EX]. }
  assert (Hloc :
    (if existsb (fun keyword =>
                   match strip keyword with
                   | [] => false
                   | ch :: kw => contains (ch :: kw) (location p)
                   end)
                (split 12289%N (x :: X'))
     then 40 else 0)
    = if contains A (location p) || contains B (location p) then 40 else 0).
  { rewrite Hs. cbn [existsb].
    rewrite (strip_district A HA), (strip_district B HB).
    destruct HA as (HA & _), HB as (HB & _).
    destruct A as [|a A]; [congruence|]. destruct B as [|b B]; [congruence|].
    rewrite orb_false_r. reflexivity. }
  destruct (Float.ltb (Finite 0) (amount p)) eqn:E.
  - destruct (ratio_defined c (amount p) E) as [r Hr]. rewrite Hr.
    cbn [bind]. eexists. split; [reflexivity|].
    cbn [location_score]. exact Hloc.
  - cbn [bind]. eexists. split; [reflexivity|].
    cbn [location_score]. exact Hloc.
Qed.

(** A clue naming two districts gives the full location part to a record
    whose location contains either name and nothing to any other record,
    in whichever order the two are named. *)
Theorem location_score_either_district
    (p : person) (t : Z) (c : Q) (A B : ustring) :
  district_name A -> district_name B ->
  exists b b',
    calculate_base_score p t c (A ++ district_separator :: B) = Ok b
    /\ calculate_base_score p t c (B ++ district_separator :: A) = Ok b'
    /\ (location_score b = 40
        <-> contains A (location p) = true
            \/ contains B (location p) = true)
    /\ (location_score b = 0
        <-> contains A (location p) = false
            /\ contains B (location p) = false)
    /\ location_score b' = location_score b.
Proof.
  intros HA HB.
  destruct (location_score_two_districts p t c A B HA HB) as (b & Hb & Hs).
  destruct (location_score_two_districts p t c B A HB HA) as (b' & Hb' & Hs').
  exists b, b'. split; [exact Hb|]. split; [exact Hb'|].
  rewrite Hs', Hs, (orb_comm (contains B _)).
  destruct (contains A (location p)), (contains B (location p));
    cbn [orb]; repeat split; intros; try lia; auto;
    try discriminate; intuition discriminate.
Qed.

(** A record withdrawn in 定海 against the clue location 普陀、定海. *)
Lemma location_score_either_district_witness :
  exists b,
    calculate_base_score Samples.person0 0 50000
      (u "普陀" ++ district_separator :: u "定海") = Ok b
    /\ location_score b = 40.
Proof.
  assert (HA : district_name (u "普陀")).
  { repeat split; try discriminate.
    vm_compute. intros [H|[H|[]]]; discriminate H. }
  assert (HB : district_name (u "定海")).
  { repeat split; try discriminate.
    vm_compute. intros [H|[H|[]]]; discriminate H. }
  destruct (location_score_either_district Samples.person0 0 50000
              (u "普陀") (u "定海") HA HB) as (b & _ & Hb & _ & H40 & _).
  exists b. split; [exact Hb|]. apply H40. right. reflexivity.
Defined.

Lemma additional_score_parts_bounded (p : person) (c : Q) :
  exists s,
    calculate_additional_score p c = Ok s
    /\ 0 <= gender_score s <= 15
    /\ 0 <= app_score s <= 35
    /\ 0 <= history_warning_score s <= 15
    /\ gender_score s + app_score s + history_warning_score s <= 60
    /\ frequency_score s = 5 * Z.max 0 (transaction_count p - 1)
    /\ total_additional_score s
       = gender_score s + app_score s + history_warning_score s
         + frequency_score s
    /\ 0 <= total_additional_score s.
Proof.
  pose proof (additional_score_value p c) as H. cbv zeta in H.
  eexists. split; [exact H|].
  cbn [gender_score app_score history_warning_score frequency_score
       total_additional_score].
  assert (Hf : (if 2 <=? transaction_count p
                then (transaction_count p - 1) * 5 else 0)
               = 5 * Z.max 0 (transaction_count p - 1)).
  { destruct (2 <=? transaction_count p) eqn:E;
      [apply Z.leb_le in E | apply Z.leb_gt in E]; lia. }
  rewrite Hf.
  destruct (get_amount_category c), (gender p), (has_adult_app p),
    (has_special_comm p), (has_investment_app p), (has_history_warning p);
    cbn [Spec.award Spec.bucket_weights Spec.w_male Spec.w_female
         Spec.w_adult_app Spec.w_special_comm Spec.w_investment_app
         Spec.w_history_warning];
    repeat split; lia.
Qed.

(** The parts of the additional score stay within the weights of the
    tables: gender at most 15, apps at most 35, history at most 15 and
    the three together at most 60; the frequency part is 5 for each
    transaction beyond the first and 0 for a count of 1 or less, so no
    part is ever negative. *)
Theorem additional_score_bounds (p : person) (c : Q) :
  exists s,
    calculate_additional_score p c = Ok s
    /\ 0 <= gender_score s <= 15
    /\ 0 <= app_score s <= 35
    /\ 0 <= history_warning_score s <= 15
    /\ gender_score s + app_score s + history_warning_score s <= 60
    /\ frequency_score s = 5 * Z.max 0 (transaction_count p - 1)
    /\ total_additional_score s
       = gender_score s + app_score s + history_warning_score s
         + frequency_score s
    /\ 0 <= total_additional_score s.
Proof. exact (additional_score_parts_bounded p c). Qed.

Lemma score_person_new_value (p : person) (t : Z) (c : Q) (loc : ustring) :
  exists b ad,
    calculate_base_score p t c loc = Ok b
    /\ calculate_additional_score p c = Ok ad
    /\ score_person_new p t c loc
       = {| sp_name := name p;
            sp_person := Some p;
            score := total_base_score b + total_additional_score ad;
            match_level :=
              match_level_of (total_base_score b + total_additional_score ad);
            sp_amount_category := Some (get_amount_category c);
            score_details := Some (b, ad);
            error := None |}.
Proof.
  destruct (base_score_value p t c loc) as (am & ls & Hb & _).
  pose proof (additional_score_value p c) as Ha. cbv zeta in Ha.
  unfold score_person_new. rewrite Hb, Ha. cbn [bind].
  eexists _, _. repeat split.
Qed.

Lemma match_level_of_thresholds (s : Z) :
  (match_level_of s = u "非常高" <-> 100 <= s)
  /\ (match_level_of s = u "高" <-> 80 <= s < 100)
  /\ (match_level_of s = u "中" <-> 60 <= s < 80)
  /\ (match_level_of s = u "低" <-> 40 <= s < 60)
  /\ (match_level_of s = u "很低" <-> s < 40).
Proof.
  unfold match_level_of.
  destruct (100 <=? s) eqn:E1; [apply Z.leb_le in E1 | apply Z.leb_gt in E1];
  [|destruct (80 <=? s) eqn:E2;
    [apply Z.leb_le in E2 | apply Z.leb_gt in E2];
   [|destruct (60 <=? s) eqn:E3;
     [apply Z.leb_le in E3 | apply Z.leb_gt in E3];
    [|destruct (40 <=? s) eqn:E4;
      [apply Z.leb_le in E4 | apply Z.leb_gt in E4]]]];
    repeat split; intros; try lia; try reflexivity;
    try match goal with
        | H : _ = _ |- _ => vm_compute in H; discriminate H
        end.
Qed.

(** The score of a record is the sum of its seven parts, it is never
    negative, scoring raises nothing, and the match level is read off the
    score at 100, 80, 60 and 40. *)
Theorem score_is_sum_and_level_by_threshold
    (p : person) (t : Z) (c : Q) (loc : ustring) :
  let r := score_person_new p t c loc in
  error r = None
  /\ 0 <= score r
  /\ (exists b ad,
        score_details r = Some (b, ad)
        /\ score r
           = time_score b + amount_score b + location_score b
             + gender_score ad + app_score ad + history_warning_score ad
             + frequency_score ad)
  /\ (match_level r = u "非常高" <-> 100 <= score r)
  /\ (match_level r = u "高" <-> 80 <= score r < 100)
  /\ (match_level r = u "中" <-> 60 <= score r < 80)
  /\ (match_level r = u "低" <-> 40 <= score r < 60)
  /\ (match_level r = u "很低" <-> score r < 40).
Proof.
  cbv zeta.
  destruct (score_person_new_value p t c loc) as (b & ad & Hb & Ha & Hr).
  destruct (base_score_parts_bounded p t c loc)
    as (b0 & Hb0 & Ht & Ham & Hl & Hsum & Htot & _).
  destruct (additional_score_parts_bounded p c)
    as (a0 & Ha0 & _ & _ & _ & _ & _ & Hasum & Hapos).
  rewrite Hb in Hb0. injection Hb0 as <-.
  rewrite Ha in Ha0. injection Ha0 as <-.
  rewrite Hr. cbn [error score score_details match_level].
  split; [reflexivity|]. split; [lia|].
  split; [exists b, ad; split; [reflexivity | lia]|].
  apply match_level_of_thresholds.
Qed.

Lemma sorted_app_cross (l1 l2 : list scored_person) :
  StronglySorted by_score_desc (l1 ++ l2) ->
  forall x y, In x l1 -> In y l2 -> score y <= score x.
Proof.
  induction l1 as [|a l1 IH]; intros Hs x y Hx Hy; [contradiction|].
  simpl in Hs. inversion Hs as [|? ? Hs' Hall]; subst.
  destruct Hx as [<-|Hx].
  - rewrite Forall_forall in Hall. apply Hall, in_or_app. now right.
  - now apply (IH Hs' x y).
Qed.

Lemma sorted_prefix (l1 l2 : list scored_person) :
  StronglySorted by_score_desc (l1 ++ l2) -> StronglySorted by_score_desc l1.
Proof.
  induction l1 as [|a l1 IH]; intros Hs; [constructor|].
  simpl in Hs. inversion Hs as [|? ? Hs' Hall]; subst.
  constructor; [now apply IH|].
  rewrite Forall_forall in *. intros z Hz. apply Hall, in_or_app. now left.
Qed.

(** With no records, [perform_analysis] returns its error dictionary (the
    batch scorer alone would return an empty ranking) and there are no
    top matches. With records, the analysis counts them all, and the top
    [n] matches for [n >= 0] are the first [min n (number of records)] of
    the ranking: sorted, and none scores less than a record left out. *)
Theorem top_matches_are_the_best
    (rt : Runtime) (basename : ustring -> ustring) (now : ustring)
    (t : Z) (c : Q) (loc : ustring) (file_path : option ustring)
    (data : list person) (n : Z) :
  let outcome :=
    perform_analysis rt basename now t c loc file_path (Some data) in
  let ranked := sort_desc (map (fun p => score_person_new p t c loc) data) in
  let tops := get_top_matches outcome n in
  (data = [] ->
   (exists e clue, outcome = AnalysisFailed e clue) /\ tops = []
   /\ get_top_matches
        (perform_analysis rt basename now t c loc file_path None) n = [])
  /\ (data <> [] ->
      (exists a,
         outcome = Analysed a
         /\ scored_persons (analysis_result a) = ranked
         /\ total_persons (analysis_result a) = List.length data
         /\ statistics_total_analyzed a = List.length data
         /\ ds_data_count (data_source a) = List.length data)
      /\ (0 <= n ->
          List.length tops = Nat.min (Z.to_nat n) (List.length data)
          /\ StronglySorted (fun x y => score y <= score x) tops
          /\ exists rest,
               ranked = tops ++ rest
               /\ forall x y, In x tops -> In y rest -> score y <= score x)).
Proof.
  cbv zeta. split.
  - intros ->. cbn. split; [eauto|]. split; reflexivity.
  - intros Hne. destruct data as [|p ps]; [congruence|].
    set (ranked := sort_desc (map (fun p => score_person_new p t c loc)
                                  (p :: ps))).
    assert (Hlen : List.length ranked = List.length (p :: ps)).
    { unfold ranked. rewrite <- (Permutation_length (sort_desc_perm _)).
      apply length_map. }
    split.
    + eexists. split; [reflexivity|].
      cbn [analysis_result scored_persons total_persons score_persons
           statistics_total_analyzed data_source ds_data_count].
      fold ranked. rewrite Hlen. repeat split.
    + intros Hn. cbn [perform_analysis get_top_matches].
      cbn [score_persons scored_persons]. fold ranked.
      unfold slice_to. assert (E : (0 <=? n) = true) by (apply Z.leb_le; lia).
      rewrite E. rewrite length_firstn, Hlen.
      pose proof (sort_desc_sorted
                    (map (fun p => score_person_new p t c loc) (p :: ps)))
        as Hs. fold ranked in Hs.
      rewrite <- (firstn_skipn (Z.to_nat n) ranked) in Hs.
      split; [reflexivity|]. split; [exact (sorted_prefix _ _ Hs)|].
      exists (skipn (Z.to_nat n) ranked).
      split; [symmetry; apply firstn_skipn|].
      exact (sorted_app_cross _ _ Hs).
Qed.

(** The best one of a batch of two. *)
Lemma top_matches_witness :
  List.length
    (get_top_matches
       (perform_analysis RefRuntime.runtime (fun s => s) [] 0 50000 []
          None (Some Uploads.batch)) 1) = 1%nat.
Proof.
  destruct (top_matches_are_the_best RefRuntime.runtime (fun s => s) [] 0
              50000 [] None Uploads.batch 1) as [_ H].
  destruct H as [_ H]; [discriminate|].
  destruct H as [H _]; [lia|]. exact H.
Defined.

Lemma filter_head_split {A : Type} (f : A -> bool) (l : list A) (x : A)
    (r : list A) :
  filter f l = x :: r ->
  exists pre post,
    l = pre ++ x :: post /\ Forall (fun y => f y = false) pre.
Proof.
  induction l as [|a l IH]; simpl; [discriminate|].
  destruct (f a) eqn:E.
  - intros H. injection H as -> _. exists [], l. split; [reflexivity|constructor].
  - intros H. destruct (IH H) as (pre & post & -> & Hpre).
    exists (a :: pre), post. split; [reflexivity|]. now constructor.
Qed.

(** For a non-empty batch the result counts every record, and its top
    match is the input record of highest score: no ranked record scores
    more, and every record that comes before it in the input scores
    strictly less. *)
Theorem top_match_is_first_of_the_best
    (rt : Runtime) (persons : list person) (t : Z) (c : Q)
    (loc : ustring) :
  persons <> [] ->
  let r := score_persons rt persons t c loc in
  total_persons r = List.length persons
  /\ exists pre p post,
       persons = pre ++ p :: post
       /\ top_match r = Some (score_person_new p t c loc)
       /\ (forall x, In x (scored_persons r) ->
             score x <= score (score_person_new p t c loc))
       /\ (forall q, In q pre ->
             score (score_person_new q t c loc)
             < score (score_person_new p t c loc)).
Proof.
  intros Hne. cbv zeta.
  destruct persons as [|p0 ps]; [congruence|].
  cbn [score_persons total_persons top_match scored_persons].
  set (g := fun person : person => score_person_new person t c loc).
  set (scored := map g (p0 :: ps)).
  pose proof (sort_desc_perm scored) as Hperm.
  pose proof (sort_desc_sorted scored) as Hsort.
  split.
  { rewrite <- (Permutation_length Hperm). apply length_map. }
  destruct (sort_desc scored) as [|top rest] eqn:Er.
  { apply Permutation_length in Hperm. discriminate Hperm. }
  pose proof (sort_desc_stable (score top) scored) as Hstab.
  rewrite Er in Hstab. cbn [filter] in Hstab.
  rewrite Z.eqb_refl in Hstab. symmetry in Hstab.
  apply filter_head_split in Hstab as (pre' & post' & Hsplit & Hpre').
  unfold scored in Hsplit.
  apply map_eq_app in Hsplit as (pre & tl & Hp & Hmpre & Hmtl).
  apply map_eq_cons in Hmtl as (p & post & -> & Hgp & _).
  exists pre, p, post. split; [exact Hp|].
  change (score_person_new p t c loc) with (g p).
  rewrite Hgp. split; [reflexivity|].
  apply StronglySorted_inv in Hsort as [_ Hall].
  assert (Hmax : forall x, In x (top :: rest) -> score x <= score top).
  { intros x [<-|Hx]; [lia|]. rewrite Forall_forall in Hall.
    now apply Hall. }
  split; [exact Hmax|].
  intros q Hq. change (score_person_new q t c loc) with (g q).
  assert (Hin : In (g q) (top :: rest)).
  { apply (Permutation_in _ Hperm). unfold scored. rewrite Hp.
    rewrite map_app. apply in_or_app. left. now apply in_map. }
  apply Hmax in Hin.
  assert (Hneq : (score (g q) =? score top) = false).
  { rewrite Forall_forall in Hpre'. apply Hpre'.
    rewrite <- Hmpre. now apply in_map. }
  apply Z.eqb_neq in Hneq. lia.
Qed.

(** The refund comes first in the batch and the withdrawal is the top
    match. *)
Lemma top_match_witness :
  top_match (score_persons RefRuntime.runtime Uploads.batch 0 50000 [])
  = Some (score_person_new Samples.person0 0 50000 [])
  /\ total_persons (score_persons RefRuntime.runtime Uploads.batch 0 50000 [])
     = 2%nat.
Proof.
  assert (Hne : Uploads.batch <> []) by discriminate.
  destruct (top_match_is_first_of_the_best RefRuntime.runtime Uploads.batch
              0 50000 [] Hne) as [Ht _].
  split; [reflexivity | exact Ht].
Defined.

(* ================================================================== *)
(** ** The normaliser *)

Lemma find_first {A : Type} (f : A -> bool) (l : list A) (x : A) :
  find f l = Some x ->
  f x = true
  /\ exists pre post,
       l = pre ++ x :: post /\ forall y, In y pre -> f y = false.
Proof.
  induction l as [|a l IH]; simpl; [discriminate|].
  destruct (f a) eqn:E.
  - intros H. injection H as <-. split; [exact E|].
    exists [], l. split; [reflexivity | intros y []].
  - intros H. destruct (IH H) as (Hx & pre & post & -> & Hpre).
    split; [exact Hx|]. exists (a :: pre), post. split; [reflexivity|].
    intros y [<-|Hy]; [exact E | now apply Hpre].
Qed.

Lemma find_column_by_keywords_spec
    (cols keywords : list ustring) :
  match find_column_by_keywords cols keywords with
  | Some col =>
    exists kpre keyword kpost cpre cpost,
      keywords = kpre ++ keyword :: kpost
      /\ cols = cpre ++ col :: cpost
      /\ contains keyword col = true
      /\ (forall c, In c cpre -> contains keyword c = false)
      /\ (forall k c, In k kpre -> In c cols -> contains k c = false)
  | None =>
    forall k c, In k keywords -> In c cols -> contains k c = false
  end.
Proof.
  induction keywords as [|k ks IH]; cbn [find_column_by_keywords].
  - intros k c [].
  - destruct (find (contains k) cols) as [col|] eqn:E.
    + apply find_first in E as (Hc & cpre & cpost & Hcols & Hpre).
      exists [], k, ks, cpre, cpost. repeat split; try assumption.
      intros k' c [].
    + pose proof (find_none _ _ E) as Hnone.
      destruct (find_column_by_keywords cols ks) as [col|].
      * destruct IH as (kpre & kw & kpost & cpre & cpost
                        & -> & Hcols & Hc & Hpre & Hk).
        exists (k :: kpre), kw, kpost, cpre, cpost.
        repeat split; try assumption.
        intros k' c [<-|Hin] Hcin; [now apply Hnone | now apply Hk].
      * intros k' c [<-|Hin] Hcin; [now apply Hnone | now apply IH].
Qed.

(** The column resolver returns the first column, in header order, that
    contains the earliest keyword, in keyword order, that any column
    contains; it returns nothing exactly when no column contains any
    keyword. *)
Theorem find_column_by_keywords_first_match
    (cols keywords : list ustring) :
  match find_column_by_keywords cols keywords with
  | Some col =>
    exists kpre keyword kpost cpre cpost,
      keywords = kpre ++ keyword :: kpost
      /\ cols = cpre ++ col :: cpost
      /\ contains keyword col = true
      /\ (forall c, In c cpre -> contains keyword c = false)
      /\ (forall k c, In k kpre -> In c cols -> contains k c = false)
  | None =>
    forall k c, In k keywords -> In c cols -> contains k c = false
  end.
Proof. exact (find_column_by_keywords_spec cols keywords). Qed.

Lemma extract_location_spec (text : ustring) :
  In (extract_location text) districts
  /\ (extract_location text = u "定海" <-> contains (u "定海") text = true)
  /\ (extract_location text = u "普陀"
      <-> contains (u "定海") text = false
          /\ contains (u "普陀") text = true)
  /\ (extract_location text = u "岱山"
      <-> contains (u "定海") text = false
          /\ contains (u "普陀") text = false
          /\ contains (u "岱山") text = true)
  /\ (extract_location text = u "嵊泗"
      <-> contains (u "定海") text = false
          /\ contains (u "普陀") text = false
          /\ contains (u "岱山") text = false
          /\ contains (u "嵊泗") text = true)
  /\ (text = [] -> extract_location text = u "其他").
Proof.
  assert (H : extract_location text
              = if contains (u "定海") text then u "定海"
                else if contains (u "普陀") text then u "普陀"
                else if contains (u "岱山") text then u "岱山"
                else if contains (u "嵊泗") text then u "嵊泗"
                else u "其他").
  { destruct text as [|ch text]; [reflexivity|].
    unfold extract_location, location_keywords.
    cbn [extract_location_from existsb]. rewrite !orb_false_r.
    destruct (contains (u "定海") _); [reflexivity|].
    destruct (contains (u "普陀") _); [reflexivity|].
    destruct (contains (u "岱山") _); [reflexivity|].
    destruct (contains (u "嵊泗") _); [reflexivity|].
    destruct (_ || _); reflexivity. }
  rewrite H.
  split.
  { unfold districts.
    destruct (contains (u "定海") text), (contains (u "普陀") text),
      (contains (u "岱山") text), (contains (u "嵊泗") text);
      cbn [In]; tauto. }
  split; [|split; [|split; [|split]]];
    try (destruct (contains (u "定海") text), (contains (u "普陀") text),
           (contains (u "岱山") text), (contains (u "嵊泗") text);
         split; intros Hx; repeat split; try reflexivity;
         try (vm_compute in Hx; discriminate Hx);
         try (destruct Hx as (? & ?); discriminate);
         try (destruct Hx as (? & ? & ?); discriminate);
         try (destruct Hx as (? & ? & ? & ?); discriminate)).
  intros ->. reflexivity.
Qed.

(** The location classifier always answers with one of the five
    districts: the first of the four named districts whose name the text
    contains, and "其他" for any other text, the empty text included. *)
Theorem extract_location_classifies (text : ustring) :
  In (extract_location text) districts
  /\ (extract_location text = u "定海" <-> contains (u "定海") text = true)
  /\ (extract_location text = u "普陀"
      <-> contains (u "定海") text = false
          /\ contains (u "普陀") text = true)
  /\ (extract_location text = u "岱山"
      <-> contains (u "定海") text = false
          /\ contains (u "普陀") text = false
          /\ contains (u "岱山") text = true)
  /\ (extract_location text = u "嵊泗"
      <-> contains (u "定海") text = false
          /\ contains (u "普陀") text = false
          /\ contains (u "岱山") text = false
          /\ contains (u "嵊泗") text = true)
  /\ (text = [] -> extract_location text = u "其他").
Proof. exact (extract_location_spec text). Qed.

Lemma female_not_male (s : ustring) :
  mem s female_tokens = true -> mem s male_tokens = false.
Proof.
  intros H. apply ustring_mem_In in H. unfold female_tokens in H.
  cbn [In] in H. destruct H as [<-|[<-|[<-|[<-|[]]]]]; reflexivity.
Qed.

(** Gender conversion: a number is female when it is zero and male
    otherwise; a text is female or male when, trimmed, it is one of the
    four tokens of that gender (case matters); everything else, missing
    values included, is unknown. *)
Theorem convert_gender_cases (rt : Runtime) (v : cell) :
  convert_gender rt v
  = match number_is_zero v, text_of rt v with
    | Some true, _ => female
    | Some false, _ => male
    | None, Some s =>
      if mem (strip s) female_tokens then female
      else if mem (strip s) male_tokens then male
      else unknown
    | None, None => unknown
    end
  /\ (forall s, text_of rt v = Some s ->
        (convert_gender rt v = female <-> In (strip s) female_tokens)
        /\ (convert_gender rt v = male <-> In (strip s) male_tokens)).
Proof.
  split.
  - destruct v as [|[|]|z|[q| | |]|s|t]; try reflexivity;
      unfold convert_gender; cbn [isna number_is_zero text_of];
      try (destruct (z =? 0); reflexivity);
      try (destruct (Float.is_zero (Finite q)); reflexivity).
  - intros s Hs.
    assert (E : convert_gender rt v
                = if mem (strip s) female_tokens then female
                  else if mem (strip s) male_tokens then male
                  else unknown).
    { destruct v; try discriminate Hs; injection Hs as <-; reflexivity. }
    rewrite E. rewrite <- !ustring_mem_In.
    destruct (mem (strip s) female_tokens) eqn:Ef.
    + rewrite (female_not_male _ Ef).
      split; split; intros; congruence.
    + destruct (mem (strip s) male_tokens);
        split; split; intros; congruence.
Qed.

(** The text "F" with blanks around it is a female token. *)
Lemma convert_gender_witness :
  convert_gender RefRuntime.runtime (CStr (u " F ")) = female.
Proof.
  destruct (convert_gender_cases RefRuntime.runtime (CStr (u " F ")))
    as [_ H].
  destruct (H (u " F ") eq_refl) as [[_ Hf] _]. apply Hf.
  right. left. reflexivity.
Defined.

Lemma not_sentinel_with_space (a b : ustring) :
  mem (a ++ u " " ++ b) null_sentinels = false.
Proof.
  apply mem_false_not_In. intros H.
  assert (Hin : In 32%N (a ++ u " " ++ b)).
  { apply in_or_app. right. now left. }
  unfold null_sentinels in H. cbn [In] in H.
  destruct H as [H|[H|[H|[H|[H|[]]]]]]; rewrite <- H in Hin;
    vm_compute in Hin; intuition discriminate.
Qed.

Lemma not_sentinel_fallback (s : ustring) :
  mem (u "用户" ++ s) null_sentinels = false.
Proof.
  apply mem_false_not_In. intros H.
  unfold null_sentinels in H. cbn [In] in H.
  destruct H as [H|[H|[H|[H|[H|[]]]]]]; vm_compute in H; discriminate H.
Qed.

Lemma generate_user_name_spec
    (rt : Runtime) (name_value phone_value : option cell)
    (id_number : ustring) :
  match generate_user_name rt name_value phone_value id_number with
  | Ok s => s <> [] /\ mem s null_sentinels = false
  | Raise e =>
    e = OverflowError
    /\ (phone_value = Some (CFloat PInf) \/ phone_value = Some (CFloat NInf))
  end
  /\ generate_user_name rt None None id_number
     = Ok (u "用户" ++ last_n 4 id_number).
Proof.
  split; [|reflexivity].
  unfold generate_user_name.
  set (nm := match name_value with
             | Some v => if negb (isna v) then _ else _
             | None => _
             end).
  destruct nm as [has_name name_str] eqn:En.
  assert (Hname : has_name = true ->
                  name_str <> [] /\ mem name_str null_sentinels = false).
  { subst nm. destruct name_value as [v|];
      [destruct (negb (isna v))|]; injection En as <- <-;
      try discriminate.
    intros H. apply andb_true_iff in H as [H1 H2].
    rewrite negb_true_iff in H1, H2. split; [|exact H2].
    intros E. rewrite E in H1. discriminate H1. }
  assert (Hfinish : forall has_phone phone_str,
            (has_phone = true ->
             phone_str <> [] /\ mem phone_str null_sentinels = false) ->
            match
              (if has_name && has_phone
               then Ok (name_str ++ u " " ++ phone_str)
               else if has_phone then Ok phone_str
               else if has_name then Ok name_str
               else Ok (u "用户" ++ last_n 4 id_number))
            with
            | Ok s => s <> [] /\ mem s null_sentinels = false
            | Raise e => e = OverflowError
                         /\ (phone_value = Some (CFloat PInf)
                             \/ phone_value = Some (CFloat NInf))
            end).
  { intros hp ps Hp. destruct has_name, hp; cbn [andb].
    - split; [|apply not_sentinel_with_space].
      destruct (Hname eq_refl) as [Hn _]. destruct name_str; [congruence|].
      discriminate.
    - now apply Hname.
    - now apply Hp.
    - split; [discriminate | apply not_sentinel_fallback]. }
  destruct phone_value as [v|];
    [|cbn [bind]; apply (Hfinish false []); discriminate].
  destruct (negb (isna v)) eqn:Ev;
    [|cbn [bind]; apply (Hfinish false []); discriminate].
  assert (Hcheck : forall ps,
            (negb (eqb ps []) && negb (mem ps null_sentinels)) = true ->
            ps <> [] /\ mem ps null_sentinels = false).
  { intros ps H. apply andb_true_iff in H as [H1 H2].
    rewrite negb_true_iff in H1, H2. split; [|exact H2].
    intros E. rewrite E in H1. discriminate H1. }
  destruct v as [|b|z|[q| | |]|s|t]; cbn [bind Float.to_int];
    try (apply Hfinish; apply Hcheck);
    try (split; [reflexivity | auto]);
    try discriminate Ev.
Qed.

(** The display name is never empty and never one of the null sentinels
    (empty, nan, NaN, null, NULL); building it fails only on a phone cell
    that holds an infinite float; and with neither a usable name nor a
    usable phone it is "用户" followed by the last four characters of the
    identity number. *)
Theorem generate_user_name_never_blank
    (rt : Runtime) (name_value phone_value : option cell)
    (id_number : ustring) :
  match generate_user_name rt name_value phone_value id_number with
  | Ok s => s <> [] /\ mem s null_sentinels = false
  | Raise e =>
    e = OverflowError
    /\ (phone_value = Some (CFloat PInf) \/ phone_value = Some (CFloat NInf))
  end
  /\ generate_user_name rt None None id_number
     = Ok (u "用户" ++ last_n 4 id_number).
Proof. exact (generate_user_name_spec rt name_value phone_value id_number). Qed.

Lemma build_person_fields (rt : Runtime) (cm : column_map) (row : row_t)
    (id_cell : cell) (p : person) :
  build_person rt cm row id_cell = Ok p ->
  id_number p = py_str rt id_cell
  /\ account p = u "****" ++ last_n 4 (py_str rt id_cell)
  /\ status p = u "成功" /\ card_type p = u "储蓄卡" /\ risk_level p = u "低"
  /\ generate_user_name rt (field_cell cm row "name")
       (field_cell cm row "phone") (py_str rt id_cell) = Ok (name p)
  /\ In (location p) districts
  /\ has_investment_app p = false
  /\ row_amount rt cm row = Ok (amount p)
  /\ row_age rt cm row = Ok (age p)
  /\ row_warning_count rt cm row = Ok (warning_count p)
  /\ (cm "location"%string = None -> location p = u "其他")
  /\ (cm "gender"%string = None -> gender p = unknown)
  /\ (cm "withdraw_date"%string = None -> withdraw_time p = None)
  /\ (cm "has_history_warning"%string = None ->
      cm "has_history_fraud"%string = None ->
      has_history_warning p = false)
  /\ (cm "has_special_comm"%string = None -> has_special_comm p = false)
  /\ (cm "has_adult_app"%string = None -> has_adult_app p = false)
  /\ (cm "fraud_type"%string = None -> fraud_type p = []).
Proof.
  unfold build_person.
  destruct (generate_user_name rt _ _ _) as [nm|]; [|discriminate].
  destruct (row_amount rt cm row); [|discriminate].
  destruct (row_age rt cm row); [|discriminate].
  destruct (row_transaction_count rt cm row); [|discriminate].
  destruct (row_warning_count rt cm row); [|discriminate].
  cbn [bind]. intros H. injection H as <-.
  cbn [id_number account status card_type risk_level name location
       has_investment_app amount age warning_count gender withdraw_time
       has_history_warning has_special_comm has_adult_app fraud_type].
  repeat (split; [reflexivity|]).
  split.
  { destruct (field_cell cm row "location");
      [apply extract_location_spec | unfold districts; cbn; tauto]. }
  repeat (split; [reflexivity|]).
  unfold row_flag, field_cell.
  repeat split; intros; repeat match goal with
                               | H : cm _ = None |- _ => rewrite H; clear H
                               end; reflexivity.
Qed.

Lemma process_row_fields (rt : Runtime) (cm : column_map) (row : row_t)
    (p : person) :
  process_row rt cm row = Some p ->
  exists id_col,
    cm "id_number"%string = Some id_col
    /\ strip (id_number p) <> []
    /\ build_person rt cm row (row id_col) = Ok p.
Proof.
  unfold process_row.
  destruct (cm "id_number"%string) as [id_col|]; [|discriminate].
  destruct (isna (row id_col) || eqb (strip (py_str rt (row id_col))) [])
    eqn:G; [discriminate|].
  destruct (build_person rt cm row (row id_col)) as [q|] eqn:E;
    [|discriminate].
  intros H. injection H as <-. exists id_col.
  split; [reflexivity|]. split; [|exact E].
  pose proof (build_person_fields rt cm row (row id_col) q E) as (Hid & _).
  rewrite Hid.
  apply orb_false_iff in G as [_ G]. intros E0. rewrite E0 in G.
  discriminate G.
Qed.

Lemma process_uploaded_data_fields
    (rt : Runtime) (df : dataframe) :
  let records := process_uploaded_data rt df in
  (List.length records <= List.length (rows df))%nat
  /\ forall p, In p records ->
       (exists row, In row (rows df)
                    /\ process_row rt (build_column_map (columns df)) row
                       = Some p)
       /\ strip (id_number p) <> []
       /\ account p = u "****" ++ last_n 4 (id_number p)
       /\ name p <> [] /\ mem (name p) null_sentinels = false
       /\ In (location p) districts
       /\ status p = u "成功" /\ card_type p = u "储蓄卡"
       /\ risk_level p = u "低"
       /\ has_investment_app p = false.
Proof.
  cbv zeta. unfold process_uploaded_data. split.
  - induction (rows df) as [|row l IH]; cbn [flat_map List.length];
      [lia|].
    rewrite length_app.
    destruct (process_row rt _ row); cbn [List.length]; lia.
  - intros p Hin. apply in_flat_map in Hin as (row & Hrow & Hp).
    destruct (process_row rt (build_column_map (columns df)) row)
      as [q|] eqn:E; [|contradiction].
    destruct Hp as [<-|[]].
    split; [exists row; split; assumption|].
    apply process_row_fields in E as (id_col & _ & Hid & Hb).
    split; [exact Hid|].
    apply build_person_fields in Hb
      as (Hidn & Hacc & Hst & Hct & Hrl & Hname & Hloc & Hinv & _).
    pose proof (generate_user_name_spec rt
                  (field_cell (build_column_map (columns df)) row "name")
                  (field_cell (build_column_map (columns df)) row "phone")
                  (py_str rt (row id_col))) as [Hn _].
    rewrite Hname in Hn. destruct Hn as [Hn1 Hn2].
    rewrite Hidn. repeat split; assumption.
Qed.

(** Every record the normaliser returns comes from a row of the table,
    and there are no more records than rows. Each record has an identity
    number that is not blank, the account mask made of its last four
    characters, a display name that is neither empty nor a null
    sentinel, one of the five districts as its location, the three fixed
    display constants, and the investment-app flag off. *)
Theorem normalised_records_are_well_formed
    (rt : Runtime) (df : dataframe) :
  let records := process_uploaded_data rt df in
  (List.length records <= List.length (rows df))%nat
  /\ forall p, In p records ->
       (exists row, In row (rows df)
                    /\ process_row rt (build_column_map (columns df)) row
                       = Some p)
       /\ strip (id_number p) <> []
       /\ account p = u "****" ++ last_n 4 (id_number p)
       /\ name p <> [] /\ mem (name p) null_sentinels = false
       /\ In (location p) districts
       /\ status p = u "成功" /\ card_type p = u "储蓄卡"
       /\ risk_level p = u "低"
       /\ has_investment_app p = false.
Proof. exact (process_uploaded_data_fields rt df). Qed.

(** The uploaded sample: one record out of two rows, masked account and
    classified location. *)
Lemma normalised_records_witness :
  exists p,
    process_uploaded_data RefRuntime.runtime Uploads.uploaded = [p]
    /\ account p = u "****1234"
    /\ In (location p) districts.
Proof.
  destruct (process_uploaded_data RefRuntime.runtime Uploads.uploaded)
    as [|p [|q l]] eqn:E;
    [vm_compute in E; discriminate | | vm_compute in E; discriminate].
  exists p. split; [reflexivity|].
  destruct (normalised_records_are_well_formed RefRuntime.runtime
              Uploads.uploaded) as [_ H].
  rewrite E in H.
  destruct (H p (or_introl eq_refl)) as (_ & _ & Ha & _ & _ & Hl & _).
  split; [|exact Hl]. rewrite Ha.
  vm_compute in E. injection E as <-. reflexivity.
Defined.

(** A field whose column is not in the table gets its default in every
    accepted record: amount 0, location "其他", gender unknown, no age, no
    withdraw time, transaction count 1, flags off, warning count 0, empty
    fraud type. *)
Theorem missing_columns_give_defaults
    (rt : Runtime) (cm : column_map) (row : row_t) (p : person) :
  process_row rt cm row = Some p ->
  (cm "amount"%string = None -> amount p = Finite 0)
  /\ (cm "location"%string = None -> location p = u "其他")
  /\ (cm "gender"%string = None -> gender p = unknown)
  /\ (cm "age"%string = None -> age p = None)
  /\ (cm "withdraw_date"%string = None -> withdraw_time p = None)
  /\ (cm "transaction_count"%string = None -> transaction_count p = 1)
  /\ (cm "has_history_warning"%string = None ->
      cm "has_history_fraud"%string = None ->
      has_history_warning p = false)
  /\ (cm "has_special_comm"%string = None -> has_special_comm p = false)
  /\ (cm "has_adult_app"%string = None -> has_adult_app p = false)
  /\ (cm "warning_count"%string = None -> warning_count p = 0)
  /\ (cm "fraud_type"%string = None -> fraud_type p = []).
Proof.
  intros H. pose proof (process_row_count rt cm row p H) as Htc.
  apply process_row_fields in H as (id_col & _ & _ & Hb).
  apply build_person_fields in Hb
    as (_ & _ & _ & _ & _ & _ & _ & _ & Ham & Hage & Hwc & Hloc & Hg & Hwt
        & Hhw & Hsc & Haa & Hft).
  unfold row_amount, field_cell in Ham.
  unfold row_age, field_cell in Hage.
  unfold row_warning_count, field_cell in Hwc.
  unfold row_transaction_count, field_cell in Htc.
  repeat split; try assumption; intros E; rewrite E in *;
    cbn [option_map] in *; congruence.
Qed.

(** A table with an identity and a count column only. *)
Lemma missing_columns_witness :
  exists p,
    process_row RefRuntime.runtime (build_column_map Samples.count_columns)
      (Samples.count_row (CInt 2)) = Some p
    /\ amount p = Finite 0 /\ location p = u "其他" /\ gender p = unknown.
Proof.
  destruct (process_row RefRuntime.runtime
              (build_column_map Samples.count_columns)
              (Samples.count_row (CInt 2))) as [p|] eqn:E;
    [|vm_compute in E; discriminate].
  exists p. split; [reflexivity|].
  destruct (missing_columns_give_defaults RefRuntime.runtime _ _ _ E)
    as (Ha & Hl & Hg & _).
  split; [apply Ha; reflexivity|].
  split; [apply Hl; reflexivity | apply Hg; reflexivity].
Defined.

(** When no header contains any of the identity keywords, the normaliser
    returns no record at all, whatever the rows hold. *)
Theorem no_identity_column_no_records (rt : Runtime) (df : dataframe) :
  (forall k c,
     In k [u "身份证号"; u "身份号码"; u "ID"] -> In c (columns df) ->
     contains k c = false) ->
  process_uploaded_data rt df = [].
Proof.
  intros H. unfold process_uploaded_data.
  assert (E : build_column_map (columns df) "id_number"%string = None).
  { assert (Hcm : build_column_map (columns df) "id_number"%string
                   = truthy_label
                       (find_column_by_keywords (columns df)
                          [u "身份证号"; u "身份号码"; u "ID"]))
      by reflexivity.
    rewrite Hcm.
    pose proof (find_column_by_keywords_spec (columns df)
                  [u "身份证号"; u "身份号码"; u "ID"]) as Hf.
    destruct (find_column_by_keywords (columns df) _) as [col|];
      [|reflexivity].
    destruct Hf as (kpre & kw & kpost & cpre & cpost & Hk & Hc & Hcon & _).
    rewrite (H kw col) in Hcon; [discriminate| |].
    - rewrite Hk. apply in_or_app. right. now left.
    - rewrite Hc. apply in_or_app. right. now left. }
  induction (rows df) as [|row l IH]; [reflexivity|].
  cbn [flat_map]. rewrite IH. unfold process_row. rewrite E. reflexivity.
Qed.

(** A table whose only column is a note. *)
Lemma no_identity_column_witness :
  process_uploaded_data RefRuntime.runtime Samples.notes_only = [].
Proof.
  apply (no_identity_column_no_records RefRuntime.runtime Samples.notes_only).
  intros k c Hk [<-|[]].
  destruct Hk as [<-|[<-|[<-|[]]]]; reflexivity.
Defined.

(** The normaliser never sets the investment-app flag, so for its
    records a clue in the high bucket awards only the special-comm
    weight as app score: 20 or 0, never the further 15. *)
Theorem normalised_records_get_no_investment_weight
    (rt : Runtime) (df : dataframe) (p : person) (c : Q) :
  In p (process_uploaded_data rt df) ->
  (100000 <= c)%Q ->
  exists s,
    calculate_additional_score p c = Ok s
    /\ app_score s = if has_special_comm p then 20 else 0.
Proof.
  intros Hin Hc.
  destruct (process_uploaded_data_fields rt df) as [_ Hwf].
  destruct (Hwf p Hin) as (_ & _ & _ & _ & _ & _ & _ & _ & _ & Hinv).
  destruct (category_cases c) as (_ & _ & Hh).
  pose proof (additional_score_value p c) as H. cbv zeta in H.
  rewrite (proj2 Hh Hc), Hinv in H.
  eexists. split; [exact H|]. cbn [app_score].
  destruct (has_adult_app p), (has_special_comm p); reflexivity.
Qed.

(** The uploaded sample against a clue of 200000: the record has the
    chat flag, and its app score is 20, not 35. *)
Lemma no_investment_weight_witness :
  exists p s,
    In p (process_uploaded_data RefRuntime.runtime Uploads.uploaded)
    /\ calculate_additional_score p 200000 = Ok s
    /\ has_special_comm p = true
    /\ app_score s = 20.
Proof.
  destruct (process_uploaded_data RefRuntime.runtime Uploads.uploaded)
    as [|p l] eqn:E; [vm_compute in E; discriminate|].
  assert (Hin : In p (process_uploaded_data RefRuntime.runtime
                        Uploads.uploaded)) by (rewrite E; now left).
  assert (Hc : (100000 <= 200000)%Q) by (vm_compute; discriminate).
  destruct (normalised_records_get_no_investment_weight RefRuntime.runtime
              Uploads.uploaded p 200000 Hin Hc) as (s & Hs & Happ).
  assert (Hflag : has_special_comm p = true).
  { vm_compute in E. injection E as <- _. reflexivity. }
  exists p, s. split; [left; exact eq_refl|]. split; [exact Hs|].
  split; [exact Hflag|]. rewrite Happ, Hflag. reflexivity.
Defined.

(* ================================================================== *)
(** ** The join, stage by stage *)

Section CollectMore.

Variable rt : Runtime.
Variable accept : ustring -> bool.
Variable key_col : ustring.
Variable ft_col : option ustring.

Let step := collect_step rt accept key_col ft_col.

Lemma collect_types_fold (l : list row_t) (d : info) (k : ustring) :
  types_of (fold_left step l d) k
  = types_of d k ++ labels rt accept key_col ft_col l k.
Proof.
  revert d. induction l as [|row l IH]; intros d.
  - unfold labels. cbn. now rewrite app_nil_r.
  - cbn [fold_left]. rewrite IH. unfold labels. cbn [filter].
    unfold step, collect_step.
    destruct (usable _ && accept _) eqn:E; cbn [andb].
    + unfold types_of at 1. rewrite info_get_bump.
      destruct (eqb k _) eqn:Ek.
      * apply ustring_eqb_eq in Ek. subst k. cbn [flat_map].
        unfold types_of. rewrite <- app_assoc. reflexivity.
      * reflexivity.
    + reflexivity.
Qed.

Lemma info_bump_keys (d : info) (k : ustring) (ft : option ustring) :
  map fst (info_bump d k ft)
  = if mem k (map fst d) then map fst d else map fst d ++ [k].
Proof.
  induction d as [|[k0 [n ts]] d IH]; [reflexivity|].
  cbn [info_bump map fst mem existsb].
  destruct (eqb k k0) eqn:E; cbn [map fst orb].
  - apply ustring_eqb_eq in E. now subst.
  - rewrite IH. unfold mem. destruct (existsb (eqb k) (map fst d));
      reflexivity.
Qed.

Lemma info_bump_positive (d : info) (k : ustring) (ft : option ustring) :
  Forall (fun e => 1 <= fst (snd e)) d ->
  Forall (fun e => 1 <= fst (snd e)) (info_bump d k ft).
Proof.
  induction 1 as [|[k0 [n ts]] d Hn Hd IH]; cbn [info_bump].
  - constructor; [cbn [fst snd]; lia | constructor].
  - destruct (eqb k k0); constructor; cbn [fst snd] in *;
      try assumption; lia.
Qed.

Lemma collect_invariant (l : list row_t) (d : info) :
  NoDup (map fst d) -> Forall (fun e => 1 <= fst (snd e)) d ->
  NoDup (map fst (fold_left step l d))
  /\ Forall (fun e => 1 <= fst (snd e)) (fold_left step l d).
Proof.
  revert d. induction l as [|row l IH]; intros d Hnd Hpos;
    [split; assumption|].
  cbn [fold_left]. apply IH; unfold step, collect_step;
    destruct (usable _ && accept _); try assumption.
  - rewrite info_bump_keys.
    destruct (mem _ (map fst d)) eqn:E; [assumption|].
    apply mem_false_not_In in E.
    apply NoDup_app; [assumption | repeat constructor; intros [] | ].
    intros x Hx [<-|[]]. contradiction.
  - now apply info_bump_positive.
Qed.

Lemma info_get_In (d : info) (k : ustring) (e : Z * list ustring) :
  info_get d k = Some e -> In (k, e) d.
Proof.
  induction d as [|[k0 e0] d IH]; cbn [info_get]; [discriminate|].
  destruct (eqb k k0) eqn:E.
  - apply ustring_eqb_eq in E. subst. intros H. injection H as ->.
    now left.
  - intros H. right. now apply IH.
Qed.

Lemma collect_warning_info_spec
    (warning_rows : list row_t) (k : ustring) :
  let d := collect_warning_info rt accept key_col ft_col warning_rows in
  NoDup (map fst d)
  /\ match info_get d k with
     | Some (count, types) =>
       count = encounters rt accept key_col warning_rows k
       /\ 1 <= count
       /\ types = labels rt accept key_col ft_col warning_rows k
     | None =>
       encounters rt accept key_col warning_rows k = 0
       /\ labels rt accept key_col ft_col warning_rows k = []
     end.
Proof.
  cbv zeta. unfold collect_warning_info. fold step.
  destruct (collect_invariant warning_rows [] (NoDup_nil _) (Forall_nil _))
    as [Hnd Hpos].
  split; [exact Hnd|].
  pose proof (collect_fold rt accept key_col ft_col warning_rows [] k) as Hc.
  pose proof (collect_types_fold warning_rows [] k) as Ht.
  fold step in Hc. unfold count_of in Hc. unfold types_of in Ht.
  cbn [info_get app] in Hc, Ht.
  destruct (info_get (fold_left step warning_rows []) k) as [[n ts]|] eqn:E.
  - split; [lia|]. split; [|exact Ht].
    apply info_get_In in E. rewrite Forall_forall in Hpos.
    apply (Hpos _ E).
  - split; [lia | now symmetry].
Qed.

(** The dictionary built from the warning rows holds, under each key,
    the number of rows that carry the key and their fraud types in row
    order, duplicates kept; a key is absent exactly when no accepted row
    carries it; and no key occurs twice. *)
Theorem warning_info_counts_and_labels
    (warning_rows : list row_t) (k : ustring) :
  let d := collect_warning_info rt accept key_col ft_col warning_rows in
  NoDup (map fst d)
  /\ match info_get d k with
     | Some (count, types) =>
       count = encounters rt accept key_col warning_rows k
       /\ 1 <= count
       /\ types = labels rt accept key_col ft_col warning_rows k
     | None =>
       encounters rt accept key_col warning_rows k = 0
       /\ labels rt accept key_col ft_col warning_rows k = []
     end.
Proof. exact (collect_warning_info_spec warning_rows k). Qed.

End CollectMore.

Lemma suffixed_is_not_types (c : ustring) :
  c ++ u "_x" <> TYPES /\ c ++ u "_y" <> TYPES.
Proof.
  split; intros H; apply (f_equal (fun s => last s 0%N)) in H;
    change (u "_x") with ([95] ++ [120])%N in H;
    change (u "_y") with ([95] ++ [121])%N in H;
    rewrite app_assoc, last_last in H; vm_compute in H; discriminate.
Qed.

Section MergedCell.

Variables lcols rcols : list ustring.
Variable T : ustring.
Hypothesis T_right : In T rcols.
Hypothesis T_not_left : ~ In T lcols.
Hypothesis T_not_suffixed :
  forall c, c ++ u "_x" <> T /\ c ++ u "_y" <> T.

Let overlap := filter (fun c => mem c rcols) lcols.

Lemma suffixed_to_T (sfx o : ustring) :
  (forall c, c ++ sfx <> T) ->
  suffixed overlap sfx o = T -> o = T /\ mem o overlap = false.
Proof.
  intros Hs. unfold suffixed. destruct (mem o overlap) eqn:E.
  - intros H. now apply Hs in H.
  - intros ->. now split.
Qed.

Lemma T_not_overlap : mem T overlap = false.
Proof.
  apply mem_false_not_In. unfold overlap. rewrite filter_In.
  intros [H _]. contradiction.
Qed.

Lemma merged_cell (l : row_t) (r : option row_t) :
  match find (fun o => eqb (suffixed overlap (u "_x") o) T) lcols with
  | Some o => l o
  | None =>
    match find (fun o => eqb (suffixed overlap (u "_y") o) T) rcols, r with
    | Some o, Some r => r o
    | _, _ => CNull
    end
  end
  = match r with
    | Some r => r T
    | None => CNull
    end.
Proof.
  destruct (find (fun o => eqb (suffixed overlap (u "_x") o) T) lcols)
    as [o|] eqn:El.
  { apply find_some in El as [Hin Ho]. apply ustring_eqb_eq in Ho.
    apply suffixed_to_T in Ho as [-> _];
      [contradiction | intros c; apply T_not_suffixed]. }
  destruct (find (fun o => eqb (suffixed overlap (u "_y") o) T) rcols)
    as [o|] eqn:Er.
  - apply find_some in Er as [Hin Ho]. apply ustring_eqb_eq in Ho.
    apply suffixed_to_T in Ho as [-> _];
      [reflexivity | intros c; apply T_not_suffixed].
  - exfalso. pose proof (find_none _ _ Er T T_right) as H.
    cbn beta in H. unfold suffixed in H. rewrite T_not_overlap in H.
    rewrite ustring_eqb_refl in H. discriminate H.
Qed.

Lemma merged_has_T :
  mem T (map (suffixed overlap (u "_x")) lcols
         ++ map (suffixed overlap (u "_y")) rcols) = true.
Proof.
  apply ustring_mem_In, in_or_app. right. apply in_map_iff.
  exists T. split; [|exact T_right].
  unfold suffixed. now rewrite T_not_overlap.
Qed.

End MergedCell.

Lemma map_flat_map_single {A B C : Type} (h : B -> C) (F : A -> list B)
    (G : A -> C) (l : list A) :
  (forall a, In a l -> map h (F a) = [G a]) ->
  map h (flat_map F l) = map G l.
Proof.
  induction l as [|a l IH]; intros H; [reflexivity|].
  cbn [flat_map map]. rewrite map_app, H by now left.
  rewrite IH; [reflexivity|]. intros b Hb. apply H. now right.
Qed.

Lemma filter_absent_key (d : info) (k : ustring) :
  ~ In k (map fst d) -> filter (fun e => eqb k (fst e)) d = [].
Proof.
  induction d as [|[k0 e0] d IH]; intros H; [reflexivity|].
  cbn [filter fst]. destruct (eqb k k0) eqn:E.
  - apply ustring_eqb_eq in E. subst. exfalso. apply H. now left.
  - apply IH. intros Hin. apply H. now right.
Qed.

Lemma filter_key (d : info) (k : ustring) :
  NoDup (map fst d) ->
  filter (fun e => eqb k (fst e)) d
  = match info_get d k with
    | Some e => [(k, e)]
    | None => []
    end.
Proof.
  induction d as [|[k0 e0] d IH]; intros Hnd; [reflexivity|].
  cbn [map fst] in Hnd. apply NoDup_cons_iff in Hnd as [Hk0 Hnd].
  cbn [filter fst info_get]. destruct (eqb k k0) eqn:E.
  - apply ustring_eqb_eq in E. subst k0.
    now rewrite filter_absent_key.
  - now apply IH.
Qed.

Lemma filter_map_comm {A B : Type} (p : B -> bool) (f : A -> B)
    (l : list A) :
  filter p (map f l) = map f (filter (fun a => p (f a)) l).
Proof.
  induction l as [|a l IH]; [reflexivity|].
  cbn [map filter]. destruct (p (f a)); cbn [map]; now rewrite IH.
Qed.

Lemma merge_left_column (L : dataframe) (d : info) (T : ustring)
    (clean : row_t -> ustring) :
  d <> [] -> NoDup (map fst d) ->
  has_column L ID_CLEAN = true ->
  (forall l, In l (rows L) -> l ID_CLEAN = CStr (clean l)) ->
  In T [ID; COUNT; TYPES] -> ~ In T (columns L) ->
  (forall c, c ++ u "_x" <> T /\ c ++ u "_y" <> T) ->
  exists M,
    merge_left L (info_frame d) ID_CLEAN ID = Ok M
    /\ get_column M T
       = Ok (map (fun l => match info_get d (clean l) with
                           | Some e => entry_row (clean l, e) T
                           | None => CNull
                           end) (rows L)).
Proof.
  intros Hne Hnd HL Hclean HT HnT Hsfx.
  destruct d as [|e0 d0]; [congruence|]. set (d := e0 :: d0) in *.
  unfold merge_left. rewrite HL.
  change (has_column (info_frame d) ID) with true.
  cbn [negb orb]. eexists. split; [reflexivity|].
  unfold get_column, has_column at 1. cbn [columns rows info_frame d].
  fold d.
  rewrite (merged_has_T (columns L) [ID; COUNT; TYPES] T HT HnT).
  f_equal. apply map_flat_map_single. intros l Hl.
  rewrite filter_map_comm.
  assert (Hf : filter (fun a => key_eqb (l ID_CLEAN)
                                  (mk_row [(ID, CStr (fst a));
                                           (COUNT, CInt (fst (snd a)));
                                           (TYPES, CStr (join_types
                                                           (snd (snd a))))]
                                     ID)) d
               = filter (fun e => eqb (clean l) (fst e)) d).
  { apply filter_ext. intros a. rewrite (Hclean l Hl). reflexivity. }
  rewrite Hf, (filter_key d (clean l) Hnd).
  destruct (info_get d (clean l)) as [e|]; cbn [map].
  - f_equal.
    apply (merged_cell (columns L) [ID; COUNT; TYPES] T HT HnT Hsfx l
             (Some (entry_row (clean l, e)))).
  - f_equal.
    apply (merged_cell (columns L) [ID; COUNT; TYPES] T HT HnT Hsfx l None).
Qed.

Lemma assign_length (c : ustring) (rs : list row_t) (vs : list cell) :
  List.length (assign c rs vs) = List.length rs.
Proof.
  revert vs. induction rs as [|r rs IH]; intros vs; [reflexivity|].
  destruct vs; cbn [assign List.length]; now rewrite IH.
Qed.

Lemma assign_map (c : ustring) (rs : list row_t) (g : row_t -> cell) :
  assign c rs (map g rs) = map (fun r => upd r c (g r)) rs.
Proof.
  induction rs as [|r rs IH]; [reflexivity|].
  cbn [map assign]. now rewrite IH.
Qed.

Lemma assign_get (c : ustring) (rs : list row_t) (vs : list cell) :
  List.length vs = List.length rs ->
  map (fun r => r c) (assign c rs vs) = vs.
Proof.
  revert vs. induction rs as [|r rs IH]; intros [|v vs] H;
    try discriminate H; [reflexivity|].
  cbn [assign map]. unfold upd at 1. rewrite ustring_eqb_refl.
  f_equal. apply IH. now injection H.
Qed.

Lemma assign_other (c c' : ustring) (rs : list row_t) (vs : list cell) :
  eqb c' c = false ->
  map (fun r => r c') (assign c rs vs) = map (fun r => r c') rs.
Proof.
  intros E. revert vs. induction rs as [|r rs IH]; intros vs;
    [reflexivity|].
  destruct vs; cbn [assign map]; unfold upd at 1; rewrite E;
    now rewrite IH.
Qed.

Lemma id_stage_columns (rt : Runtime) (w d m : dataframe) (v c : ustring)
    (ft : option ustring) :
  let d_info := collect_warning_info rt (fun _ => true) v ft (rows w) in
  let key := fun row : row_t => strip (py_str rt (row c)) in
  d_info <> [] ->
  has_column d COUNT = false ->
  List.length (rows m) = List.length (rows d) ->
  exists out,
    id_stage rt w d m v c ft = Ok out
    /\ List.length (rows out) = List.length (rows d)
    /\ map (fun r => r COUNT) (rows out)
       = map (fun row => CInt (count_of d_info (key row))) (rows d)
    /\ (has_column d TYPES = false ->
        map (fun r => r TYPES) (rows out)
        = map (fun row => CStr (join_types (types_of d_info (key row))))
              (rows d)).
Proof.
  intros d_info key Hne Hcount Hlen.
  destruct (collect_warning_info_spec rt (fun _ => true) v ft (rows w) [])
    as [Hnd _]. fold d_info in Hnd.
  set (U := fun row : row_t => upd row ID_CLEAN (CStr (key row))).
  set (L := set_column d ID_CLEAN
              (map (fun row => CStr (strip (py_str rt (row c)))) (rows d))).
  set (clean := fun l : row_t => match l ID_CLEAN with
                                 | CStr s => s
                                 | _ => []
                                 end).
  assert (HrowsL : rows L = map U (rows d)).
  { unfold L, set_column. cbn [rows]. apply assign_map. }
  assert (HL : has_column L ID_CLEAN = true).
  { apply has_column_In. apply set_column_columns. now left. }
  assert (Hclean : forall l, In l (rows L) -> l ID_CLEAN = CStr (clean l)).
  { intros l Hl. rewrite HrowsL in Hl. apply in_map_iff in Hl as (row & <- & _).
    unfold clean, U, upd. now rewrite ustring_eqb_refl. }
  assert (HcleanU : forall row, clean (U row) = key row).
  { intros row. unfold clean, U, upd. now rewrite ustring_eqb_refl. }
  assert (HnotL : forall T, eqb T ID_CLEAN = false ->
                            has_column d T = false -> ~ In T (columns L)).
  { intros T HT Hd Hin. apply set_column_columns in Hin as [->|Hin].
    - rewrite ustring_eqb_refl in HT. discriminate HT.
    - apply has_column_In in Hin. congruence. }
  destruct (merge_left_column L d_info COUNT clean Hne Hnd HL Hclean)
    as (M & HM & HMc).
  { cbn [In]. tauto. }
  { apply HnotL; [reflexivity | assumption]. }
  { apply suffixed_is_not_count. }
  unfold id_stage. fold d_info. fold L. rewrite HM. cbn [bind].
  rewrite HMc. cbn [bind]. eexists. split; [reflexivity|].
  set (cs := map (fillna (CInt 0)) _).
  assert (Hcs : cs = map (fun row => CInt (count_of d_info (key row)))
                         (rows d)).
  { unfold cs. rewrite HrowsL, !map_map. apply map_ext. intros row.
    rewrite HcleanU. unfold count_of.
    destruct (info_get d_info (key row)) as [[n ts]|]; reflexivity. }
  assert (Hcslen : List.length cs = List.length (rows m)).
  { rewrite Hcs, length_map. now symmetry. }
  split; [|split].
  - unfold set_column. cbn [rows]. now rewrite !assign_length.
  - unfold set_column at 1. cbn [rows].
    rewrite assign_other by reflexivity.
    unfold set_column. cbn [rows]. rewrite assign_get by assumption.
    exact Hcs.
  - intros Htypes.
    destruct (merge_left_column L d_info TYPES clean Hne Hnd HL Hclean)
      as (M' & HM' & HMt).
    { cbn [In]. tauto. }
    { apply HnotL; [reflexivity | assumption]. }
    { apply suffixed_is_not_types. }
    rewrite HM in HM'. injection HM' as <-. rewrite HMt.
    unfold set_column at 1. cbn [rows].
    rewrite assign_get.
    + rewrite HrowsL, !map_map. apply map_ext. intros row.
      rewrite HcleanU. unfold types_of.
      destruct (info_get d_info (key row)) as [[n ts]|]; reflexivity.
    + unfold set_column. cbn [rows].
      rewrite assign_length, !length_map, HrowsL, length_map. now symmetry.
Qed.

Lemma usable_row_gives_entry (rt : Runtime) (accept : ustring -> bool)
    (v : ustring) (ft : option ustring) (ws : list row_t) (row : row_t) :
  In row ws ->
  usable (stripped_or_empty rt (row v)) = true ->
  accept (stripped_or_empty rt (row v)) = true ->
  collect_warning_info rt accept v ft ws <> [].
Proof.
  intros Hin Hu Ha E.
  pose proof (collect_warning_info_counts rt accept v ft ws
                (stripped_or_empty rt (row v))) as Hc.
  rewrite E in Hc. cbn in Hc. unfold encounters in Hc.
  assert (Hf : In row
                 (filter (fun r =>
                            let k' := stripped_or_empty rt (r v) in
                            usable k' && accept k'
                            && eqb (stripped_or_empty rt (row v)) k') ws)).
  { apply filter_In. split; [assumption|]. cbv zeta.
    now rewrite Hu, Ha, ustring_eqb_refl. }
  cbv zeta in Hf.
  match type of Hf with
  | In _ ?l => destruct l; [contradiction|]
  end.
  cbn [List.length] in Hc. lia.
Qed.

Lemma initial_frame_rows (d : dataframe) :
  List.length (rows (initial_frame d)) = List.length (rows d).
Proof.
  unfold initial_frame, set_column_const, set_column. cbn [rows].
  now rewrite !assign_length.
Qed.

Lemma run_id_stage_counts
    (rt : Runtime) (w d : dataframe) (v c : ustring) :
  victim_id_col w = Some v ->
  withdraw_id_col d = Some c ->
  has_column d COUNT = false ->
  (exists row, In row (rows w)
               /\ usable (stripped_or_empty rt (row v)) = true) ->
  let key := fun row : row_t => strip (py_str rt (row c)) in
  exists out,
    run_id_stage rt w d (initial_frame d) = Ok out
    /\ map (fun r => r COUNT) (rows out)
       = map (fun row =>
                CInt (encounters rt (fun _ => true) v (rows w) (key row)))
             (rows d)
    /\ (has_column d TYPES = false ->
        map (fun r => r TYPES) (rows out)
        = map (fun row =>
                 CStr (join_types
                         (labels rt (fun _ => true) v (fraud_type_col w)
                            (rows w) (key row))))
              (rows d)).
Proof.
  intros Hv Hc Hcount (row & Hrow & Hu) key.
  unfold run_id_stage. rewrite Hv, Hc.
  destruct (id_stage_columns rt w d (initial_frame d) v c (fraud_type_col w))
    as (out & Hout & _ & Hcs & Hts).
  - now apply (usable_row_gives_entry rt (fun _ => true) v _ (rows w) row).
  - assumption.
  - apply initial_frame_rows.
  - exists out. split; [exact Hout|]. split.
    + rewrite Hcs. apply map_ext. intros r. f_equal.
      apply collect_warning_info_counts.
    + intros Ht. rewrite (Hts Ht). apply map_ext. intros r. do 2 f_equal.
      pose proof (collect_types_fold rt (fun _ => true) v (fraud_type_col w)
                    (rows w) [] (strip (py_str rt (r c)))) as H.
      exact H.
Qed.

(** First enrichment of a table that has no count column yet, with both
    identity columns resolved and at least one warning row carrying a
    usable identity number: the identity stage completes, and each
    record's count is the number of warning rows whose trimmed identity
    number equals the record's (0 when there is none). If the table has
    no fraud-type column either, each record's label is those rows' fraud
    types joined by ", " in row order, duplicates kept. *)
Theorem identity_stage_counts_per_record
    (rt : Runtime) (w d : dataframe) (v c : ustring) :
  victim_id_col w = Some v ->
  withdraw_id_col d = Some c ->
  has_column d COUNT = false ->
  (exists row, In row (rows w)
               /\ usable (stripped_or_empty rt (row v)) = true) ->
  let key := fun row : row_t => strip (py_str rt (row c)) in
  exists out,
    run_id_stage rt w d (initial_frame d) = Ok out
    /\ map (fun r => r COUNT) (rows out)
       = map (fun row =>
                CInt (encounters rt (fun _ => true) v (rows w) (key row)))
             (rows d)
    /\ (has_column d TYPES = false ->
        map (fun r => r TYPES) (rows out)
        = map (fun row =>
                 CStr (join_types
                         (labels rt (fun _ => true) v (fraud_type_col w)
                            (rows w) (key row))))
              (rows d)).
Proof. exact (run_id_stage_counts rt w d v c). Qed.

(** The sample tables: one record carries the reported identity number. *)
Lemma identity_stage_counts_witness :
  exists out,
    run_id_stage RefRuntime.runtime Samples.warnings Samples.withdrawals
      (initial_frame Samples.withdrawals) = Ok out
    /\ map (fun r => r COUNT) (rows out) = [CInt 1; CInt 0; CInt 0].
Proof.
  destruct (identity_stage_counts_per_record RefRuntime.runtime
              Samples.warnings Samples.withdrawals
              (u "受害人身份证号") (u "身份证号") eq_refl eq_refl eq_refl)
    as (out & Hout & Hc & _).
  - exists (nth 0 (rows Samples.warnings) (fun _ => CNull)).
    split; [now left | reflexivity].
  - exists out. split; [exact Hout|]. rewrite Hc. reflexivity.
Defined.

(** With both identity columns resolved but no warning row carrying a
    usable identity number, the join raises [KeyError] (the frame of
    counts has no key column to merge on); it does not go on to the phone
    stage, whatever the phone columns hold. *)
Theorem no_usable_identity_raises
    (rt : Runtime) (w d : dataframe) (v c : ustring) :
  victim_id_col w = Some v ->
  withdraw_id_col d = Some c ->
  (forall row, In row (rows w) ->
     usable (stripped_or_empty rt (row v)) = false) ->
  merge_warning_count_to_withdraw_records rt w d = Raise KeyError.
Proof.
  intros Hv Hc Hnone.
  assert (E : collect_warning_info rt (fun _ => true) v (fraud_type_col w)
                (rows w) = []).
  { unfold collect_warning_info.
    assert (G : forall l acc, (forall row, In row l -> In row (rows w)) ->
                  fold_left (collect_step rt (fun _ => true) v
                               (fraud_type_col w)) l acc = acc).
    { induction l as [|row l IH]; intros acc Hl; [reflexivity|].
      cbn [fold_left]. unfold collect_step at 2.
      rewrite (Hnone row) by (apply Hl; now left). cbn [andb].
      apply IH. intros r Hr. apply Hl. now right. }
    apply G. auto. }
  unfold merge_warning_count_to_withdraw_records, run_id_stage.
  rewrite Hv, Hc. unfold id_stage. rewrite E.
  unfold merge_left. cbn [info_frame has_column columns mem existsb].
  rewrite orb_true_r. reflexivity.
Qed.

(** A warning table with an identity column and no identity number. *)
Lemma no_usable_identity_witness :
  merge_warning_count_to_withdraw_records RefRuntime.runtime
    Uploads.blank_ids Samples.withdrawals = Raise KeyError.
Proof.
  apply (no_usable_identity_raises RefRuntime.runtime Uploads.blank_ids
           Samples.withdrawals (u "受害人身份证号") (u "身份证号"));
    [reflexivity | reflexivity |].
  intros row [<-|[<-|[]]]; reflexivity.
Defined.

(** The phone stage gives each record still at 0 the number of warning
    rows whose trimmed phone starts with a digit and equals the record's
    trimmed phone, with those rows' fraud types as its label when the
    warning table has a fraud-type column; a record whose phone no such
    row carries is left as it is; no other cell of a record changes. *)
Theorem phone_stage_counts_per_record
    (rt : Runtime) (w m : dataframe) (vp wp : ustring)
    (ft : option ustring) (i : nat) (row : row_t) :
  nth_error (rows m) i = Some row ->
  unmatched row = true ->
  let phone := strip (py_str rt (row wp)) in
  let n := encounters rt (first_is_digit rt) vp (rows w) phone in
  exists row',
    nth_error (rows (phone_stage rt w m vp wp ft)) i = Some row'
    /\ (n = 0 -> row' = row)
    /\ (0 < n ->
        row' COUNT = CInt n
        /\ (ft <> None ->
            row' TYPES
            = CStr (join_types
                      (labels rt (first_is_digit rt) vp ft (rows w) phone)))
        /\ forall c, c <> COUNT -> c <> TYPES -> row' c = row c).
Proof.
  intros Hi Hu phone n. unfold phone_stage.
  assert (Hex : existsb unmatched (rows m) = true).
  { apply existsb_exists. exists row. split; [|assumption].
    eapply nth_error_In; eassumption. }
  rewrite Hex. cbn [rows]. rewrite nth_error_map, Hi. cbn [option_map].
  rewrite Hu. fold phone. unfold phone_warning_info.
  destruct (collect_warning_info_spec rt (first_is_digit rt) vp ft
              (rows w) phone) as [_ Hinfo].
  fold n in Hinfo.
  destruct (info_get _ phone) as [[count types]|].
  - destruct Hinfo as (Hc & Hpos & Ht). eexists. split; [reflexivity|].
    split; [lia|]. intros _.
    assert (Ect : eqb COUNT TYPES = false) by reflexivity.
    assert (Neq : forall a b : ustring, a <> b -> eqb a b = false).
    { intros a b Hab. destruct (eqb a b) eqn:E; [|reflexivity].
      apply ustring_eqb_eq in E. contradiction. }
    destruct ft as [f|]; unfold upd.
    + rewrite Ect, !ustring_eqb_refl. split; [now rewrite Hc|].
      split; [intros _; now rewrite Ht|].
      intros c Hc1 Hc2. now rewrite (Neq c TYPES Hc2), (Neq c COUNT Hc1).
    + rewrite ustring_eqb_refl. split; [now rewrite Hc|].
      split; [congruence|].
      intros c Hc1 Hc2. now rewrite (Neq c COUNT Hc1).
  - destruct Hinfo as [Hn _]. exists row. split; [reflexivity|].
    split; [reflexivity | lia].
Qed.

(** The second sample record has count 0 after the identity stage, and
    its phone was reported twice. *)
Lemma phone_stage_counts_witness :
  exists row',
    nth_error
      (rows (phone_stage RefRuntime.runtime Samples.warnings
               Samples.after_id_stage (u "受害人号码") (u "电话号码")
               (Some (u "疑似诈骗类型")))) 1 = Some row'
    /\ row' COUNT = CInt 2.
Proof.
  destruct (phone_stage_counts_per_record RefRuntime.runtime
              Samples.warnings Samples.after_id_stage
              (u "受害人号码") (u "电话号码") (Some (u "疑似诈骗类型")) 1
              (nth 1 (rows Samples.after_id_stage) (fun _ => CNull))
              eq_refl eq_refl) as (row' & Hnth & _ & Hpos).
  exists row'. split; [exact Hnth|].
  destruct Hpos as [Hc _]; [reflexivity | exact Hc].
Defined.

Lemma assign_same_record (c : ustring) (rs : list row_t) (vs : list cell) :
  c = COUNT \/ c = TYPES -> Forall2 same_record rs (assign c rs vs).
Proof.
  intros Hc. revert vs. induction rs as [|r rs IH]; intros vs;
    [constructor|].
  assert (Hupd : forall v, same_record r (upd r c v)).
  { intros v c' H1 H2. unfold upd. destruct (eqb c' c) eqn:E;
      [|reflexivity].
    apply ustring_eqb_eq in E. subst c'. destruct Hc; contradiction. }
  destruct vs; cbn [assign]; constructor; auto.
Qed.

Lemma same_record_trans (l1 l2 l3 : list row_t) :
  Forall2 same_record l1 l2 -> Forall2 same_record l2 l3 ->
  Forall2 same_record l1 l3.
Proof.
  intros H. revert l3. induction H as [|a b l1 l2 Hab H IH]; intros l3 H3;
    inversion H3 as [|b' c3 l2' l3' Hbc H3']; subst; constructor.
  - intros c Hc1 Hc2. rewrite <- (Hab c Hc1 Hc2). now apply Hbc.
  - now apply IH.
Qed.

Lemma same_record_refl (l : list row_t) : Forall2 same_record l l.
Proof. induction l; constructor; [intros c _ _; reflexivity | assumption]. Qed.

Lemma phone_stage_same_record (rt : Runtime) (w m : dataframe)
    (vp wp : ustring) (ft : option ustring) :
  Forall2 same_record (rows m) (rows (phone_stage rt w m vp wp ft)).
Proof.
  unfold phone_stage. destruct (existsb unmatched (rows m));
    [|apply same_record_refl].
  cbn [rows]. induction (rows m) as [|r rs IH]; cbn [map]; constructor;
    [|exact IH].
  assert (Neq : forall a b : ustring, a <> b -> eqb a b = false).
  { intros a b Hab. destruct (eqb a b) eqn:E; [|reflexivity].
    apply ustring_eqb_eq in E. contradiction. }
  intros c H1 H2. destruct (unmatched r); [|reflexivity].
  destruct (info_get _ _) as [[n ts]|]; [|reflexivity].
  destruct ft; unfold upd; now rewrite ?(Neq c TYPES H2), ?(Neq c COUNT H1).
Qed.

Lemma drop_temporary_rows (df : dataframe) :
  rows (drop_temporary_columns df) = rows df.
Proof.
  unfold drop_temporary_columns, temporary_columns. cbn [fold_left].
  repeat match goal with
         | |- context [if has_column ?d ?c then _ else _] =>
           destruct (has_column d c)
         end; reflexivity.
Qed.

Lemma drop_temporary_columns_iff (df : dataframe) (c : ustring) :
  In c (columns (drop_temporary_columns df))
  <-> In c (columns df) /\ ~ In c temporary_columns.
Proof.
  unfold drop_temporary_columns.
  assert (Hstep : forall (d : dataframe) (t : ustring),
            In c (columns (if has_column d t then drop_column d t else d))
            <-> In c (columns d) /\ c <> t).
  { intros d t. destruct (has_column d t) eqn:E.
    - unfold drop_column. cbn [columns]. rewrite filter_In.
      rewrite negb_true_iff. split.
      + intros [H1 H2]. split; [assumption|]. intros ->.
        rewrite ustring_eqb_refl in H2. discriminate H2.
      + intros [H1 H2]. split; [assumption|].
        destruct (eqb t c) eqn:E2; [|reflexivity].
        apply ustring_eqb_eq in E2. congruence.
    - apply mem_false_not_In in E. split; [|tauto].
      intros H. split; [assumption|]. intros ->. contradiction. }
  unfold temporary_columns. cbn [fold_left In].
  rewrite !Hstep. intuition congruence.
Qed.

(** A completed join returns the withdrawal table itself, enriched: as
    many records in the same order, each unchanged outside the count and
    fraud-type columns; its columns are those of the table together with
    these two, less the six temporary labels. *)
Theorem merge_keeps_the_table
    (rt : Runtime) (w d out : dataframe) :
  merge_warning_count_to_withdraw_records rt w d = Ok out ->
  Forall2 same_record (rows d) (rows out)
  /\ List.length (rows out) = List.length (rows d)
  /\ forall c, In c (columns out)
               <-> (c = COUNT \/ c = TYPES \/ In c (columns d))
                   /\ ~ In c temporary_columns.
Proof.
  intros H.
  assert (Hinit : Forall2 same_record (rows d) (rows (initial_frame d))).
  { unfold initial_frame, set_column_const, set_column. cbn [rows].
    eapply same_record_trans; apply assign_same_record; auto. }
  assert (Hcols0 : forall c, In c (columns (initial_frame d))
                             <-> c = COUNT \/ c = TYPES \/ In c (columns d)).
  { intros c. unfold initial_frame, set_column_const.
    rewrite !set_column_columns. tauto. }
  assert (Hid : forall m, run_id_stage rt w d (initial_frame d) = Ok m ->
            Forall2 same_record (rows d) (rows m)
            /\ forall c, In c (columns m)
                         <-> c = COUNT \/ c = TYPES \/ In c (columns d)).
  { intros m. unfold run_id_stage.
    destruct (victim_id_col w) as [v|];
      [|intros E; injection E as <-; split; assumption].
    destruct (withdraw_id_col d) as [c0|];
      [|intros E; injection E as <-; split; assumption].
    unfold id_stage. destruct (merge_left _ _ _ _); cbn [bind];
      [|discriminate].
    destruct (get_column _ COUNT); cbn [bind]; [|discriminate].
    intros E. injection E as <-. split.
    - unfold set_column. cbn [rows].
      eapply same_record_trans; [exact Hinit|].
      eapply same_record_trans; apply assign_same_record; auto.
    - intros c. rewrite !set_column_columns, Hcols0. tauto. }
  revert H. unfold merge_warning_count_to_withdraw_records.
  assert (Hfin : forall m,
            run_id_stage rt w d (initial_frame d) = Ok m ->
            Ok (drop_temporary_columns (run_phone_stage rt w d m)) = Ok out ->
            Forall2 same_record (rows d) (rows out)
            /\ List.length (rows out) = List.length (rows d)
            /\ forall c, In c (columns out)
                         <-> (c = COUNT \/ c = TYPES \/ In c (columns d))
                             /\ ~ In c temporary_columns).
  { intros m Hm E. injection E as <-.
    destruct (Hid m Hm) as [Hrows Hcols].
    assert (Hph : Forall2 same_record (rows m)
                    (rows (run_phone_stage rt w d m))
                  /\ columns (run_phone_stage rt w d m) = columns m).
    { unfold run_phone_stage.
      destruct (victim_phone_col w); [|split; [apply same_record_refl|easy]].
      destruct (withdraw_phone_col d);
        [|split; [apply same_record_refl|easy]].
      split; [apply phone_stage_same_record | apply phone_stage_columns]. }
    destruct Hph as [Hph Hpc].
    assert (Hall : Forall2 same_record (rows d)
                     (rows (drop_temporary_columns
                              (run_phone_stage rt w d m)))).
    { rewrite drop_temporary_rows. eapply same_record_trans; eassumption. }
    split; [exact Hall|]. split.
    - symmetry. eapply Forall2_length; exact Hall.
    - intros c. rewrite drop_temporary_columns_iff, Hpc, Hcols. tauto. }
  destruct (victim_id_col w) as [vi|] eqn:Evi,
           (victim_phone_col w) as [vp|] eqn:Evp,
           (withdraw_id_col d) as [wi|] eqn:Ewi,
           (withdraw_phone_col d) as [wp|] eqn:Ewp;
    try discriminate;
    (destruct (run_id_stage rt w d (initial_frame d)) as [m|] eqn:Em;
     cbn [bind]; [|discriminate]; intros E; now apply (Hfin m)).
Qed.

(** The sample tables: three records in, three records out. *)
Lemma merge_keeps_the_table_witness :
  merge_warning_count_to_withdraw_records RefRuntime.runtime
    Samples.warnings Samples.withdrawals = Ok Samples.enriched
  /\ List.length (rows Samples.enriched) = 3%nat
  /\ In COUNT (columns Samples.enriched).
Proof.
  assert (H : merge_warning_count_to_withdraw_records RefRuntime.runtime
                Samples.warnings Samples.withdrawals = Ok Samples.enriched).
  { unfold Samples.enriched.
    destruct (merge_warning_count_to_withdraw_records RefRuntime.runtime
                Samples.warnings Samples.withdrawals) eqn:E;
      [reflexivity | vm_compute in E; discriminate]. }
  split; [exact H|].
  destruct (merge_keeps_the_table RefRuntime.runtime Samples.warnings
              Samples.withdrawals Samples.enriched H) as (_ & Hlen & Hcols).
  split; [exact Hlen|].
  destruct (Hcols COUNT) as [_ Hc]. apply Hc. split; [now left|].
  unfold temporary_columns. cbn [In]. intros E.
  repeat (destruct E as [E|E]; [discriminate E|]). exact E.
Defined.

Lemma phone_stage_rows (rt : Runtime) (w m : dataframe) (vp wp : ustring)
    (ft : option ustring) :
  rows (phone_stage rt w m vp wp ft)
  = map (fun row =>
           if unmatched row then
             match info_get (phone_warning_info rt w vp ft)
                     (strip (py_str rt (row wp))) with
             | Some (count, types) =>
               match ft with
               | Some _ => upd (upd row COUNT (CInt count)) TYPES
                             (CStr (join_types types))
               | None => upd row COUNT (CInt count)
               end
             | None => row
             end
           else row) (rows m).
Proof.
  unfold phone_stage. destruct (existsb unmatched (rows m)) eqn:E;
    [reflexivity|].
  rewrite <- (map_id (rows m)) at 1. apply map_ext_in. intros row Hin.
  destruct (unmatched row) eqn:Eu; [|reflexivity].
  assert (existsb unmatched (rows m) = true)
    by (apply existsb_exists; eauto).
  congruence.
Qed.

Lemma Forall2_with_maps {A B C : Type} (R : A -> B -> Prop) (f : B -> C)
    (g : A -> C) (l1 : list A) (l2 : list B) :
  Forall2 R l1 l2 -> map f l2 = map g l1 ->
  Forall2 (fun a b => f b = g a /\ R a b) l1 l2.
Proof.
  induction 1 as [|a b l1 l2 Hab H IH]; intros E; [constructor|].
  cbn [map] in E. injection E as E1 E2. constructor; auto.
Qed.

Lemma Forall2_map_eq {A B C : Type} (P : A -> B -> Prop) (h : B -> C)
    (k : A -> C) (l1 : list A) (l2 : list B) :
  Forall2 P l1 l2 -> (forall a b, P a b -> h b = k a) ->
  map h l2 = map k l1.
Proof.
  induction 1 as [|a b l1 l2 Hab H IH]; intros Hk; [reflexivity|].
  cbn [map]. f_equal; auto.
Qed.

Lemma id_stage_same_record (rt : Runtime) (w d m : dataframe) :
  run_id_stage rt w d (initial_frame d) = Ok m ->
  Forall2 same_record (rows d) (rows m).
Proof.
  assert (Hinit : Forall2 same_record (rows d) (rows (initial_frame d))).
  { unfold initial_frame, set_column_const, set_column. cbn [rows].
    eapply same_record_trans; apply assign_same_record; auto. }
  unfold run_id_stage.
  destruct (victim_id_col w) as [v|]; [|intros E; now injection E as <-].
  destruct (withdraw_id_col d) as [c0|]; [|intros E; now injection E as <-].
  unfold id_stage. destruct (merge_left _ _ _ _); cbn [bind];
    [|discriminate].
  destruct (get_column _ COUNT); cbn [bind]; [|discriminate].
  intros E. injection E as <-. unfold set_column. cbn [rows].
  eapply same_record_trans; [exact Hinit|].
  eapply same_record_trans; apply assign_same_record; auto.
Qed.

Lemma phone_column_is_no_result_column (d : dataframe) (wp : ustring) :
  withdraw_phone_col d = Some wp -> has_column d COUNT = false ->
  wp <> COUNT /\ wp <> TYPES.
Proof.
  unfold withdraw_phone_col. intros H Hc.
  pose proof (find_column_by_keywords_spec (columns d)
                [u "电话号码"; u "手机号"; u "电话"; u "联系方式"]) as Hf.
  destruct (find_column_by_keywords (columns d) _) as [col|];
    [|discriminate H].
  assert (col = wp) by (destruct col; [discriminate H | now injection H]).
  subst col.
  destruct Hf as (kpre & kw & kpost & cpre & cpost & Hk & Hcols & Hcon & _).
  split.
  - intros ->. apply mem_false_not_In in Hc. apply Hc. rewrite Hcols.
    apply in_or_app. right. now left.
  - intros ->.
    assert (Hin : In kw [u "电话号码"; u "手机号"; u "电话"; u "联系方式"]).
    { rewrite Hk. apply in_or_app. right. now left. }
    cbn [In] in Hin.
    destruct Hin as [<-|[<-|[<-|[<-|[]]]]]; vm_compute in Hcon;
      discriminate Hcon.
Qed.

(** First enrichment, end to end. For a table with no count column, all
    four key columns resolved and at least one usable identity number
    among the warning rows, the join completes and each record's count is
    its identity count when that is not 0, and otherwise its phone count:
    the number of warning rows carrying the record's trimmed identity
    number, or else the number carrying its trimmed, digit-first phone. *)
Theorem first_enrichment_counts
    (rt : Runtime) (w d : dataframe) (v c vp wp : ustring) :
  victim_id_col w = Some v ->
  withdraw_id_col d = Some c ->
  victim_phone_col w = Some vp ->
  withdraw_phone_col d = Some wp ->
  has_column d COUNT = false ->
  (exists row, In row (rows w)
               /\ usable (stripped_or_empty rt (row v)) = true) ->
  exists out,
    merge_warning_count_to_withdraw_records rt w d = Ok out
    /\ map (fun r => r COUNT) (rows out)
       = map (fun row =>
                let by_id :=
                  encounters rt (fun _ => true) v (rows w)
                    (strip (py_str rt (row c))) in
                let by_phone :=
                  encounters rt (first_is_digit rt) vp (rows w)
                    (strip (py_str rt (row wp))) in
                CInt (if by_id =? 0 then by_phone else by_id))
             (rows d).
Proof.
  intros Hv Hc Hvp Hwp Hcount Hrow.
  destruct (run_id_stage_counts rt w d v c Hv Hc Hcount Hrow)
    as (m & Hm & Hcs & _). cbv zeta in Hcs.
  destruct (phone_column_is_no_result_column d wp Hwp Hcount) as [Hw1 Hw2].
  pose proof (id_stage_same_record rt w d m Hm) as Hsame.
  pose proof (Forall2_with_maps _ _ _ _ _ Hsame Hcs) as Hboth.
  unfold merge_warning_count_to_withdraw_records.
  rewrite Hv, Hc, Hm. cbn [bind]. eexists. split; [reflexivity|].
  rewrite drop_temporary_rows. unfold run_phone_stage. rewrite Hvp, Hwp.
  rewrite phone_stage_rows, map_map.
  apply (Forall2_map_eq _ _ _ _ _ Hboth).
  intros row r [Hr Hs]. cbv zeta.
  set (a := encounters rt (fun _ => true) v (rows w)
              (strip (py_str rt (row c)))) in *.
  unfold unmatched. rewrite Hr.
  destruct (a =? 0) eqn:Ea; [|exact Hr].
  rewrite (Hs wp Hw1 Hw2).
  destruct (collect_warning_info_spec rt (first_is_digit rt) vp
              (fraud_type_col w) (rows w) (strip (py_str rt (row wp))))
    as [_ Hinfo].
  unfold phone_warning_info.
  destruct (info_get _ _) as [[n ts]|].
  - destruct Hinfo as (-> & _ & _).
    destruct (fraud_type_col w); unfold upd; reflexivity.
  - destruct Hinfo as [-> _]. rewrite Hr. apply Z.eqb_eq in Ea.
    now rewrite Ea.
Qed.

(** The sample tables: the counts are 1 by identity number, 2 by phone
    and 0. *)
Lemma first_enrichment_witness :
  exists out,
    merge_warning_count_to_withdraw_records RefRuntime.runtime
      Samples.warnings Samples.withdrawals = Ok out
    /\ map (fun r => r COUNT) (rows out) = [CInt 1; CInt 2; CInt 0].
Proof.
  destruct (first_enrichment_counts RefRuntime.runtime Samples.warnings
              Samples.withdrawals (u "受害人身份证号") (u "身份证号")
              (u "受害人号码") (u "电话号码")
              eq_refl eq_refl eq_refl eq_refl eq_refl)
    as (out & Hout & Hc).
  - exists (nth 0 (rows Samples.warnings) (fun _ => CNull)).
    split; [now left | reflexivity].
  - exists out. split; [exact Hout|]. rewrite Hc. reflexivity.
Defined.


(* ================================================================== *)
(** ** The upload filter *)

Lemma contains_char (c : uchar) (s : ustring) :
  contains [c] s = true <-> In c s.
Proof.
  induction s as [|d s IH]; cbn [contains startswith In].
  - split; [discriminate | contradiction].
  - rewrite orb_true_iff, IH. destruct s; cbn [startswith];
      rewrite ?andb_true_r; rewrite N.eqb_eq; split;
      intros [H|H]; auto.
Qed.

Lemma rsplit_once_cases (sep : uchar) (s : ustring) :
  (~ In sep s /\ App.rsplit_once sep s = [s])
  \/ (exists head tail,
        s = head ++ sep :: tail /\ ~ In sep tail
        /\ App.rsplit_once sep s = [head; tail]).
Proof.
  induction s as [|c s IH]; [left; split; [intros []|reflexivity]|].
  cbn [App.rsplit_once].
  destruct IH as [[Hno E]|(h & t & Hs & Hno & E)]; rewrite E.
  - destruct (c =? sep)%N eqn:Ec.
    + apply N.eqb_eq in Ec. subst c. right. exists [], s. auto.
    + apply N.eqb_neq in Ec. left. split; [|reflexivity].
      intros [H|H]; [congruence | auto].
  - right. exists (c :: h), t. rewrite Hs. auto.
Qed.

Lemma split_at_last (sep : uchar) (h t h' t' : ustring) :
  h ++ sep :: t = h' ++ sep :: t' -> ~ In sep t -> ~ In sep t' ->
  h = h' /\ t = t'.
Proof.
  revert h'. induction h as [|c h IH]; intros [|c' h'] E Ht Ht';
    cbn [app] in E.
  - injection E as E. auto.
  - injection E as E1 E2. subst. exfalso. apply Ht.
    apply in_or_app. right. now left.
  - injection E as E1 E2. subst. exfalso. apply Ht'.
    apply in_or_app. right. now left.
  - injection E as E1 E2. subst.
    destruct (IH h' E2 Ht Ht') as [-> ->]. auto.
Qed.

(** The upload filter never raises. It accepts a file name exactly when
    the name has a dot and the text after its last dot, in lower case, is
    csv, xlsx or xls; a name without a dot is rejected. *)
Theorem allowed_file_by_last_extension (rt : Runtime) (filename : ustring) :
  (exists b, App._allowed_file rt filename = Some b)
  /\ (App._allowed_file rt filename = Some true
      <-> exists stem ext,
            filename = stem ++ App.dot :: ext
            /\ ~ In App.dot ext
            /\ In (str_lower rt ext) App.ALLOWED_EXTENSIONS)
  /\ (~ In App.dot filename -> App._allowed_file rt filename = Some false).
Proof.
  unfold App._allowed_file.
  destruct (contains [App.dot] filename) eqn:Ec.
  - apply contains_char in Ec.
    assert (Hne : eqb filename [] = false)
      by (destruct filename; [contradiction | reflexivity]).
    rewrite Hne. cbn [orb negb].
    destruct (rsplit_once_cases App.dot filename)
      as [[Hno _]|(h & t & Hs & Hno & E)]; [contradiction|].
    rewrite E. cbn [nth_error]. split; [eauto|]. split.
    + split.
      * intros H. injection H as H. exists h, t.
        split; [exact Hs|]. split; [exact Hno|].
        now apply ustring_mem_In.
      * intros (stem & ext & Hs' & Hno' & Hin). rewrite Hs in Hs'.
        destruct (split_at_last _ _ _ _ _ Hs' Hno Hno') as [_ ->].
        f_equal. now apply ustring_mem_In.
    + intros H. contradiction.
  - rewrite orb_true_r. split; [eauto|]. split; [|reflexivity].
    split; [discriminate|].
    intros (stem & ext & Hs & _). exfalso.
    assert (H : In App.dot filename)
      by (rewrite Hs; apply in_or_app; right; now left).
    apply contains_char in H. congruence.
Qed.

(* ================================================================== *)
(** ** Dates *)

Lemma first_format_fold (rt : Runtime) (s : ustring) (fmts : list nat)
    (t : Z) :
  fold_left (fun found fmt =>
               match found with
               | Some t => Some t
               | None => strptime rt s fmt
               end) fmts (Some t) = Some t.
Proof. induction fmts; [reflexivity | assumption]. Qed.

(** Dates. A null date gives no time. A timestamp with no usable time
    cell is returned as it is. With a usable time cell the text
    "date time" is tried against the six formats in order and the first
    one that parses gives the time; when none parses the generic parser
    decides. *)
Theorem parse_datetime_first_format_wins
    (rt : Runtime) (date_value : cell) (time_value : option cell) :
  (isna date_value = true -> parse_datetime rt date_value time_value = None)
  /\ (forall t,
        date_value = CTime t ->
        (time_value = None \/ exists tv, time_value = Some tv
                                         /\ isna tv = true) ->
        parse_datetime rt date_value time_value = Some t)
  /\ (forall tv,
        isna date_value = false -> time_value = Some tv ->
        isna tv = false ->
        let text := py_str rt date_value ++ u " " ++ py_str rt tv in
        (forall pre fmt post t,
           datetime_formats = pre ++ fmt :: post ->
           (forall f, In f pre -> strptime rt text f = None) ->
           strptime rt text fmt = Some t ->
           parse_datetime rt date_value time_value = Some t)
        /\ ((forall f, In f datetime_formats -> strptime rt text f = None) ->
            parse_datetime rt date_value time_value
            = to_datetime rt (CStr text))).
Proof.
  unfold parse_datetime. split; [intros ->; reflexivity|]. split.
  - intros t -> [->|(tv & -> & ->)]; reflexivity.
  - intros tv -> -> ->. cbv zeta. split.
    + intros pre fmt post t -> Hpre Hfmt.
      rewrite fold_left_app. cbn [fold_left].
      assert (Hnone : forall acc,
                acc = None ->
                fold_left (fun found fmt0 =>
                             match found with
                             | Some t0 => Some t0
                             | None =>
                               strptime rt
                                 (py_str rt date_value ++ u " "
                                  ++ py_str rt tv) fmt0
                             end) pre acc = None).
      { clear Hfmt. induction pre as [|f pre IH]; intros acc ->;
          [reflexivity|].
        cbn [fold_left]. apply IH.
        - intros f' Hf'. apply Hpre. now right.
        - apply Hpre. now left. }
      rewrite (Hnone None eq_refl), Hfmt, first_format_fold. reflexivity.
    + intros Hall.
      assert (Hnone : forall fmts,
                (forall f, In f fmts ->
                   strptime rt (py_str rt date_value ++ u " "
                                ++ py_str rt tv) f = None) ->
                fold_left (fun found fmt0 =>
                             match found with
                             | Some t0 => Some t0
                             | None =>
                               strptime rt
                                 (py_str rt date_value ++ u " "
                                  ++ py_str rt tv) fmt0
                             end) fmts None = None).
      { induction fmts as [|f fmts IH]; intros H; [reflexivity|].
        cbn [fold_left]. rewrite (H f (or_introl eq_refl)).
        apply IH. intros f' Hf'. apply H. now right. }
      rewrite (Hnone _ Hall). reflexivity.
Qed.
